(** * Student apartment application: roster and hall-preference handlers

    A shallow embedding of the state handlers of
    [src/views/ApartmentApp/components/StudentApplication/index.js]
    (the React component [StudentApplication]), of the lodash helper
    [sortBy] they rely on and of [loadHalls] of [HallSelection/index.js],
    followed by the properties of the handlers.

    Conventions of the embedding.
    - The component state (the [useState] cells) is the record [State];
      a handler is a function on [State].  A handler runs to completion
      on the state of the render that created it, so the closure value
      [applicationDetails] and the argument of a functional updater
      ([prevApplicationDetails]) are the same aggregate.
    - [await] is a synchronous call of an oracle for the remote service;
      every call is appended to the request log [requests] of the state,
      and the oracle may depend on that log.
    - A rejected promise or a thrown exception is a value of [error];
      an exception no handler catches is the result [None].
    - JavaScript numbers are the integers and [NaN]; fractional and
      infinite doubles are outside the embedding.
    - A string is the sequence of the bytes of its UTF-8 encoding.
    - Objects are kept as values.  The one write the handlers make to
      an object they were handed is that of [isApplicantValid], which
      fills in a missing [fullName] of the profile of the applicant it
      checks; it is carried to whoever holds the applicant:
      [isApplicantValid] gives back the applicant as the call leaves
      it, [addApplicant] appends that one, and the checks of a save or
      of a submission store the applicants checked in the aggregate
      when they are the aggregate's own.  A profile object that is at
      once the profile of an applicant and [EditorProfile] or
      [newEditorProfile] (as [userProfile] is in a draft) is kept as
      two values; such a profile without a [fullName] is outside the
      embedding. *)

From Stdlib Require Import ZArith NArith Ascii String Sorted.
From stdpp Require Import base list strings pretty.

Local Open Scope string_scope.

(** ** JavaScript values *)

Module JS.

Inductive number := NaN | Num (z : Z).

Inductive value :=
| VUndefined
| VNull
| VBoolean (b : bool)
| VNumber (n : number)
| VString (s : string).

#[global] Instance number_eq_dec : EqDecision number.
Proof. solve_decision. Defined.

(** A property that is read only to be compared with [===] or [!==]:
    its value, [null], or [undefined] when the object has no such
    property.  The three are told apart. *)
Inductive property (A : Type) := Undefined | Null | Defined (a : A).
Arguments Undefined {A}.
Arguments Null {A}.
Arguments Defined {A}.

#[global] Instance property_eq_dec {A} `{EqDecision A} : EqDecision (property A).
Proof. solve_decision. Defined.

(** [a > b], [a < b] and [a === b] on numbers: every comparison with
    [NaN] is false. *)
Definition gt (a b : number) : bool :=
  match a, b with
  | Num x, Num y => (y <? x)%Z
  | _, _ => false
  end.

Definition lt (a b : number) : bool :=
  match a, b with
  | Num x, Num y => (x <? y)%Z
  | _, _ => false
  end.

Definition strict_eq (a b : number) : bool :=
  match a, b with
  | Num x, Num y => (x =? y)%Z
  | _, _ => false
  end.

(** [a ?? b]: a nullable operand is an [option], [None] standing for
    [null] and [undefined]. *)
Definition coalesce {A} (a : option A) (b : A) : A :=
  match a with
  | Some x => x
  | None => b
  end.

(** [String(x)] of a nullable string. *)
Definition String_ (x : option string) : string :=
  match x with
  | Some s => s
  | None => "undefined"
  end.

(** [s.includes(sub)] *)
Fixpoint includes (s sub : string) : bool :=
  String.prefix sub s ||
  match s with
  | EmptyString => false
  | String _ s' => includes s' sub
  end.

(** The UTF-8 encoding of a code point. *)
Definition utf8 (c : N) : list ascii :=
  (if c <? 0x80 then [ascii_of_N c]
   else if c <? 0x800 then
     [ascii_of_N (0xC0 + c / 0x40); ascii_of_N (0x80 + c mod 0x40)]
   else if c <? 0x10000 then
     [ascii_of_N (0xE0 + c / 0x1000); ascii_of_N (0x80 + (c / 0x40) mod 0x40);
      ascii_of_N (0x80 + c mod 0x40)]
   else
     [ascii_of_N (0xF0 + c / 0x40000); ascii_of_N (0x80 + (c / 0x1000) mod 0x40);
      ascii_of_N (0x80 + (c / 0x40) mod 0x40); ascii_of_N (0x80 + c mod 0x40)])%N.

(** The code points that [trim] strips: WhiteSpace (TAB, VT, FF,
    ZWNBSP and the space separators of Unicode) and LineTerminator
    (LF, CR, LS, PS) of ECMA-262. *)
Definition whiteSpace : list N :=
  [0x0009; 0x000B; 0x000C; 0xFEFF;
   0x0020; 0x00A0; 0x1680; 0x2000; 0x2001; 0x2002; 0x2003; 0x2004; 0x2005;
   0x2006; 0x2007; 0x2008; 0x2009; 0x200A; 0x202F; 0x205F; 0x3000;
   0x000A; 0x000D; 0x2028; 0x2029]%N.

(** [l] without [p] at its start, when it starts with [p]. *)
Fixpoint dropPrefix (p l : list ascii) : option (list ascii) :=
  match p, l with
  | [], _ => Some l
  | a :: p', b :: l' => if Ascii.eqb a b then dropPrefix p' l' else None
  | _ :: _, [] => None
  end.

(** [l] without the first of [ps] that it starts with. *)
Fixpoint dropOne (ps : list (list ascii)) (l : list ascii) : option (list ascii) :=
  match ps with
  | [] => None
  | p :: ps' =>
      match dropPrefix p l with
      | Some rest => Some rest
      | None => dropOne ps' l
      end
  end.

(** [l] without the [ps] it starts with, one after the other, in at
    most [rounds] rounds. *)
Fixpoint dropAll (ps : list (list ascii)) (rounds : nat) (l : list ascii) : list ascii :=
  match rounds with
  | O => l
  | S rounds =>
      match dropOne ps l with
      | Some rest => dropAll ps rounds rest
      | None => l
      end
  end.

(** [s.trimStart()], [s.trimEnd()] and [s.trim()].  A white space
    takes a byte at least, so as many rounds as the string has bytes
    strip every white space. *)
Definition trimStart (s : string) : string :=
  let l := list_ascii_of_string s in
  string_of_list_ascii (dropAll (utf8 <$> whiteSpace) (length l) l).

Definition trimEnd (s : string) : string :=
  let l := list_ascii_of_string s in
  string_of_list_ascii
    (reverse (dropAll ((reverse ∘ utf8) <$> whiteSpace) (length l) (reverse l))).

Definition trim (s : string) : string := trimEnd (trimStart s).

(** [a < b] and [a > b] on strings go by the UTF-16 code units.  On
    the bytes of UTF-8 this is the order of the bytes, but for one
    point: a code point above U+FFFF is a pair of surrogates in UTF-16
    and so comes before the code points from U+E000 to U+FFFF, while
    its first byte in UTF-8 (F0 to F4) comes after theirs (EE, EF).
    [unitOrder] moves EE and EF behind the other first bytes (to FE and
    FF, which UTF-8 does not use). *)
Definition unitOrder (c : ascii) : ascii :=
  match N_of_ascii c with
  | 0xEE => ascii_of_N 0xFE
  | 0xEF => ascii_of_N 0xFF
  | 0xFE => ascii_of_N 0xEE
  | 0xFF => ascii_of_N 0xEF
  | _ => c
  end%N.

Fixpoint unitsOrder (s : string) : string :=
  match s with
  | EmptyString => EmptyString
  | String c s' => String (unitOrder c) (unitsOrder s')
  end.

Definition compareStrings (a b : string) : comparison :=
  String.compare (unitsOrder a) (unitsOrder b).

(** A string is truthy when it is not empty. *)
Definition truthy (s : string) : bool :=
  negb (String.eqb s "").

Section ToNumber.
(** The runtime's conversion of a string to a number
    (StringToNumber of ECMA-262). *)
Variable StringToNumber : string -> number.

(** [Number(v)] *)
Definition Number (v : value) : number :=
  match v with
  | VUndefined => NaN
  | VNull => Num 0
  | VBoolean b => if b then Num 1 else Num 0
  | VNumber n => n
  | VString s => StringToNumber s
  end.
End ToNumber.

(** [arr.some(f)], [arr.filter(f)] with a callback that may throw. *)
Fixpoint some {A} (f : A -> option bool) (arr : list A) : option bool :=
  match arr with
  | [] => Some false
  | x :: arr' =>
      match f x with
      | None => None
      | Some true => Some true
      | Some false => some f arr'
      end
  end.

Fixpoint filter_ {A} (f : A -> option bool) (arr : list A) : option (list A) :=
  match arr with
  | [] => Some []
  | x :: arr' =>
      match f x with
      | None => None
      | Some b =>
          match filter_ f arr' with
          | None => None
          | Some r => Some (if b then x :: r else r)
          end
      end
  end.

(** [arr.filter((x, index) => f(index))] *)
Fixpoint filter_index {A} (f : nat -> bool) (start : nat) (arr : list A) : list A :=
  match arr with
  | [] => []
  | x :: arr' =>
      if f start then x :: filter_index f (S start) arr'
      else filter_index f (S start) arr'
  end.

(** [arr.map((x, j) => j === index ? y : x)] *)
Fixpoint map_replace {A} (index : Z) (y : A) (start : nat) (arr : list A) : list A :=
  match arr with
  | [] => []
  | x :: arr' =>
      (if (Z.of_nat start =? index)%Z then y else x)
        :: map_replace index y (S start) arr'
  end.

(** [arr.sort(comparer)], as an insertion sort.  The comparer used
    here ([compareMultiple]) is a total order on entries whose first
    keys are numbers, so on them every sorting algorithm gives this
    result; with several [NaN] keys the comparer is not an order and
    the result of an engine may differ. *)
Fixpoint sort_insert {A} (comparer : A -> A -> Z) (x : A) (sorted : list A) : list A :=
  match sorted with
  | [] => [x]
  | y :: sorted' =>
      if (comparer x y <=? 0)%Z then x :: y :: sorted'
      else y :: sort_insert comparer x sorted'
  end.

Definition sort {A} (comparer : A -> A -> Z) (arr : list A) : list A :=
  foldr (sort_insert comparer) [] arr.

End JS.

(** ** lodash: [sortBy] *)

Module Lodash.
Import JS.

(** What [compareAscending] needs of a key: [===], [>] and [<]. *)
Class Key (K : Type) := {
  key_eq : K -> K -> bool;
  key_gt : K -> K -> bool;
  key_lt : K -> K -> bool
}.

#[global] Instance number_key : Key number :=
  {| key_eq := strict_eq; key_gt := gt; key_lt := lt |}.

#[global] Instance string_key : Key string :=
  {| key_eq := String.eqb;
     key_gt := fun a b => if compareStrings a b is Gt then true else false;
     key_lt := fun a b => if compareStrings a b is Lt then true else false |}.

(** [compareAscending(value, other)] on keys that are numbers or
    strings (the branches for [undefined], [null] and symbols never
    fire on them).  A key that is not equal to itself ([NaN]) sorts
    last. *)
Definition compareAscending {K} `{Key K} (value other : K) : Z :=
  if negb (key_eq value other) then
    let valIsReflexive := key_eq value value in
    let othIsReflexive := key_eq other other in
    if key_gt value other || negb valIsReflexive then 1%Z
    else if key_lt value other || negb othIsReflexive then (-1)%Z
    else 0%Z
  else 0%Z.

(** The entries [baseOrderBy] sorts: the two criteria, the position in
    the input and the element. *)
Record entry (A : Type) := Entry {
  criteria1 : number;
  criteria2 : string;
  index : nat;
  value_ : A
}.
Arguments Entry {A}.
Arguments criteria1 {A}.
Arguments criteria2 {A}.
Arguments index {A}.
Arguments value_ {A}.

(** [compareMultiple(object, other, [])]: ascending on each criterion,
    then by position. *)
Definition compareMultiple {A} (object other : entry A) : Z :=
  let result := compareAscending (criteria1 object) (criteria1 other) in
  if negb (result =? 0)%Z then result
  else
    let result := compareAscending (criteria2 object) (criteria2 other) in
    if negb (result =? 0)%Z then result
    else (Z.of_nat (index object) - Z.of_nat (index other))%Z.

(** [sortBy(collection, [k1, k2])] for a numeric first key and a
    string second key. *)
Definition sortBy {A} (k1 : A -> number) (k2 : A -> string) (collection : list A) : list A :=
  map value_
    (sort compareMultiple
       (imap (fun i x => Entry (k1 x) (k2 x) i x) collection)).

End Lodash.

(** ** Data model *)

(** [StudentProfileInfo] (services/user): the fields the handlers read.
    [fullName] is absent ([None]) until something fills it in. *)
Module Profile.
Record t := Make {
  AD_Username : string;
  FirstName : string;
  LastName : string;
  fullName : option string;
  PersonType : string;
  Gender : JS.property string
}.

Definition set_fullName (v : option string) (p : t) : t :=
  Make (AD_Username p) (FirstName p) (LastName p) v (PersonType p) (Gender p).

#[global] Instance eq_dec : EqDecision t.
Proof. solve_decision. Defined.
End Profile.

(** [ApartmentApplicant]; [Profile] is [None] when it is [null]. *)
Module Applicant.
Record t := Make {
  ApplicationID : option Z;
  Profile : option Profile.t;
  Username : string;
  OffCampusProgram : string
}.

Definition set_Profile (v : option Profile.t) (a : t) : t :=
  Make (ApplicationID a) v (Username a) (OffCampusProgram a).

Definition set_OffCampusProgram (v : string) (a : t) : t :=
  Make (ApplicationID a) (Profile a) (Username a) v.

#[global] Instance eq_dec : EqDecision t.
Proof. solve_decision. Defined.
End Applicant.

(** [ApartmentChoice] *)
Module Choice.
Record t := Make {
  ApplicationID : option Z;
  HallRank : JS.number;
  HallName : string
}.

Definition set_HallRank (v : JS.number) (c : t) : t :=
  Make (ApplicationID c) v (HallName c).

#[global] Instance eq_dec : EqDecision t.
Proof. solve_decision. Defined.
End Choice.

(** [ApplicationDetails], the aggregate.  [Gender] is set by
    [initializeNewApplication] and is otherwise whatever the loaded
    record carries; the blank aggregate has no such property. *)
Module Details.
Record t := Make {
  ApplicationID : option Z;
  DateSubmitted : option string;
  DateModified : option string;
  EditorProfile : option Profile.t;
  Gender : JS.property string;
  Applicants : list Applicant.t;
  ApartmentChoices : list Choice.t
}.

Definition set_ApplicationID (v : option Z) (d : t) : t :=
  Make v (DateSubmitted d) (DateModified d) (EditorProfile d) (Gender d)
    (Applicants d) (ApartmentChoices d).

Definition set_Applicants (v : list Applicant.t) (d : t) : t :=
  Make (ApplicationID d) (DateSubmitted d) (DateModified d) (EditorProfile d)
    (Gender d) v (ApartmentChoices d).

Definition set_ApartmentChoices (v : list Choice.t) (d : t) : t :=
  Make (ApplicationID d) (DateSubmitted d) (DateModified d) (EditorProfile d)
    (Gender d) (Applicants d) v.
End Details.

Definition DYNAMIC_ICON_TIMEOUT : Z := 6000.
Definition MAX_NUM_APPLICANTS : nat := 8.
Definition BLANK_APPLICATION_DETAILS : Details.t :=
  Details.Make None None None None JS.Undefined [] [].

(** ** Remote services *)

Inductive error := NotFoundError | AuthError | OtherError.

Inductive response (A : Type) :=
| Resolved (a : A)
| Rejected (e : error).
Arguments Resolved {A}.
Arguments Rejected {A}.

(** A call that went out to a service. *)
Inductive request :=
| user_getProfileInfo (username : string)
| housing_getCurrentApplicationID (username : option string)
| housing_getApartmentApplication (applicationID : Z)
| housing_saveApartmentApplication (applicationDetails : Details.t).

(** The services answer as a function of the calls made so far and of
    the arguments. *)
Module user.
Record t := Make {
  getProfileInfo : list request -> string -> response (option Profile.t)
}.
End user.

Module housing.
Record t := Make {
  getCurrentApplicationID : list request -> option string -> response Z;
  getApartmentApplication : list request -> Z -> response Details.t;
  saveApartmentApplication : list request -> Details.t -> response Z
}.
End housing.

(** ** Component state *)

(** The busy flags: [false | true | 'success' | 'error']. *)
Inductive busy := BFalse | BTrue | BSuccess | BError.

Record Snackbar := { message : string; severity : string; open : bool }.

(** A callback handed to [setTimeout], with its delay. *)
Inductive timer := ResetSaveButton (delay : Z).

Record State := {
  saving : busy;
  unsavedChanges : bool;
  canEditApplication : bool;
  applicationDetails : Details.t;
  newEditorProfile : option Profile.t;
  snackbar : Snackbar;
  saveButtonAlertTimeout : option nat;
  (* outside the component: the timers set and the calls made *)
  timers : list timer;
  requests : list request
}.

Definition setSaving (v : busy) (s : State) : State :=
  {| saving := v; unsavedChanges := unsavedChanges s;
     canEditApplication := canEditApplication s;
     applicationDetails := applicationDetails s;
     newEditorProfile := newEditorProfile s; snackbar := snackbar s;
     saveButtonAlertTimeout := saveButtonAlertTimeout s;
     timers := timers s; requests := requests s |}.

Definition setUnsavedChanges (v : bool) (s : State) : State :=
  {| saving := saving s; unsavedChanges := v;
     canEditApplication := canEditApplication s;
     applicationDetails := applicationDetails s;
     newEditorProfile := newEditorProfile s; snackbar := snackbar s;
     saveButtonAlertTimeout := saveButtonAlertTimeout s;
     timers := timers s; requests := requests s |}.

Definition setCanEditApplication (v : bool) (s : State) : State :=
  {| saving := saving s; unsavedChanges := unsavedChanges s;
     canEditApplication := v;
     applicationDetails := applicationDetails s;
     newEditorProfile := newEditorProfile s; snackbar := snackbar s;
     saveButtonAlertTimeout := saveButtonAlertTimeout s;
     timers := timers s; requests := requests s |}.

(** [setApplicationDetails((prev) => f(prev))] *)
Definition setApplicationDetails (f : Details.t -> Details.t) (s : State) : State :=
  {| saving := saving s; unsavedChanges := unsavedChanges s;
     canEditApplication := canEditApplication s;
     applicationDetails := f (applicationDetails s);
     newEditorProfile := newEditorProfile s; snackbar := snackbar s;
     saveButtonAlertTimeout := saveButtonAlertTimeout s;
     timers := timers s; requests := requests s |}.

Definition setNewEditorProfile (v : option Profile.t) (s : State) : State :=
  {| saving := saving s; unsavedChanges := unsavedChanges s;
     canEditApplication := canEditApplication s;
     applicationDetails := applicationDetails s;
     newEditorProfile := v; snackbar := snackbar s;
     saveButtonAlertTimeout := saveButtonAlertTimeout s;
     timers := timers s; requests := requests s |}.

Definition setSnackbar (v : Snackbar) (s : State) : State :=
  {| saving := saving s; unsavedChanges := unsavedChanges s;
     canEditApplication := canEditApplication s;
     applicationDetails := applicationDetails s;
     newEditorProfile := newEditorProfile s; snackbar := v;
     saveButtonAlertTimeout := saveButtonAlertTimeout s;
     timers := timers s; requests := requests s |}.

Definition setSaveButtonAlertTimeout (v : option nat) (s : State) : State :=
  {| saving := saving s; unsavedChanges := unsavedChanges s;
     canEditApplication := canEditApplication s;
     applicationDetails := applicationDetails s;
     newEditorProfile := newEditorProfile s; snackbar := snackbar s;
     saveButtonAlertTimeout := v;
     timers := timers s; requests := requests s |}.

(** [setTimeout(callback, delay)]: the timer is queued and its position
    in the queue is its id. *)
Definition setTimeout (callback : timer) (s : State) : nat * State :=
  (length (timers s),
   {| saving := saving s; unsavedChanges := unsavedChanges s;
      canEditApplication := canEditApplication s;
      applicationDetails := applicationDetails s;
      newEditorProfile := newEditorProfile s; snackbar := snackbar s;
      saveButtonAlertTimeout := saveButtonAlertTimeout s;
      timers := timers s ++ [callback]; requests := requests s |}).

(** A call goes out: it is logged. *)
Definition send (r : request) (s : State) : State :=
  {| saving := saving s; unsavedChanges := unsavedChanges s;
     canEditApplication := canEditApplication s;
     applicationDetails := applicationDetails s;
     newEditorProfile := newEditorProfile s; snackbar := snackbar s;
     saveButtonAlertTimeout := saveButtonAlertTimeout s;
     timers := timers s; requests := requests s ++ [r] |}.

Definition createSnackbar (message severity : string) (s : State) : State :=
  setSnackbar {| message := message; severity := severity; open := true |} s.

(** ** The handlers of [StudentApplication] *)

Section StudentApplication.
Import JS Lodash.

(** The component's prop, the two services and the runtime's string
    conversion. *)
Variable userProfile : Profile.t.
Variable userService : user.t.
Variable housingService : housing.t.
Variable StringToNumber : string -> number.

Definition unauthorizedDebugMessage : string :=
  "Received a 401 (Unauthorized) response, which should not be possible in this case. Please try refreshing the page, or contact CTS for support.".

Definition addPersonErrorMessage : string :=
  "Something went wrong while trying to add this person. Please try again.".

(** [initializeNewApplication], local to [loadApplication]. *)
Definition initializeNewApplication (s : State) : State :=
  let initialApplicants :=
    [Applicant.Make None (Some userProfile) (Profile.AD_Username userProfile) ""] in
  let s := setApplicationDetails
             (fun _ =>
                Details.Make None None None (Some userProfile)
                  (Profile.Gender userProfile) initialApplicants []) s in
  let s := setCanEditApplication true s in
  setUnsavedChanges true s.

(** The [catch] clause of [loadApplication].  An error that is neither
    [NotFoundError] nor [AuthError] is thrown again, and the [return]
    of the [finally] clause discards it. *)
Definition loadApplication_catch (e : error) (s : State) : State :=
  match e with
  | NotFoundError => initializeNewApplication s
  | AuthError => createSnackbar unauthorizedDebugMessage "error" s
  | OtherError => s
  end.

(** [loadApplication]. An application id that is not positive raises
    [createError(new Error('Invalid application ID'), { status: 404 })],
    which the [catch] clause meets as a [NotFoundError]. *)
Definition loadApplication (s : State) : bool * State :=
  let '(result, s) :=
    let log := requests s in
    let s := send (housing_getCurrentApplicationID None) s in
    match housing.getCurrentApplicationID housingService log None with
    | Resolved newApplicationID =>
        if (0 <? newApplicationID)%Z then
          let log := requests s in
          let s := send (housing_getApartmentApplication newApplicationID) s in
          match housing.getApartmentApplication housingService log newApplicationID with
          | Resolved newApplicationDetails =>
              let s := setApplicationDetails (fun _ => newApplicationDetails) s in
              match Details.EditorProfile newApplicationDetails with
              | Some editor =>
                  let s := setCanEditApplication
                             (String.eqb (Profile.AD_Username userProfile)
                                (Profile.AD_Username editor)) s in
                  let s := setUnsavedChanges false s in
                  (true, s)
              | None =>
                  (* TypeError on [EditorProfile.AD_Username] *)
                  (false, loadApplication_catch OtherError s)
              end
          | Rejected e => (false, loadApplication_catch e s)
          end
        else (false, loadApplication_catch NotFoundError s)
    | Rejected e => (false, loadApplication_catch e s)
    end in
  (result, setNewEditorProfile None s).

(** [isApplicantValid]. Besides the verdict it gives back the
    applicant it was handed as the call leaves that object: it may have
    written to its profile ([fullName]).  The two genders are compared
    with [!==], which tells a string, [null] and a missing property
    from one another.  [finally { return result; }] discards an error
    the [catch] clause throws again. *)
Definition isApplicantValid (applicant : Applicant.t) (s : State)
  : bool * Applicant.t * State :=
  match Applicant.Profile applicant with
  | None => (false, applicant, createSnackbar addPersonErrorMessage "error" s)
  | Some profile =>
      if (MAX_NUM_APPLICANTS <=? length (Details.Applicants (applicationDetails s)))%nat
      then
        (false, applicant,
         createSnackbar
           ("You cannot have more than " ++ pretty MAX_NUM_APPLICANTS ++ " applicants")
           "warning" s)
      else
        let fullName :=
          coalesce (Profile.fullName profile)
            (Profile.FirstName profile ++ "  " ++ Profile.LastName profile) in
        let profile := Profile.set_fullName (Some fullName) profile in
        let applicant := Applicant.set_Profile (Some profile) applicant in
        if negb (includes (Profile.PersonType profile) "stu") then
          (false, applicant,
           createSnackbar
             ("Could not add " ++ fullName ++ " as an applicant because they are not a student.")
             "warning" s)
        else if negb (bool_decide
                        (Profile.Gender profile = Details.Gender (applicationDetails s)))
        then
          (false, applicant,
           createSnackbar
             ("Could not add " ++ fullName ++
              " as an applicant because they are not the same gender as the other applicants.")
             "warning" s)
        else
          let log := requests s in
          let username := Some (Profile.AD_Username profile) in
          let s := send (housing_getCurrentApplicationID username) s in
          match housing.getCurrentApplicationID housingService log username with
          | Resolved existingAppID =>
              if (0 <? existingAppID)%Z &&
                 negb (bool_decide
                         (Some existingAppID = Details.ApplicationID (applicationDetails s)))
              then
                (false, applicant,
                 createSnackbar
                   (fullName ++ " is already on another application for this semester.")
                   "warning" s)
              else (true, applicant, s)
          | Rejected NotFoundError => (true, applicant, s)
          | Rejected AuthError =>
              (false, applicant, createSnackbar unauthorizedDebugMessage "error" s)
          | Rejected OtherError => (false, applicant, s)
          end
  end.

(** The [catch] clause of [addApplicant]. *)
Definition addApplicant_catch (s : State) : State :=
  createSnackbar addPersonErrorMessage "error" s.

(** [addApplicant]. [newApplicantObject] is the object that
    [isApplicantValid] checks and then the one that is appended. *)
Definition addApplicant (newApplicantUsername : string) (s : State) : State :=
  let log := requests s in
  let s := send (user_getProfileInfo newApplicantUsername) s in
  match user.getProfileInfo userService log newApplicantUsername with
  | Rejected _ => addApplicant_catch s
  | Resolved newApplicantProfile =>
      let newApplicantObject :=
        Applicant.Make (Details.ApplicationID (applicationDetails s))
          newApplicantProfile newApplicantUsername "" in
      match
        some (fun applicant =>
                match Applicant.Profile applicant with
                | Some p => Some (String.eqb (Profile.AD_Username p) newApplicantUsername)
                | None => None
                end)
          (Details.Applicants (applicationDetails s))
      with
      | None => addApplicant_catch s
      | Some true =>
          match newApplicantProfile with
          | Some p =>
              createSnackbar
                (String_ (Profile.fullName p) ++ " is already in the list.") "info" s
          | None => addApplicant_catch s
          end
      | Some false =>
          let '(validApplicant, newApplicantObject, s) :=
            isApplicantValid newApplicantObject s in
          if validApplicant then
            let s := setApplicationDetails
                       (fun prevApplicationDetails =>
                          Details.set_Applicants
                            (Details.Applicants prevApplicationDetails
                               ++ [newApplicantObject])
                            prevApplicationDetails) s in
            setUnsavedChanges true s
          else s
      end
  end.

(** [handleSearchSubmit] *)
Definition handleSearchSubmit (searchSelection : string) (s : State) : State :=
  if truthy searchSelection then addApplicant searchSelection s else s.

(** [handleApplicantRemove]. The filter callback reads
    [applicant.Profile.AD_Username], which throws on a [null] profile;
    nothing catches it. *)
Definition handleApplicantRemove (usernameToRemove : string) (s : State) : option State :=
  if truthy usernameToRemove then
    match
      filter_ (fun applicant =>
                 match Applicant.Profile applicant with
                 | Some p => Some (negb (String.eqb (Profile.AD_Username p) usernameToRemove))
                 | None => None
                 end)
        (Details.Applicants (applicationDetails s))
    with
    | Some applicants =>
        let s := setApplicationDetails (Details.set_Applicants applicants) s in
        Some (setUnsavedChanges true s)
    | None => None
    end
  else Some s.

(** [handleOffCampusInputChange]. When [index] is past the end,
    [newApplicant] is built from [undefined] and replaces nothing. *)
Definition handleOffCampusInputChange
    (offCampusProgramValue : string) (index : option Z) (s : State) : State :=
  match index with
  | Some index =>
      if (0 <=? index)%Z then
        let applicants := Details.Applicants (applicationDetails s) in
        let newApplicant :=
          match applicants !! Z.to_nat index with
          | Some a => Applicant.set_OffCampusProgram offCampusProgramValue a
          | None => Applicant.Make None None "" offCampusProgramValue
          end in
        let s := setApplicationDetails
                   (fun prevApplicationDetails =>
                      Details.set_Applicants
                        (map_replace index newApplicant 0
                           (Details.Applicants prevApplicationDetails))
                        prevApplicationDetails) s in
        setUnsavedChanges true s
      else
        createSnackbar
          "Something went wrong while trying to change the off-campus program. Please try again."
          "error" s
  | None =>
      createSnackbar
        "Something went wrong while trying to change the off-campus program. Please try again."
        "error" s
  end.

Definition sortHalls (choices : list Choice.t) : list Choice.t :=
  sortBy Choice.HallRank Choice.HallName choices.

(** The test of [handleHallInputChange] that refuses a hall name:
    the name differs from the one of the edited row and some row
    carries it. [hallNameValue] is [None] when it is [null] or
    [undefined], which no stored name equals. *)
Definition hallNameTaken
    (hallNameValue : option string) (current : Choice.t) (choices : list Choice.t) : bool :=
  negb (bool_decide (hallNameValue = Some (Choice.HallName current))) &&
  existsb (fun hallInfo => bool_decide (Some (Choice.HallName hallInfo) = hallNameValue))
    choices.

Definition editHallErrorMessage : string :=
  "Something went wrong while trying to edit this hall. Please try again.".

(** [handleHallInputChange]. Reading [ApartmentChoices[index].HallName]
    past the end of the array throws a TypeError nothing catches. *)
Definition handleHallInputChange
    (hallRankValue : value) (hallNameValue : option string) (index : option Z)
    (s : State) : option State :=
  match index with
  | Some index =>
      if (0 <=? index)%Z then
        let choices := Details.ApartmentChoices (applicationDetails s) in
        match choices !! Z.to_nat index with
        | None => None
        | Some current =>
            let s :=
              if hallNameTaken hallNameValue current choices then
                let s := createSnackbar
                           (String_ hallNameValue ++ " is already in the list.") "info" s in
                setApplicationDetails
                  (fun prevApplicationDetails =>
                     Details.set_ApartmentChoices
                       (sortHalls (Details.ApartmentChoices prevApplicationDetails))
                       prevApplicationDetails) s
              else
                let newApartmentChoice :=
                  Choice.Make
                    (Details.ApplicationID (applicationDetails s))
                    (coalesce (Some (Number StringToNumber hallRankValue))
                       (Choice.HallRank current))
                    (coalesce hallNameValue (Choice.HallName current)) in
                setApplicationDetails
                  (fun prevApplicationDetails =>
                     Details.set_ApartmentChoices
                       (sortHalls
                          (map_replace index newApartmentChoice 0
                             (Details.ApartmentChoices prevApplicationDetails)))
                       prevApplicationDetails) s in
            Some (setUnsavedChanges true s)
        end
      else Some (createSnackbar editHallErrorMessage "error" s)
  | None => Some (createSnackbar editHallErrorMessage "error" s)
  end.

(** The callback of [map] in [handleHallRemove]: a rank above the new
    maximum is set to that maximum. *)
Definition clampRank (apartmentChoices : list Choice.t) (apartmentChoice : Choice.t)
  : Choice.t :=
  if gt (Choice.HallRank apartmentChoice) (Num (Z.of_nat (length apartmentChoices)))
  then Choice.set_HallRank (Num (Z.of_nat (length apartmentChoices))) apartmentChoice
  else apartmentChoice.

(** [handleHallRemove] *)
Definition handleHallRemove (indexToRemove : option Z) (s : State) : State :=
  match indexToRemove with
  | Some indexToRemove =>
      if negb (indexToRemove =? -1)%Z then
        let s := setApplicationDetails
                   (fun prevApplicationDetails =>
                      let apartmentChoices :=
                        filter_index
                          (fun index => negb (Z.of_nat index =? indexToRemove)%Z) 0
                          (Details.ApartmentChoices prevApplicationDetails) in
                      Details.set_ApartmentChoices
                        (map (clampRank apartmentChoices) apartmentChoices)
                        prevApplicationDetails) s in
        setUnsavedChanges true s
      else s
  | None => s
  end.

(** [handleHallAdd] *)
Definition handleHallAdd (s : State) : State :=
  let newPlaceholderHall :=
    Choice.Make
      (Details.ApplicationID (applicationDetails s))
      (Num (Z.of_nat (length (Details.ApartmentChoices (applicationDetails s))) + 1))
      "" in
  setApplicationDetails
    (fun prevApplicationDetails =>
       Details.set_ApartmentChoices
         (Details.ApartmentChoices prevApplicationDetails ++ [newPlaceholderHall])
         prevApplicationDetails) s.

(** [Promise.all(applicants.map(isApplicantValid))], the checks run
    one after the other: the verdicts, the applicants as the checks
    left them, and the state. *)
Fixpoint validateApplicants (applicants : list Applicant.t) (s : State)
  : list bool * list Applicant.t * State :=
  match applicants with
  | [] => ([], [], s)
  | applicant :: rest =>
      let '(v, applicant, s) := isApplicantValid applicant s in
      let '(vs, rest, s) := validateApplicants rest s in
      (v :: vs, applicant :: rest, s)
  end.

(** [Promise.all(details.Applicants.map((applicant) =>
    isApplicantValid(applicant)))] of [saveApartmentApplication] and of
    [submitApplication]: the verdicts, [details] as the checks leave
    it, and the state.  The applicants checked are objects, and a name
    that a check fills in shows wherever the object is held.  At every
    call site the array [details.Applicants] is the one of the
    aggregate ([details] is the aggregate or a spread copy of it), and
    the names show in the aggregate; an argument with other applicants
    than those of the aggregate holds other objects, and the aggregate
    is then as it was. *)
Definition checkApplicants (details : Details.t) (s : State)
  : list bool * Details.t * State :=
  let shared :=
    bool_decide (Details.Applicants details
                 = Details.Applicants (applicationDetails s)) in
  let '(validApplicants, applicants, s) :=
    validateApplicants (Details.Applicants details) s in
  (validApplicants, Details.set_Applicants applicants details,
   if shared then setApplicationDetails (Details.set_Applicants applicants) s
   else s).

(** The [catch] clause of [saveApartmentApplication]. *)
Definition saveApartmentApplication_catch (e : error) (s : State) : State :=
  let s :=
    match e with
    | AuthError =>
        createSnackbar "You are not authorized to save changes to this application." "error" s
    | NotFoundError =>
        createSnackbar "Error: This application was not found in the database." "error" s
    | OtherError =>
        createSnackbar "Something went wrong while trying to save the application." "error" s
    end in
  setSaving BError s.

(** [saveApartmentApplication]. The [finally] clause reads
    [saveButtonAlertTimeout] as the render left it, not as the first
    lines of the function set it.  The result is [None] for [null]. *)
Definition saveApartmentApplication (details : Details.t) (s : State)
  : option Z * State :=
  let renderedTimeout := saveButtonAlertTimeout s in
  let s := setSaving BTrue s in
  let s := setSaveButtonAlertTimeout None s in
  let '(result, s) :=
    if (length (Details.Applicants details) <? 1)%nat then
      let s := createSnackbar
                 "Error: There are no applicants on this application. This should not be possible. Please refresh the page and try again."
                 "error" s in
      (None, setSaving BError s)
    else
      let '(validApplicants, details, s) := checkApplicants details s in
      if forallb (fun v => v) validApplicants then
        let log := requests s in
        let s := send (housing_saveApartmentApplication details) s in
        match housing.saveApartmentApplication housingService log details with
        | Resolved result =>
            if negb (result =? 0)%Z then
              let s := setApplicationDetails
                         (Details.set_ApplicationID (Some result)) s in
              let s := setSaving BSuccess s in
              let s := setUnsavedChanges false s in
              (Some result, snd (loadApplication s))
            else (Some result, saveApartmentApplication_catch OtherError s)
        | Rejected e => (None, saveApartmentApplication_catch e s)
        end
      else (None, s)
  in
  match renderedTimeout with
  | None =>
      let '(id, s) := setTimeout (ResetSaveButton DYNAMIC_ICON_TIMEOUT) s in
      (result, setSaveButtonAlertTimeout (Some id) s)
  | Some _ => (result, s)
  end.

(** The callback of the timer of [saveApartmentApplication]. *)
Definition fire (t : timer) (s : State) : State :=
  match t with
  | ResetSaveButton _ => setSaving BFalse (setSaveButtonAlertTimeout None s)
  end.

(** [handleSaveButtonClick] *)
Definition handleSaveButtonClick (s : State) : State :=
  snd (saveApartmentApplication (applicationDetails s) s).

End StudentApplication.

(** ** [HallSelection]: the hall names on offer *)

(** [loadHalls] of [HallSelection/index.js]: the halls of the housing
    service, or those of the people search when that call fails, each
    trimmed; the result is the state [availableHalls].  When the second
    call fails too, nothing catches it. *)
Definition loadHalls
    (apartmentHalls : response (list string)) (goStalkHalls : response (list string))
  : option (list string) :=
  let unfilteredHalls :=
    match apartmentHalls with
    | Resolved halls => Some halls
    | Rejected _ =>
        match goStalkHalls with
        | Resolved halls => Some halls
        | Rejected _ => None
        end
    end in
  match unfilteredHalls with
  | Some halls => Some (map JS.trim halls)
  | None => None
  end.

(** ** A small application, for the examples *)

Module Example.
Import JS.

Definition alice : Profile.t :=
  Profile.Make "Alice.Adams" "Alice" "Adams" (Some "Alice Adams") "stu" (Defined "F").
Definition bob : Profile.t :=
  Profile.Make "Bob.Brown" "Bob" "Brown" None "stu" (Defined "M").
Definition carol : Profile.t :=
  Profile.Make "Carol.Clark" "Carol" "Clark" None "stu" (Defined "F").

(** The identity service knows Bob and Carol; nobody is on a saved
    application; a save is given the id 17. *)
Definition userService : user.t :=
  user.Make (fun _ username =>
    if String.eqb username "Bob.Brown" then Resolved (Some bob)
    else if String.eqb username "Carol.Clark" then Resolved (Some carol)
    else Rejected NotFoundError).

(** An identity service that takes a username in any spelling: asked
    for 'carol.clark' it answers with the profile of Carol, whose
    username is 'Carol.Clark'. *)
Definition lenientUserService : user.t :=
  user.Make (fun log username =>
    if String.eqb username "carol.clark" then Resolved (Some carol)
    else user.getProfileInfo userService log username).

(** Dana, whose profile has the gender [null], and an identity
    service that knows her. *)
Definition dana : Profile.t :=
  Profile.Make "Dana.Doe" "Dana" "Doe" (Some "Dana Doe") "stu" Null.

Definition danaUserService : user.t :=
  user.Make (fun _ username =>
    if String.eqb username "Dana.Doe" then Resolved (Some dana)
    else Rejected NotFoundError).

Definition housingService : housing.t :=
  housing.Make
    (fun _ _ => Rejected NotFoundError)
    (fun _ _ => Rejected NotFoundError)
    (fun _ _ => Resolved 17%Z).

(** Strings of decimal digits; anything else is not a number here. *)
Definition digit (c : ascii) : option Z :=
  let n := Z.of_nat (nat_of_ascii c) in
  if (48 <=? n)%Z && (n <=? 57)%Z then Some (n - 48)%Z else None.

Fixpoint digits (acc : Z) (s : string) : number :=
  match s with
  | EmptyString => Num acc
  | String c s' =>
      match digit c with
      | Some d => digits (10 * acc + d) s'
      | None => NaN
      end
  end.

Definition StringToNumber (s : string) : number := digits 0 s.

Definition hall (rank : Z) (name : string) : Choice.t :=
  Choice.Make None (Num rank) name.

Definition applicant (p : Profile.t) : Applicant.t :=
  Applicant.Make None (Some p) (Profile.AD_Username p) "".

(** A state with nothing unsaved and no notice on display. *)
Definition state (applicants : list Applicant.t) (choices : list Choice.t) : State :=
  {| saving := BFalse; unsavedChanges := false; canEditApplication := true;
     applicationDetails :=
       Details.Make None None None (Some alice) (Defined "F") applicants choices;
     newEditorProfile := None;
     snackbar := {| message := ""; severity := ""; open := false |};
     saveButtonAlertTimeout := None; timers := []; requests := [] |}.

Definition threeHalls : list Choice.t :=
  [hall 1 "Bromley"; hall 2 "Tavilla"; hall 3 "Ferrin"].

Definition eightApplicants : list Applicant.t :=
  map (fun n => applicant (Profile.Make n n n (Some n) "stu" (Defined "F")))
    ["a"; "b"; "c"; "d"; "e"; "f"; "g"; "h"].
End Example.

(** ** The vocabulary of the specification *)

Module Spec.
Import JS.

(** The order of two keys, a number then a string. *)
Definition key_le {A} (k1 : A -> number) (k2 : A -> string) (a b : A) : Prop :=
  match k1 a, k1 b with
  | Num x, Num y => (x < y)%Z \/ (x = y /\ compareStrings (k2 a) (k2 b) <> Gt)
  | _, _ => False
  end.

(** The order of (rank, name). *)
Definition rank_name_le : Choice.t -> Choice.t -> Prop :=
  key_le Choice.HallRank Choice.HallName.

(** The entries [sortBy] builds from a collection whose first keys
    are numbers. *)
Definition keyed {A} (k1 : A -> number) (k2 : A -> string) (e : Lodash.entry A) : Prop :=
  Lodash.criteria1 e = k1 (Lodash.value_ e) /\
  Lodash.criteria2 e = k2 (Lodash.value_ e) /\
  k1 (Lodash.value_ e) <> NaN.

Definition sorted_by_rank_name (choices : list Choice.t) : Prop :=
  Sorted rank_name_le choices.

(** Every rank is a number. *)
Definition numeric_ranks (choices : list Choice.t) : Prop :=
  Forall (fun c => Choice.HallRank c <> NaN) choices.

(** No two choices share a non-empty hall name. *)
Definition names_unique (choices : list Choice.t) : Prop :=
  NoDup (filter (fun name => name <> "") (map Choice.HallName choices)).

(** The ranks are exactly 1..len. *)
Definition ranks_contiguous (choices : list Choice.t) : Prop :=
  map Choice.HallRank choices
  ≡ₚ map (fun i => Num (Z.of_nat i)) (seq 1 (length choices)).

(** Every rank lies in 1..len. *)
Definition ranks_in_range (choices : list Choice.t) : Prop :=
  Forall (fun c => exists z, Choice.HallRank c = Num z /\
                             (1 <= z <= Z.of_nat (length choices))%Z) choices.

(** The edit of row [index] to [name] collides with another row. *)
Definition name_conflict
    (name : option string) (index : nat) (current : Choice.t)
    (choices : list Choice.t) : Prop :=
  name <> Some (Choice.HallName current) /\
  exists j other, j <> index /\ choices !! j = Some other /\
                  name = Some (Choice.HallName other).

(** A notice on display. *)
Definition notice (message severity : string) : Snackbar :=
  {| message := message; severity := severity; open := true |}.

(** Nobody on the roster carries the username. *)
Definition not_listed (username : string) (applicants : list Applicant.t) : Prop :=
  Forall (fun a => exists q, Applicant.Profile a = Some q /\
                             Profile.AD_Username q <> username) applicants.

(** The name [isApplicantValid] uses for a profile, and the profile
    as it leaves it: [fullName] filled in when it was missing. *)
Definition display_name (p : Profile.t) : string :=
  coalesce (Profile.fullName p)
    (Profile.FirstName p ++ "  " ++ Profile.LastName p).

Definition named (p : Profile.t) : Profile.t :=
  Profile.set_fullName (Some (display_name p)) p.

(** The answer of the housing service does not put the candidate on
    another application. *)
Definition free_to_join
    (housingService : housing.t) (log : list request) (p : Profile.t)
    (applicationID : option Z) : Prop :=
  match housing.getCurrentApplicationID housingService log
          (Some (Profile.AD_Username p)) with
  | Resolved existingAppID =>
      (existingAppID <= 0)%Z \/ Some existingAppID = applicationID
  | Rejected NotFoundError => True
  | Rejected _ => False
  end.
End Spec.

(** ** More vocabulary: the roster *)

Module Roster.
Import JS.

(** Every applicant has a profile of the gender of the aggregate. *)
Definition same_gender (d : Details.t) : Prop :=
  Forall (fun a => exists p, Applicant.Profile a = Some p /\
                             Profile.Gender p = Details.Gender d)
    (Details.Applicants d).

(** The usernames on the roster, read from the profiles. *)
Definition usernames (applicants : list Applicant.t) : list string :=
  omap (fun a => Profile.AD_Username <$> Applicant.Profile a) applicants.

(** Every applicant has a profile. *)
Definition profiled (applicants : list Applicant.t) : Prop :=
  Forall (fun a => is_Some (Applicant.Profile a)) applicants.

(** The applicant fails a check that [isApplicantValid] makes before it
    asks the housing service. *)
Definition fails_locally (d : Details.t) (a : Applicant.t) : Prop :=
  match Applicant.Profile a with
  | None => True
  | Some p =>
      includes (Profile.PersonType p) "stu" = false \/
      Profile.Gender p <> Details.Gender d
  end.

(** The applicant passes every check, whenever the housing service is
    asked. *)
Definition eligible (housingService : housing.t) (d : Details.t) (a : Applicant.t) : Prop :=
  exists p,
    Applicant.Profile a = Some p /\
    includes (Profile.PersonType p) "stu" = true /\
    Profile.Gender p = Details.Gender d /\
    forall log, Spec.free_to_join housingService log p (Details.ApplicationID d).

(** The applicant as [isApplicantValid] leaves it after its checks of
    the profile and of the roster size. *)
Definition named (a : Applicant.t) : Applicant.t :=
  match Applicant.Profile a with
  | Some p => Applicant.set_Profile (Some (Spec.named p)) a
  | None => a
  end.

(** The message of the [catch] clause of [saveApartmentApplication]. *)
Definition save_error_message (e : error) : string :=
  match e with
  | AuthError => "You are not authorized to save changes to this application."
  | NotFoundError => "Error: This application was not found in the database."
  | OtherError => "Something went wrong while trying to save the application."
  end.

(** The request is a query of the application a user is on. *)
Definition is_query (r : request) : Prop :=
  match r with
  | housing_getCurrentApplicationID _ => True
  | _ => False
  end.

(** The cells that the validation of applicants leaves alone, and what
    it sends: queries only. *)
Definition validation_frame (s s' : State) : Prop :=
  applicationDetails s' = applicationDetails s /\
  unsavedChanges s' = unsavedChanges s /\
  saving s' = saving s /\
  canEditApplication s' = canEditApplication s /\
  newEditorProfile s' = newEditorProfile s /\
  saveButtonAlertTimeout s' = saveButtonAlertTimeout s /\
  timers s' = timers s /\
  exists sent, requests s' = (requests s ++ sent)%list /\ Forall is_query sent.



End Roster.

(** ** More vocabulary: trimmed names *)

Module Trim.
(** The bytes of a string. *)
Definition bytes : string -> list ascii := list_ascii_of_string.

(** The string is a run of white space. *)
Definition blank (s : string) : Prop :=
  exists cs, Forall (fun c => c ∈ JS.whiteSpace) cs /\
             bytes s = concat (JS.utf8 <$> cs).

(** The string neither starts nor ends with a white space. *)
Definition trimmed (s : string) : Prop :=
  forall c, c ∈ JS.whiteSpace ->
    ~ JS.utf8 c `prefix_of` bytes s /\ ~ JS.utf8 c `suffix_of` bytes s.
End Trim.

(** ** The rest of the page: submitting, deleting, changing the editor

    The cells of [StudentApplication] that the handlers above never
    touch are kept beside the [State] of those handlers, in [Page].

    A call of an [async] function that is not awaited runs up to its
    first [await] at once and the rest later; the updates the caller
    makes after the call therefore take effect before that rest.  The
    part of [saveApartmentApplication] before its first [await] writes
    [saving], [saveButtonAlertTimeout], the notice, the request log and
    the names of the profiles, none of which the callers below write
    after the call or read, so here the updates of the caller are made
    first and the whole call after them.  No other event is taken to
    come in between. *)

(** The calls of services/housing that only these handlers make. *)
Inductive lifecycle_request :=
| housing_submitApplication (applicationID : option Z)
| housing_deleteApartmentApplication (applicationID : option Z).

(** Their answers, as a function of the calls made so far (those of
    the two logs) and of the argument; the result is the truth value of
    what the service gives. *)
Module housing2.
Record t := Make {
  submitApplication :
    list request -> list lifecycle_request -> option Z -> response bool;
  deleteApartmentApplication :
    list request -> list lifecycle_request -> option Z -> response bool
}.
End housing2.

(** The callbacks of the two other icon timers, with their delay. *)
Inductive page_timer :=
| ResetDeleteButton (delay : Z)
| ResetSubmitButton (delay : Z).

Record Page := {
  core : State;
  deleting : busy;
  submitStatus : busy;
  agreements : bool;
  applicationCardsOpen : bool;
  changeEditorDialogOpen : bool;
  deleteDialogOpen : bool;
  submitDialogOpen : bool;
  deleteButtonAlertTimeout : option nat;
  submitButtonAlertTimeout : option nat;
  (* outside the component *)
  pageTimers : list page_timer;
  lifecycleRequests : list lifecycle_request
}.

(** An update of cells of [State]. *)
Definition inCore (f : State -> State) (p : Page) : Page :=
  {| core := f (core p); deleting := deleting p; submitStatus := submitStatus p;
     agreements := agreements p; applicationCardsOpen := applicationCardsOpen p;
     changeEditorDialogOpen := changeEditorDialogOpen p;
     deleteDialogOpen := deleteDialogOpen p; submitDialogOpen := submitDialogOpen p;
     deleteButtonAlertTimeout := deleteButtonAlertTimeout p;
     submitButtonAlertTimeout := submitButtonAlertTimeout p;
     pageTimers := pageTimers p; lifecycleRequests := lifecycleRequests p |}.

Definition setDeleting (v : busy) (p : Page) : Page :=
  {| core := core p; deleting := v; submitStatus := submitStatus p;
     agreements := agreements p; applicationCardsOpen := applicationCardsOpen p;
     changeEditorDialogOpen := changeEditorDialogOpen p;
     deleteDialogOpen := deleteDialogOpen p; submitDialogOpen := submitDialogOpen p;
     deleteButtonAlertTimeout := deleteButtonAlertTimeout p;
     submitButtonAlertTimeout := submitButtonAlertTimeout p;
     pageTimers := pageTimers p; lifecycleRequests := lifecycleRequests p |}.

Definition setSubmitStatus (v : busy) (p : Page) : Page :=
  {| core := core p; deleting := deleting p; submitStatus := v;
     agreements := agreements p; applicationCardsOpen := applicationCardsOpen p;
     changeEditorDialogOpen := changeEditorDialogOpen p;
     deleteDialogOpen := deleteDialogOpen p; submitDialogOpen := submitDialogOpen p;
     deleteButtonAlertTimeout := deleteButtonAlertTimeout p;
     submitButtonAlertTimeout := submitButtonAlertTimeout p;
     pageTimers := pageTimers p; lifecycleRequests := lifecycleRequests p |}.

Definition setAgreements (v : bool) (p : Page) : Page :=
  {| core := core p; deleting := deleting p; submitStatus := submitStatus p;
     agreements := v; applicationCardsOpen := applicationCardsOpen p;
     changeEditorDialogOpen := changeEditorDialogOpen p;
     deleteDialogOpen := deleteDialogOpen p; submitDialogOpen := submitDialogOpen p;
     deleteButtonAlertTimeout := deleteButtonAlertTimeout p;
     submitButtonAlertTimeout := submitButtonAlertTimeout p;
     pageTimers := pageTimers p; lifecycleRequests := lifecycleRequests p |}.

Definition setApplicationCardsOpen (v : bool) (p : Page) : Page :=
  {| core := core p; deleting := deleting p; submitStatus := submitStatus p;
     agreements := agreements p; applicationCardsOpen := v;
     changeEditorDialogOpen := changeEditorDialogOpen p;
     deleteDialogOpen := deleteDialogOpen p; submitDialogOpen := submitDialogOpen p;
     deleteButtonAlertTimeout := deleteButtonAlertTimeout p;
     submitButtonAlertTimeout := submitButtonAlertTimeout p;
     pageTimers := pageTimers p; lifecycleRequests := lifecycleRequests p |}.

Definition setChangeEditorDialogOpen (v : bool) (p : Page) : Page :=
  {| core := core p; deleting := deleting p; submitStatus := submitStatus p;
     agreements := agreements p; applicationCardsOpen := applicationCardsOpen p;
     changeEditorDialogOpen := v;
     deleteDialogOpen := deleteDialogOpen p; submitDialogOpen := submitDialogOpen p;
     deleteButtonAlertTimeout := deleteButtonAlertTimeout p;
     submitButtonAlertTimeout := submitButtonAlertTimeout p;
     pageTimers := pageTimers p; lifecycleRequests := lifecycleRequests p |}.

Definition setDeleteDialogOpen (v : bool) (p : Page) : Page :=
  {| core := core p; deleting := deleting p; submitStatus := submitStatus p;
     agreements := agreements p; applicationCardsOpen := applicationCardsOpen p;
     changeEditorDialogOpen := changeEditorDialogOpen p;
     deleteDialogOpen := v; submitDialogOpen := submitDialogOpen p;
     deleteButtonAlertTimeout := deleteButtonAlertTimeout p;
     submitButtonAlertTimeout := submitButtonAlertTimeout p;
     pageTimers := pageTimers p; lifecycleRequests := lifecycleRequests p |}.

Definition setSubmitDialogOpen (v : bool) (p : Page) : Page :=
  {| core := core p; deleting := deleting p; submitStatus := submitStatus p;
     agreements := agreements p; applicationCardsOpen := applicationCardsOpen p;
     changeEditorDialogOpen := changeEditorDialogOpen p;
     deleteDialogOpen := deleteDialogOpen p; submitDialogOpen := v;
     deleteButtonAlertTimeout := deleteButtonAlertTimeout p;
     submitButtonAlertTimeout := submitButtonAlertTimeout p;
     pageTimers := pageTimers p; lifecycleRequests := lifecycleRequests p |}.

Definition setDeleteButtonAlertTimeout (v : option nat) (p : Page) : Page :=
  {| core := core p; deleting := deleting p; submitStatus := submitStatus p;
     agreements := agreements p; applicationCardsOpen := applicationCardsOpen p;
     changeEditorDialogOpen := changeEditorDialogOpen p;
     deleteDialogOpen := deleteDialogOpen p; submitDialogOpen := submitDialogOpen p;
     deleteButtonAlertTimeout := v;
     submitButtonAlertTimeout := submitButtonAlertTimeout p;
     pageTimers := pageTimers p; lifecycleRequests := lifecycleRequests p |}.

Definition setSubmitButtonAlertTimeout (v : option nat) (p : Page) : Page :=
  {| core := core p; deleting := deleting p; submitStatus := submitStatus p;
     agreements := agreements p; applicationCardsOpen := applicationCardsOpen p;
     changeEditorDialogOpen := changeEditorDialogOpen p;
     deleteDialogOpen := deleteDialogOpen p; submitDialogOpen := submitDialogOpen p;
     deleteButtonAlertTimeout := deleteButtonAlertTimeout p;
     submitButtonAlertTimeout := v;
     pageTimers := pageTimers p; lifecycleRequests := lifecycleRequests p |}.

(** [setTimeout] for the two other icon timers. *)
Definition setPageTimeout (callback : page_timer) (p : Page) : nat * Page :=
  (length (pageTimers p),
   {| core := core p; deleting := deleting p; submitStatus := submitStatus p;
      agreements := agreements p; applicationCardsOpen := applicationCardsOpen p;
      changeEditorDialogOpen := changeEditorDialogOpen p;
      deleteDialogOpen := deleteDialogOpen p; submitDialogOpen := submitDialogOpen p;
      deleteButtonAlertTimeout := deleteButtonAlertTimeout p;
      submitButtonAlertTimeout := submitButtonAlertTimeout p;
      pageTimers := pageTimers p ++ [callback];
      lifecycleRequests := lifecycleRequests p |}).

Definition sendLifecycle (r : lifecycle_request) (p : Page) : Page :=
  {| core := core p; deleting := deleting p; submitStatus := submitStatus p;
     agreements := agreements p; applicationCardsOpen := applicationCardsOpen p;
     changeEditorDialogOpen := changeEditorDialogOpen p;
     deleteDialogOpen := deleteDialogOpen p; submitDialogOpen := submitDialogOpen p;
     deleteButtonAlertTimeout := deleteButtonAlertTimeout p;
     submitButtonAlertTimeout := submitButtonAlertTimeout p;
     pageTimers := pageTimers p;
     lifecycleRequests := lifecycleRequests p ++ [r] |}.

Section Lifecycle.
Import JS.

Variable userProfile : Profile.t.
Variable housingService : housing.t.
Variable housingService2 : housing2.t.

(** [handleShowApplication] *)
Definition handleShowApplication (p : Page) : Page :=
  setApplicationCardsOpen true p.

(** [handleAgreementsStateChange] *)
Definition handleAgreementsStateChange (newAgreementsState : bool) (p : Page) : Page :=
  setAgreements newAgreementsState p.

(** [handleCloseOkay] *)
Definition handleCloseOkay (p : Page) : Page :=
  let p := setChangeEditorDialogOpen false p in
  let p := setDeleteDialogOpen false p in
  let p := setSubmitDialogOpen false p in
  inCore (setNewEditorProfile None) p.

(** [handleCloseDialog] *)
Definition handleCloseDialog (reason : string) (p : Page) : Page :=
  if String.eqb reason "clickaway" then p else handleCloseOkay p.

(** [handleChangeEditor]. The test of the roster reads
    [applicant.Profile.AD_Username] and throws on a [null] profile;
    nothing catches it.  The save it starts is not awaited. *)
Definition handleChangeEditor (profile : option Profile.t) (p : Page) : option Page :=
  match profile with
  | Some profile =>
      if canEditApplication (core p) then
        match
          some (fun applicant =>
                  match Applicant.Profile applicant with
                  | Some q =>
                      Some (String.eqb (Profile.AD_Username q) (Profile.AD_Username profile))
                  | None => None
                  end)
            (Details.Applicants (applicationDetails (core p)))
        with
        | None => None
        | Some false => Some p
        | Some true =>
            let unsaved := unsavedChanges (core p) in
            let details := applicationDetails (core p) in
            let p := inCore (setNewEditorProfile (Some profile)) p in
            let p := setChangeEditorDialogOpen true p in
            Some (if unsaved then
                    inCore (fun s =>
                              snd (saveApartmentApplication userProfile housingService
                                     details s)) p
                  else p)
        end
      else Some p
  | None => Some p
  end.

Definition changeEditorErrorMessage : string :=
  "Something went wrong while trying to save the new application editor.".

(** [handleChangeEditorAccepted]. [saveApartmentApplication] is an
    [async] function: its call gives a promise and throws nothing, so
    the [catch] clause (the call of [changeApplicationEditor]) never
    runs; the save is not awaited. *)
Definition handleChangeEditorAccepted (p : Page) : Page :=
  let refuse :=
    inCore (fun s => setSaving BError (createSnackbar changeEditorErrorMessage "error" s)) p in
  match newEditorProfile (core p) with
  | Some editor =>
      if truthy (Profile.AD_Username editor) then
        let d := applicationDetails (core p) in
        let details :=
          Details.Make (Details.ApplicationID d) (Details.DateSubmitted d)
            (Details.DateModified d) (Some editor) (Details.Gender d)
            (Details.Applicants d) (Details.ApartmentChoices d) in
        let p := inCore (setCanEditApplication false) p in
        let p := handleCloseOkay p in
        inCore (fun s =>
                  snd (saveApartmentApplication userProfile housingService details s)) p
      else refuse
  | None => refuse
  end.

(** The message of the [catch] clauses of [deleteApartmentApplication]
    and [submitApplication]; [action] is 'delete' or 'submit'. *)
Definition lifecycle_error_message (action : string) (e : error) : string :=
  match e with
  | AuthError => "You are not authorized to make changes to this application."
  | NotFoundError => "Error: This application was not found in the database."
  | OtherError => "Something went wrong while trying to " ++ action ++ " the application."
  end.

Definition deleteApartmentApplication_catch (e : error) (p : Page) : Page :=
  let p := inCore (createSnackbar (lifecycle_error_message "delete" e) "error") p in
  setDeleting BError p.

(** [deleteApartmentApplication]. The reload is not awaited; it never
    writes [applicationCardsOpen]. *)
Definition deleteApartmentApplication (p : Page) : Page :=
  let renderedTimeout := deleteButtonAlertTimeout p in
  let applicationID := Details.ApplicationID (applicationDetails (core p)) in
  let p := setDeleting BTrue p in
  let p := setDeleteButtonAlertTimeout None p in
  let p :=
    let answer :=
      housing2.deleteApartmentApplication housingService2
        (requests (core p)) (lifecycleRequests p) applicationID in
    let p := sendLifecycle (housing_deleteApartmentApplication applicationID) p in
    match answer with
    | Resolved result =>
        if result then
          let p := setDeleting BSuccess p in
          let p := inCore (fun s => snd (loadApplication userProfile housingService s)) p in
          setApplicationCardsOpen false p
        else deleteApartmentApplication_catch OtherError p
    | Rejected e => deleteApartmentApplication_catch e p
    end in
  match renderedTimeout with
  | None =>
      let '(id, p) := setPageTimeout (ResetDeleteButton DYNAMIC_ICON_TIMEOUT) p in
      setDeleteButtonAlertTimeout (Some id) p
  | Some _ => p
  end.

(** [handleDeleteAppAccepted]. The deletion is not awaited; it reads
    and writes none of the dialogs, and the nomination that
    [handleCloseOkay] clears is cleared by its reload as well, so the
    order of the two is immaterial. *)
Definition handleDeleteAppAccepted (p : Page) : Page :=
  handleCloseOkay (deleteApartmentApplication p).

(** [handleSubmitButtonClick]. [saveResult] is a promise, which is
    truthy: the dialog opens whatever the save comes to. *)
Definition handleSubmitButtonClick (p : Page) : Page :=
  let p :=
    inCore (fun s =>
              snd (saveApartmentApplication userProfile housingService
                     (applicationDetails s) s)) p in
  setSubmitDialogOpen true p.

Definition submitApplication_catch (e : error) (p : Page) : Page :=
  let p := inCore (createSnackbar (lifecycle_error_message "submit" e) "error") p in
  setSubmitStatus BError p.

(** [submitApplication]. With no applicants it is [saving], not
    [submitStatus], that is set to 'error'.  The applicants checked are
    those of the aggregate itself. *)
Definition submitApplication (p : Page) : Page :=
  let renderedTimeout := submitButtonAlertTimeout p in
  let details := applicationDetails (core p) in
  let p := setSubmitStatus BTrue p in
  let p := setSubmitButtonAlertTimeout None p in
  let p :=
    if (length (Details.Applicants details) <? 1)%nat then
      let p := inCore
                 (createSnackbar
                    "Error: There are no applicants on this application. This should not be possible. Please refresh the page and try again."
                    "error") p in
      inCore (setSaving BError) p
    else
      let '(validApplicants, _, s) := checkApplicants housingService details (core p) in
      let p := inCore (fun _ => s) p in
      if forallb (fun v => v) validApplicants then
        let answer :=
          housing2.submitApplication housingService2
            (requests (core p)) (lifecycleRequests p) (Details.ApplicationID details) in
        let p := sendLifecycle (housing_submitApplication (Details.ApplicationID details)) p in
        match answer with
        | Resolved result =>
            if result then
              let p := setSubmitStatus BSuccess p in
              inCore (fun s => snd (loadApplication userProfile housingService s)) p
            else submitApplication_catch OtherError p
        | Rejected e => submitApplication_catch e p
        end
      else p
  in
  match renderedTimeout with
  | None =>
      let '(id, p) := setPageTimeout (ResetSubmitButton DYNAMIC_ICON_TIMEOUT) p in
      setSubmitButtonAlertTimeout (Some id) p
  | Some _ => p
  end.

(** [handleSubmitAppAccepted], as [handleDeleteAppAccepted]. *)
Definition handleSubmitAppAccepted (p : Page) : Page :=
  handleCloseOkay (submitApplication p).

(** The prop [disableSubmit] of [BottomBar]; a date or a hall name is
    truthy when it is not empty. *)
Definition disableSubmit (p : Page) : bool :=
  let d := applicationDetails (core p) in
  match Details.DateSubmitted d with
  | Some date => truthy date
  | None => false
  end
  || negb (applicationCardsOpen p && agreements p
           && (0 <? length (Details.Applicants d))%nat
           && (0 <? length (List.filter (fun apartmentChoice =>
                                           truthy (Choice.HallName apartmentChoice))
                              (Details.ApartmentChoices d)))%nat).

End Lifecycle.

(** ** More of the example application *)

Module Scenario.
Import JS.

(** Alice and Carol on a saved application that Carol edits. *)
Definition record : Details.t :=
  Details.Make (Some 17%Z) None (Some "2021-03-01") (Some Example.carol) (JS.Defined "F")
    [Example.applicant Example.alice; Example.applicant Example.carol]
    [Example.hall 1 "Bromley"].

(** A housing service that has that record for the current user, knows
    no application of anybody else, and gives a save the id 17. *)
Definition recordService : housing.t :=
  housing.Make
    (fun _ username =>
       match username with
       | None => Resolved 17%Z
       | Some _ => Rejected NotFoundError
       end)
    (fun _ _ => Resolved record)
    (fun _ _ => Resolved 17%Z).


(** The housing service accepts every submission and every deletion. *)
Definition acceptingService : housing2.t :=
  housing2.Make (fun _ _ _ => Resolved true) (fun _ _ _ => Resolved true).

(** Alice alone; Alice with Carol; Alice with Bob, who is of another
    gender. *)
Definition aliceAlone : State :=
  Example.state [Example.applicant Example.alice] [].

Definition aliceAndCarol : State :=
  Example.state [Example.applicant Example.alice; Example.applicant Example.carol] [].

Definition aliceAndBob : State :=
  Example.state [Example.applicant Example.alice; Example.applicant Example.bob] [].

(** A page with its dialogs closed, around a state. *)
Definition page (s : State) : Page :=
  {| core := s; deleting := BFalse; submitStatus := BFalse; agreements := false;
     applicationCardsOpen := true; changeEditorDialogOpen := false;
     deleteDialogOpen := false; submitDialogOpen := false;
     deleteButtonAlertTimeout := None; submitButtonAlertTimeout := None;
     pageTimers := []; lifecycleRequests := [] |}.
End Scenario.

(** * Properties *)

(** ** Arrays *)

Section ArrayLemmas.
Import JS.
Context {A : Type}.

Lemma filter_index_outside (i : Z) (k : nat) (arr : list A) :
  (i < Z.of_nat k)%Z ->
  filter_index (fun j => negb (Z.of_nat j =? i)%Z) k arr = arr.
Proof.
  revert k. induction arr as [|x arr IH]; intros k Hk; [done|].
  cbn [filter_index]. destruct (Z.eqb_spec (Z.of_nat k) i); [lia|].
  cbn [negb]. f_equal. apply IH. lia.
Qed.

Lemma filter_index_delete (i : Z) (k : nat) (arr : list A) :
  (Z.of_nat k <= i)%Z ->
  filter_index (fun j => negb (Z.of_nat j =? i)%Z) k arr
  = delete (Z.to_nat i - k)%nat arr.
Proof.
  revert k. induction arr as [|x arr IH]; intros k Hk; [done|].
  cbn [filter_index]. destruct (Z.eqb_spec (Z.of_nat k) i) as [<-|Hne]; cbn [negb].
  - replace (Z.to_nat (Z.of_nat k) - k)%nat with 0%nat by lia. cbn.
    apply filter_index_outside. lia.
  - rewrite IH by lia.
    replace (Z.to_nat i - k)%nat with (S (Z.to_nat i - S k)) by lia. done.
Qed.

Lemma map_replace_outside (i : Z) (y : A) (k : nat) (arr : list A) :
  (i < Z.of_nat k)%Z -> map_replace i y k arr = arr.
Proof.
  revert k. induction arr as [|x arr IH]; intros k Hk; [done|].
  cbn [map_replace]. destruct (Z.eqb_spec (Z.of_nat k) i); [lia|].
  f_equal. apply IH. lia.
Qed.

Lemma map_replace_insert (i : Z) (y : A) (k : nat) (arr : list A) :
  (Z.of_nat k <= i)%Z ->
  map_replace i y k arr = <[(Z.to_nat i - k)%nat := y]> arr.
Proof.
  revert k. induction arr as [|x arr IH]; intros k Hk; [done|].
  cbn [map_replace]. destruct (Z.eqb_spec (Z.of_nat k) i) as [<-|Hne].
  - replace (Z.to_nat (Z.of_nat k) - k)%nat with 0%nat by lia. cbn.
    f_equal. apply map_replace_outside. lia.
  - rewrite IH by lia.
    replace (Z.to_nat i - k)%nat with (S (Z.to_nat i - S k)) by lia. done.
Qed.


(** [sort] rearranges. *)
Lemma sort_insert_Permutation (cmp : A -> A -> Z) (x : A) (l : list A) :
  sort_insert cmp x l ≡ₚ x :: l.
Proof.
  induction l as [|y l IH]; [done|]. cbn.
  destruct (cmp x y <=? 0)%Z; [done|].
  rewrite IH. apply Permutation_swap.
Qed.

Lemma sort_cons (cmp : A -> A -> Z) (x : A) (l : list A) :
  sort cmp (x :: l) = sort_insert cmp x (sort cmp l).
Proof. reflexivity. Qed.

Lemma sort_Permutation (cmp : A -> A -> Z) (l : list A) : sort cmp l ≡ₚ l.
Proof.
  induction l as [|x l IH]; [done|].
  by rewrite sort_cons, sort_insert_Permutation, IH.
Qed.

(** [sort] orders, when the comparer is total on what it is given. *)
Section Sorted.
Variable cmp : A -> A -> Z.
Variable R : A -> A -> Prop.
Variable P : A -> Prop.
Hypothesis cmp_le : forall a b, P a -> P b -> (cmp a b <= 0)%Z -> R a b.
Hypothesis cmp_gt : forall a b, P a -> P b -> (0 < cmp a b)%Z -> R b a.

Lemma sort_insert_Sorted (x : A) (l : list A) :
  P x -> Forall P l -> Sorted R l -> Sorted R (sort_insert cmp x l).
Proof.
  intros Px. induction l as [|y l IH]; intros HP HS.
  - by repeat constructor.
  - cbn. apply Forall_cons in HP as [Py HP].
    destruct (Z.leb_spec (cmp x y) 0) as [Hle|Hgt].
    + constructor; [done|]. constructor. by apply cmp_le.
    + apply Sorted_inv in HS as [HS Hhd]. constructor; [by apply IH|].
      destruct l as [|z l]; cbn.
      * constructor. by apply cmp_gt.
      * destruct (cmp x z <=? 0)%Z; constructor.
        -- by apply cmp_gt.
        -- by apply HdRel_inv in Hhd.
Qed.

Lemma sort_Sorted (l : list A) : Forall P l -> Sorted R (sort cmp l).
Proof.
  induction l as [|x l IH]; intros HP; [constructor|].
  apply Forall_cons in HP as [Px HP]. rewrite sort_cons.
  apply sort_insert_Sorted; [done| |by apply IH].
  by rewrite sort_Permutation.
Qed.
End Sorted.
End ArrayLemmas.

(** ** lodash *)

Section LodashLemmas.
Import JS Lodash.

Lemma unitOrder_involutive (c : ascii) : unitOrder (unitOrder c) = c.
Proof. by destruct c as [[] [] [] [] [] [] [] []]. Qed.

Lemma unitsOrder_inj (a b : string) : unitsOrder a = unitsOrder b -> a = b.
Proof.
  revert b. induction a as [|c a IH]; intros [|d b]; try done.
  cbn. intros [= Hc Hs]. f_equal; [|by apply IH].
  by rewrite <- (unitOrder_involutive c), Hc, unitOrder_involutive.
Qed.

Lemma compareStrings_antisym (a b : string) :
  compareStrings a b = CompOpp (compareStrings b a).
Proof. apply String.compare_antisym. Qed.

Lemma compareStrings_refl (a : string) : compareStrings a a = Eq.
Proof.
  pose proof (compareStrings_antisym a a) as H.
  destruct (compareStrings a a); done.
Qed.

Lemma compareStrings_eq (a b : string) : compareStrings a b = Eq -> a = b.
Proof. intros H. by apply unitsOrder_inj, String.compare_eq_iff. Qed.

Lemma compareAscending_Num (x y : Z) :
  compareAscending (Num x) (Num y)
  = if (x =? y)%Z then 0%Z else if (y <? x)%Z then 1%Z else (-1)%Z.
Proof.
  unfold compareAscending. cbn. rewrite !Z.eqb_refl. cbn.
  destruct (Z.eqb_spec x y); cbn; [done|].
  destruct (Z.ltb_spec y x); cbn; [done|].
  destruct (Z.ltb_spec x y); cbn; [done|lia].
Qed.

Lemma compareAscending_string (a b : string) :
  compareAscending a b
  = match compareStrings a b with Eq => 0%Z | Lt => (-1)%Z | Gt => 1%Z end.
Proof.
  unfold compareAscending. cbn [key_eq key_gt key_lt string_key].
  rewrite !String.eqb_refl. cbn [negb orb].
  destruct (String.eqb_spec a b) as [->|Hne]; cbn [negb].
  - by rewrite compareStrings_refl.
  - destruct (compareStrings a b) eqn:E; cbn;
      first [done | by apply compareStrings_eq in E].
Qed.

Context {A : Type}.

Lemma compareMultiple_le k1 k2 (a b : entry A) :
  Spec.keyed k1 k2 a -> Spec.keyed k1 k2 b ->
  (compareMultiple a b <= 0)%Z -> Spec.key_le k1 k2 (value_ a) (value_ b).
Proof.
  intros (Ha1 & Ha2 & Ha) (Hb1 & Hb2 & Hb). unfold compareMultiple, Spec.key_le.
  rewrite Ha1, Ha2, Hb1, Hb2.
  destruct (k1 (value_ a)) as [|x]; [done|]. destruct (k1 (value_ b)) as [|y]; [done|].
  rewrite compareAscending_Num, compareAscending_string.
  destruct (Z.eqb_spec x y); cbn.
  - destruct (compareStrings _ _); cbn; intros; try lia; right; done.
  - destruct (Z.ltb_spec y x); cbn; intros; lia.
Qed.

Lemma compareMultiple_gt k1 k2 (a b : entry A) :
  Spec.keyed k1 k2 a -> Spec.keyed k1 k2 b ->
  (0 < compareMultiple a b)%Z -> Spec.key_le k1 k2 (value_ b) (value_ a).
Proof.
  intros (Ha1 & Ha2 & Ha) (Hb1 & Hb2 & Hb). unfold compareMultiple, Spec.key_le.
  rewrite Ha1, Ha2, Hb1, Hb2.
  destruct (k1 (value_ a)) as [|x]; [done|]. destruct (k1 (value_ b)) as [|y]; [done|].
  rewrite compareAscending_Num, compareAscending_string.
  rewrite (compareStrings_antisym (k2 (value_ a)) (k2 (value_ b))).
  destruct (Z.eqb_spec x y); cbn.
  - destruct (compareStrings _ _); cbn; intros; try lia; right; done.
  - destruct (Z.ltb_spec y x); cbn; intros; lia.
Qed.

Lemma imap_value (g : nat -> A -> entry A) (l : list A) :
  (forall i x, value_ (g i x) = x) -> map value_ (imap g l) = l.
Proof.
  revert g. induction l as [|x l IH]; intros g Hg; [done|].
  cbn. rewrite Hg. f_equal. apply IH. intros. apply Hg.
Qed.

Lemma sortBy_Permutation k1 k2 (l : list A) : sortBy k1 k2 l ≡ₚ l.
Proof.
  unfold sortBy. rewrite sort_Permutation. by rewrite imap_value.
Qed.

Lemma sortBy_Sorted k1 k2 (l : list A) :
  Forall (fun x => k1 x <> NaN) l -> Sorted (Spec.key_le k1 k2) (sortBy k1 k2 l).
Proof.
  intros Hnum. unfold sortBy.
  assert (Forall (Spec.keyed k1 k2) (imap (fun i x => Entry (k1 x) (k2 x) i x) l)) as HP.
  { clear -Hnum. apply Forall_forall. intros e He. apply list_elem_of_lookup in He as [i He].
    rewrite list_lookup_imap in He.
    destruct (l !! i) as [x|] eqn:E; [|done]. cbn in He. injection He as <-.
    repeat split. cbn. eapply Forall_lookup_1 in Hnum; eauto. }
  pose proof (sort_Sorted compareMultiple
                (fun a b => Spec.key_le k1 k2 (value_ a) (value_ b)) (Spec.keyed k1 k2)
                (compareMultiple_le k1 k2) (compareMultiple_gt k1 k2) _ HP) as HS.
  induction HS as [|e l' HS IH Hhd]; cbn; constructor; [done|].
  destruct Hhd; cbn; constructor; done.
Qed.
End LodashLemmas.

(** ** Trimmed names *)

Section TrimLemmas.
Import JS.

Lemma bytes_app (s1 s2 : string) :
  Trim.bytes (s1 ++ s2) = (Trim.bytes s1 ++ Trim.bytes s2)%list.
Proof.
  unfold Trim.bytes. induction s1 as [|c s1 IH]; [done|].
  change (String c s1 ++ s2) with (String c (s1 ++ s2)).
  cbn [list_ascii_of_string]. by rewrite IH.
Qed.

Lemma bytes_inj (s1 s2 : string) : Trim.bytes s1 = Trim.bytes s2 -> s1 = s2.
Proof.
  intros H. rewrite <- (string_of_list_ascii_of_string s1),
    <- (string_of_list_ascii_of_string s2). unfold Trim.bytes in H. by rewrite H.
Qed.

Lemma bytes_of_list (l : list ascii) : Trim.bytes (string_of_list_ascii l) = l.
Proof. apply list_ascii_of_string_of_list_ascii. Qed.

Lemma dropPrefix_Some (p l rest : list ascii) :
  dropPrefix p l = Some rest <-> l = (p ++ rest)%list.
Proof.
  revert l. induction p as [|a p IH]; intros l; cbn.
  - split; congruence.
  - destruct l as [|b l]; [done|].
    destruct (Ascii.eqb_spec a b) as [->|Hne].
    + rewrite IH. split; congruence.
    + split; [done|]. congruence.
Qed.

Lemma dropPrefix_None (p l : list ascii) :
  dropPrefix p l = None <-> ~ p `prefix_of` l.
Proof.
  split.
  - intros Hnone [rest Hrest]. apply dropPrefix_Some in Hrest. congruence.
  - intros Hnot. destruct (dropPrefix p l) as [rest|] eqn:E; [|done].
    destruct Hnot. exists rest. by apply dropPrefix_Some.
Qed.

Lemma dropOne_Some (ps : list (list ascii)) (l rest : list ascii) :
  dropOne ps l = Some rest -> exists p, p ∈ ps /\ l = (p ++ rest)%list.
Proof.
  induction ps as [|p ps IH]; [done|]. cbn.
  destruct (dropPrefix p l) as [r|] eqn:E.
  - intros [= ->]. exists p. split; [apply list_elem_of_here|].
    by apply dropPrefix_Some.
  - intros (q & Hq & Hl)%IH. exists q. split; [by apply list_elem_of_further|done].
Qed.

Lemma dropOne_None (ps : list (list ascii)) (l : list ascii) :
  dropOne ps l = None <-> forall p, p ∈ ps -> ~ p `prefix_of` l.
Proof.
  induction ps as [|p ps IH]; cbn.
  - split; [|done]. intros _ q Hq. by apply elem_of_nil in Hq.
  - destruct (dropPrefix p l) as [r|] eqn:E.
    + split; [done|]. intros Hall. destruct (Hall p (list_elem_of_here _ _)).
      exists r. by apply dropPrefix_Some.
    + rewrite IH. apply dropPrefix_None in E. split.
      * intros Hall q [->|Hq]%elem_of_cons; auto.
      * intros Hall q Hq. apply Hall. by apply list_elem_of_further.
Qed.

(** What [dropAll] drops is a run of the [ps]. *)
Lemma dropAll_split (ps : list (list ascii)) (rounds : nat) (l : list ascii) :
  exists run, Forall (fun p => p ∈ ps) run /\
              l = (concat run ++ dropAll ps rounds l)%list.
Proof.
  revert l. induction rounds as [|n IH]; intros l; cbn; [by exists []|].
  destruct (dropOne ps l) as [rest|] eqn:E; [|by exists []].
  apply dropOne_Some in E as (p & Hp & ->).
  destruct (IH rest) as (run & Hrun & Hrest).
  exists (p :: run). split; [by constructor|].
  cbn. rewrite <- app_assoc. by rewrite <- Hrest.
Qed.

(** With rounds enough, none of the [ps] is left at the start. *)
Lemma dropAll_done (ps : list (list ascii)) (rounds : nat) (l : list ascii) :
  Forall (fun p => p <> []) ps -> (length l <= rounds)%nat ->
  dropOne ps (dropAll ps rounds l) = None.
Proof.
  intros Hne. revert l. induction rounds as [|n IH]; intros l Hlen; cbn.
  - destruct l; [|cbn in Hlen; lia].
    apply dropOne_None. intros p Hp [k Hk].
    symmetry in Hk. apply app_eq_nil in Hk as [-> _].
    by eapply Forall_forall in Hne.
  - destruct (dropOne ps l) as [rest|] eqn:E; [|done].
    apply IH. apply dropOne_Some in E as (p & Hp & ->).
    eapply Forall_forall in Hne; [|exact Hp].
    rewrite length_app in Hlen. destruct p; [done|]. cbn in Hlen. lia.
Qed.

Lemma dropAll_fixed (ps : list (list ascii)) (rounds : nat) (l : list ascii) :
  dropOne ps l = None -> dropAll ps rounds l = l.
Proof. intros H. destruct rounds; [done|]. cbn. by rewrite H. Qed.

Lemma whiteSpace_nonempty : Forall (fun p => p <> []) (utf8 <$> whiteSpace).
Proof. cbv. repeat (constructor; [discriminate|]). constructor. Qed.

Lemma whiteSpace_reverse_nonempty :
  Forall (fun p => p <> []) ((reverse ∘ utf8) <$> whiteSpace).
Proof. cbv. repeat (constructor; [discriminate|]). constructor. Qed.

Lemma run_blank (run : list (list ascii)) :
  Forall (fun p => p ∈ utf8 <$> whiteSpace) run ->
  exists cs, Forall (fun c => c ∈ whiteSpace) cs /\ run = utf8 <$> cs.
Proof.
  induction 1 as [|p run Hp _ (cs & Hcs & ->)]; [by exists []|].
  apply list_elem_of_fmap in Hp as (c & -> & Hc).
  exists (c :: cs). split; [by constructor|done].
Qed.

Lemma run_reverse_blank (run : list (list ascii)) :
  Forall (fun p => p ∈ (reverse ∘ utf8) <$> whiteSpace) run ->
  exists cs, Forall (fun c => c ∈ whiteSpace) cs /\
             reverse (concat run) = concat (utf8 <$> cs).
Proof.
  induction 1 as [|p run Hp _ (cs & Hcs & IH)]; [by exists []|].
  apply list_elem_of_fmap in Hp as (c & -> & Hc).
  exists (cs ++ [c])%list. split; [apply Forall_app; split; [done|by constructor]|].
  cbn [concat]. unfold compose.
  rewrite reverse_app, IH, fmap_app, concat_app, reverse_involutive.
  cbn. by rewrite app_nil_r.
Qed.

Lemma bytes_trimStart (s : string) :
  Trim.bytes (trimStart s)
  = dropAll (utf8 <$> whiteSpace) (length (Trim.bytes s)) (Trim.bytes s).
Proof. apply bytes_of_list. Qed.

Lemma bytes_trimEnd (s : string) :
  Trim.bytes (trimEnd s)
  = reverse (dropAll ((reverse ∘ utf8) <$> whiteSpace) (length (Trim.bytes s))
               (reverse (Trim.bytes s))).
Proof. apply bytes_of_list. Qed.

(** What [trimStart] strips is a run of white space at the start. *)
Lemma trimStart_split (s : string) :
  exists front, s = front ++ trimStart s /\ Trim.blank front.
Proof.
  destruct (dropAll_split (utf8 <$> whiteSpace) (length (Trim.bytes s)) (Trim.bytes s))
    as (run & Hrun & Hs).
  apply run_blank in Hrun as (cs & Hcs & ->).
  exists (string_of_list_ascii (concat (utf8 <$> cs))). split.
  - apply bytes_inj. by rewrite bytes_app, bytes_trimStart, bytes_of_list.
  - exists cs. by rewrite bytes_of_list.
Qed.

(** What [trimEnd] strips is a run of white space at the end. *)
Lemma trimEnd_split (s : string) :
  exists back, s = trimEnd s ++ back /\ Trim.blank back.
Proof.
  destruct (dropAll_split ((reverse ∘ utf8) <$> whiteSpace) (length (Trim.bytes s))
              (reverse (Trim.bytes s))) as (run & Hrun & Hs).
  apply run_reverse_blank in Hrun as (cs & Hcs & Hback).
  exists (string_of_list_ascii (concat (utf8 <$> cs))). split.
  - apply bytes_inj. rewrite bytes_app, bytes_trimEnd, bytes_of_list, <- Hback.
    rewrite <- reverse_app, <- Hs. by rewrite reverse_involutive.
  - exists cs. by rewrite bytes_of_list.
Qed.

(** No white space is left at the start by [trimStart]. *)
Lemma trimStart_start (s : string) (c : N) :
  c ∈ whiteSpace -> ~ utf8 c `prefix_of` Trim.bytes (trimStart s).
Proof.
  intros Hc. rewrite bytes_trimStart.
  pose proof (dropAll_done _ _ (Trim.bytes s) whiteSpace_nonempty (le_n _)) as Hdone.
  rewrite dropOne_None in Hdone. apply Hdone.
  apply list_elem_of_fmap. by exists c.
Qed.

(** No white space is left at the end by [trimEnd]. *)
Lemma trimEnd_end (s : string) (c : N) :
  c ∈ whiteSpace -> ~ utf8 c `suffix_of` Trim.bytes (trimEnd s).
Proof.
  intros Hc. rewrite bytes_trimEnd, suffix_prefix_reverse, reverse_involutive.
  assert (length (reverse (Trim.bytes s)) <= length (Trim.bytes s))%nat as Hlen
      by (by rewrite length_reverse).
  pose proof (dropAll_done _ _ _ whiteSpace_reverse_nonempty Hlen) as Hdone.
  rewrite dropOne_None in Hdone. apply Hdone. apply list_elem_of_fmap. by exists c.
Qed.

Lemma trim_trimmed (s : string) : Trim.trimmed (trim s).
Proof.
  intros c Hc. split; [|by apply trimEnd_end].
  unfold trim. destruct (trimEnd_split (trimStart s)) as (back & Hs & _).
  intros Hprefix. apply (trimStart_start s c Hc).
  rewrite Hs, bytes_app. by apply prefix_app_r.
Qed.

(** A string that neither starts nor ends with white space is left as
    it is. *)
Lemma trim_fixed (s : string) : Trim.trimmed s -> trim s = s.
Proof.
  intros Htrimmed.
  assert (trimStart s = s) as Hstart.
  { apply bytes_inj. rewrite bytes_trimStart. apply dropAll_fixed, dropOne_None.
    intros p (c & -> & Hc)%list_elem_of_fmap. by apply Htrimmed. }
  unfold trim. rewrite Hstart.
  apply bytes_inj. rewrite bytes_trimEnd.
  rewrite dropAll_fixed; [by rewrite reverse_involutive|].
  apply dropOne_None. intros p (c & -> & Hc)%list_elem_of_fmap. cbn.
  rewrite <- suffix_prefix_reverse. by apply Htrimmed.
Qed.

Lemma trim_idempotent (s : string) : trim (trim s) = trim s.
Proof. apply trim_fixed, trim_trimmed. Qed.


(** White space beyond ASCII is stripped as well: here a no-break
    space and a byte order mark at the start, an ideographic space and
    a space at the end. *)
Lemma trim_beyond_ascii :
  let space c := string_of_list_ascii (utf8 c) in
  trim (space 0xA0%N ++ space 0xFEFF%N ++ "Bromley Hall" ++ space 0x3000%N ++ " ")
  = "Bromley Hall".
Proof. by vm_compute. Qed.

(** Every hall name on offer is a trimmed name. *)
Lemma loadHalls_trimmed
    (apartmentHalls goStalkHalls : response (list string))
    (availableHalls : list string) (hall : string) :
  loadHalls apartmentHalls goStalkHalls = Some availableHalls ->
  hall ∈ availableHalls -> trim hall = hall.
Proof.
  unfold loadHalls. intros Hload Hin.
  assert (exists halls, availableHalls = map trim halls) as [halls ->].
  { destruct apartmentHalls as [halls|?]; [|destruct goStalkHalls as [halls|?]];
      try done; injection Hload as <-; by exists halls. }
  change (map trim) with (fmap (M:=list) trim) in Hin.
  apply list_elem_of_fmap in Hin as (h & -> & _). apply trim_idempotent.
Qed.
End TrimLemmas.

(** ** Hall preferences *)

Section HallLemmas.
Import JS Lodash.

Lemma filter_index_sublist {A} (f : nat -> bool) (k : nat) (l : list A) :
  filter_index f k l `sublist_of` l.
Proof.
  revert k. induction l as [|x l IH]; intros k; cbn; [done|].
  destruct (f k); [by apply sublist_skip | by apply sublist_cons].
Qed.

Lemma names_unique_Permutation (l l' : list Choice.t) :
  l ≡ₚ l' -> Spec.names_unique l -> Spec.names_unique l'.
Proof.
  unfold Spec.names_unique. intros Hp.
  assert (map Choice.HallName l ≡ₚ map Choice.HallName l') as Hm
      by (by apply Permutation_map).
  by rewrite Hm.
Qed.

Lemma filter_sublist {A} (P : A -> Prop) `{!forall x, Decision (P x)} (l1 l2 : list A) :
  l1 `sublist_of` l2 -> filter P l1 `sublist_of` filter P l2.
Proof.
  induction 1 as [|x l1 l2 _ IH|x l1 l2 _ IH]; rewrite ?filter_cons; [done| |].
  - destruct (decide (P x)); [by apply sublist_skip | done].
  - destruct (decide (P x)); [by apply sublist_cons | done].
Qed.

Lemma names_unique_sublist (l l' : list Choice.t) :
  l' `sublist_of` l -> Spec.names_unique l -> Spec.names_unique l'.
Proof.
  unfold Spec.names_unique. intros Hs Hnd. eapply sublist_NoDup; [exact Hnd|].
  apply filter_sublist.
  change (map Choice.HallName) with (fmap (M:=list) Choice.HallName).
  by apply fmap_sublist.
Qed.

Lemma names_unique_same_names (l l' : list Choice.t) :
  map Choice.HallName l' = map Choice.HallName l ->
  Spec.names_unique l -> Spec.names_unique l'.
Proof. unfold Spec.names_unique. by intros ->. Qed.

Lemma NoDup_filter_insert (P : string -> Prop) `{!forall x, Decision (P x)}
    (l : list string) (i : nat) (n : string) :
  n ∉ l -> NoDup (filter P l) -> NoDup (filter P (<[i:=n]> l)).
Proof.
  revert i. induction l as [|x l IH]; intros i Hn Hnd; [done|].
  apply not_elem_of_cons in Hn as [Hnx Hn].
  rewrite filter_cons in Hnd.
  assert (NoDup (filter P l)) as Hnd'.
  { destruct (decide (P x)); [by apply NoDup_cons in Hnd as [_ ?] | done]. }
  destruct i as [|i];
    [change (<[0%nat:=n]> (x :: l)) with (n :: l)
    |change (<[S i:=n]> (x :: l)) with (x :: <[i:=n]> l)];
    rewrite filter_cons.
  - destruct (decide (P n)); [|done].
    apply NoDup_cons; split; [|done]. rewrite list_elem_of_filter. tauto.
  - destruct (decide (P x)); [|by apply IH].
    apply NoDup_cons; split; [|by apply IH].
    apply NoDup_cons in Hnd as [Hx _].
    rewrite list_elem_of_filter in Hx |- *. intros [Px Hin].
    apply list_elem_of_lookup in Hin as [j Hj].
    destruct (decide (i = j)) as [->|Hij].
    + destruct (decide (j < length l)%nat).
      * rewrite list_lookup_insert_eq in Hj by done. congruence.
      * rewrite list_insert_ge in Hj by lia.
        apply Hx. split; [done|]. by eapply list_elem_of_lookup_2.
    + rewrite list_lookup_insert_ne in Hj by done.
      apply Hx. split; [done|]. by eapply list_elem_of_lookup_2.
Qed.

Lemma hallNameTaken_false (name : option string) (cur : Choice.t) (l : list Choice.t) :
  hallNameTaken name cur l = false ->
  name = Some (Choice.HallName cur) \/
  forall c, c ∈ l -> Some (Choice.HallName c) <> name.
Proof.
  unfold hallNameTaken. intros H. apply andb_false_iff in H as [H|H].
  - left. apply negb_false_iff in H. by apply bool_decide_eq_true in H.
  - right. intros c Hc Heq.
    assert (existsb (fun hallInfo => bool_decide (Some (Choice.HallName hallInfo) = name)) l
            = true) as Ht; [|congruence].
    apply existsb_exists. exists c. split; [by apply list_elem_of_In|].
    by apply bool_decide_eq_true.
Qed.

Lemma hallNameTaken_true (name : option string) (cur : Choice.t) (l : list Choice.t) :
  hallNameTaken name cur l = true ->
  name <> Some (Choice.HallName cur) /\
  exists c, c ∈ l /\ name = Some (Choice.HallName c).
Proof.
  unfold hallNameTaken. intros H. apply andb_true_iff in H as [H1 H2].
  apply negb_true_iff, bool_decide_eq_false in H1. split; [done|].
  apply existsb_exists in H2 as (c & Hc & Heq).
  apply bool_decide_eq_true in Heq. exists c. split; [by apply list_elem_of_In|done].
Qed.

(** A row that takes a name no row carries, or keeps its own. *)
Lemma names_unique_insert (name : option string) (cur : Choice.t) (appid : option Z)
    (rank : number) (i : nat) (l : list Choice.t) :
  l !! i = Some cur ->
  hallNameTaken name cur l = false ->
  Spec.names_unique l ->
  Spec.names_unique
    (<[i := Choice.Make appid rank (coalesce name (Choice.HallName cur))]> l).
Proof.
  intros Hi Ht. unfold Spec.names_unique.
  change (map Choice.HallName) with (fmap (M:=list) Choice.HallName).
  rewrite list_fmap_insert. cbn [Choice.HallName].
  assert (fmap (M:=list) Choice.HallName l !! i = Some (Choice.HallName cur)) as Hi'
      by (by rewrite list_lookup_fmap, Hi).
  destruct (hallNameTaken_false _ _ _ Ht) as [->|Hfree]; cbn.
  - by rewrite list_insert_id.
  - destruct name as [n|]; cbn; [|by rewrite list_insert_id].
    apply NoDup_filter_insert. intros Hin.
    apply list_elem_of_fmap in Hin as (c & -> & Hc). by apply (Hfree c).
Qed.
End HallLemmas.

(** ** Claims on the hall preferences *)

Section HallClaims.
Import JS Lodash.

Local Abbreviation choices_of s := (Details.ApartmentChoices (applicationDetails s)).

Lemma handleHallRemove_choices (i : nat) (s : State) :
  choices_of (handleHallRemove (Some (Z.of_nat i)) s)
  = map (clampRank (delete i (choices_of s))) (delete i (choices_of s)).
Proof.
  unfold handleHallRemove.
  destruct (Z.eqb_spec (Z.of_nat i) (-1)) as [?|_]; [lia|]. cbn.
  rewrite filter_index_delete by lia.
  by replace (Z.to_nat (Z.of_nat i) - 0)%nat with i by lia.
Qed.

Lemma clampRank_bound (l : list Choice.t) (c : Choice.t) :
  gt (Choice.HallRank (clampRank l c)) (Num (Z.of_nat (length l))) = false.
Proof.
  unfold clampRank.
  destruct (gt (Choice.HallRank c) _) eqn:E; [|done].
  cbn. apply Z.ltb_irrefl.
Qed.

Lemma clampRank_fields (l : list Choice.t) (c : Choice.t) :
  Choice.ApplicationID (clampRank l c) = Choice.ApplicationID c /\
  Choice.HallName (clampRank l c) = Choice.HallName c.
Proof. unfold clampRank. by destruct (gt _ _). Qed.

Lemma clampRank_names (l l' : list Choice.t) :
  map Choice.HallName (map (clampRank l') l) = map Choice.HallName l.
Proof. rewrite map_map. apply map_ext. intros c. apply clampRank_fields. Qed.

Lemma clampRank_over (l : list Choice.t) (c : Choice.t) (z : Z) :
  Choice.HallRank c = Num z -> (Z.of_nat (length l) < z)%Z ->
  Choice.HallRank (clampRank l c) = Num (Z.of_nat (length l)).
Proof.
  intros Hr Hz. unfold clampRank. rewrite Hr. cbn.
  by destruct (Z.ltb_spec (Z.of_nat (length l)) z); [|lia].
Qed.

Lemma clampRank_within (l : list Choice.t) (c : Choice.t) (z : Z) :
  Choice.HallRank c = Num z -> (z <= Z.of_nat (length l))%Z -> clampRank l c = c.
Proof.
  intros Hr Hz. unfold clampRank. rewrite Hr. cbn.
  by destruct (Z.ltb_spec (Z.of_nat (length l)) z); [lia|].
Qed.

Lemma clampRank_NaN (l : list Choice.t) (c : Choice.t) :
  Choice.HallRank c = NaN -> clampRank l c = c.
Proof. intros Hr. unfold clampRank. by rewrite Hr. Qed.

Lemma clampRank_Num_bound (l : list Choice.t) (c : Choice.t) (z : Z) :
  Choice.HallRank (clampRank l c) = Num z -> (z <= Z.of_nat (length l))%Z.
Proof.
  intros Hr. pose proof (clampRank_bound l c) as Hb. rewrite Hr in Hb. cbn in Hb.
  by apply Z.ltb_ge in Hb.
Qed.

(** C2: removeChoice(i) at a valid index removes exactly the entry at
    index i (the entry at position j of the result is the one that
    was at j before i and at j+1 from i on); a remaining entry whose
    rank exceeds the new length has its rank set to the new length,
    one whose rank is within the new length is kept as it is; so no
    remaining rank exceeds the new length. *)
Theorem handleHallRemove_removes_and_clamps (i : nat) (s : State)
    (Hi : (i < length (choices_of s))%nat) :
  let choices := choices_of s in
  let s' := handleHallRemove (Some (Z.of_nat i)) s in
  let choices' := choices_of s' in
  let len' := Z.of_nat (length choices - 1) in
  Z.of_nat (length choices') = len' /\
  (forall j c', choices' !! j = Some c' ->
     exists c,
       choices !! (if (j <? i)%nat then j else S j) = Some c /\
       Choice.ApplicationID c' = Choice.ApplicationID c /\
       Choice.HallName c' = Choice.HallName c /\
       (forall z, Choice.HallRank c = Num z -> (len' < z)%Z ->
                  Choice.HallRank c' = Num len') /\
       (forall z, Choice.HallRank c = Num z -> (z <= len')%Z -> c' = c) /\
       (Choice.HallRank c = NaN -> c' = c) /\
       gt (Choice.HallRank c') (Num len') = false /\
       (forall z, Choice.HallRank c' = Num z -> (z <= len')%Z)) /\
  unsavedChanges s' = true.
Proof.
  intros choices s' choices' len'.
  assert (choices' = map (clampRank (delete i choices)) (delete i choices)) as Hc
      by apply handleHallRemove_choices.
  assert (length (delete i choices) = (length choices - 1)%nat) as Hlen.
  { apply length_delete. by apply lookup_lt_is_Some. }
  split; [|split].
  - rewrite Hc, length_map, Hlen. done.
  - intros j c' Hj. rewrite Hc in Hj.
    change (map (clampRank (delete i choices))) with
      (fmap (M:=list) (clampRank (delete i choices))) in Hj.
    rewrite list_lookup_fmap in Hj.
    destruct (delete i choices !! j) as [c|] eqn:Hd; [|done].
    cbn in Hj. injection Hj as <-. exists c.
    split.
    { destruct (Nat.ltb_spec j i).
      - by rewrite list_lookup_delete_lt in Hd.
      - by rewrite list_lookup_delete_ge in Hd. }
    pose proof (clampRank_fields (delete i choices) c) as [Hid Hname].
    pose proof (clampRank_over (delete i choices) c) as Hover.
    pose proof (clampRank_within (delete i choices) c) as Hin.
    pose proof (clampRank_bound (delete i choices) c) as Hb.
    pose proof (clampRank_Num_bound (delete i choices) c) as Hnb.
    pose proof (clampRank_NaN (delete i choices) c) as Hnan.
    rewrite Hlen in Hover, Hin, Hb, Hnb. done.
  - unfold s', handleHallRemove.
    by destruct (Z.eqb_spec (Z.of_nat i) (-1)) as [?|_]; [lia|].
Qed.

(** C2, at the second of three halls: two are left, none ranked
    above 2. *)
Lemma handleHallRemove_removes_and_clamps_witness :
  (1 < length (choices_of (Example.state [] Example.threeHalls)))%nat /\
  Z.of_nat
    (length (choices_of (handleHallRemove (Some 1%Z)
                           (Example.state [] Example.threeHalls)))) = 2%Z.
Proof.
  split; [cbn; lia|].
  refine (proj1 (handleHallRemove_removes_and_clamps 1
                   (Example.state [] Example.threeHalls) _)).
  cbn; lia.
Defined.

Lemma sortHalls_Permutation (l : list Choice.t) : sortHalls l ≡ₚ l.
Proof. apply sortBy_Permutation. Qed.

Lemma sortHalls_Sorted (l : list Choice.t) :
  Spec.numeric_ranks l -> Spec.sorted_by_rank_name (sortHalls l).
Proof. apply sortBy_Sorted. Qed.

Lemma hallNameTaken_conflict (name : option string) (i : nat) (cur : Choice.t)
    (l : list Choice.t) :
  l !! i = Some cur ->
  hallNameTaken name cur l = true <-> Spec.name_conflict name i cur l.
Proof.
  intros Hi. split.
  - intros (Hne & c & Hc & Hname)%hallNameTaken_true. split; [done|].
    apply list_elem_of_lookup in Hc as [j Hj]. exists j, c.
    split; [|done]. intros ->. congruence.
  - intros (Hne & j & c & _ & Hj & Hname).
    destruct (hallNameTaken name cur l) eqn:E; [done|].
    apply hallNameTaken_false in E as [?|Hfree]; [done|].
    exfalso. apply (Hfree c); [by eapply list_elem_of_lookup_2 | done].
Qed.

(** What [handleHallInputChange] does at a row that exists. *)
Lemma handleHallInputChange_at parse (rank : value) (name : option string) (i : nat)
    (cur : Choice.t) (s : State) :
  choices_of s !! i = Some cur ->
  exists s',
    handleHallInputChange parse rank name (Some (Z.of_nat i)) s = Some s' /\
    unsavedChanges s' = true /\
    if hallNameTaken name cur (choices_of s) then
      choices_of s' = sortHalls (choices_of s) /\
      snackbar s' = {| message := String_ name ++ " is already in the list.";
                       severity := "info"; open := true |}
    else
      choices_of s'
      = sortHalls
          (<[i := Choice.Make (Details.ApplicationID (applicationDetails s))
                    (Number parse rank)
                    (coalesce name (Choice.HallName cur))]> (choices_of s)) /\
      snackbar s' = snackbar s.
Proof.
  intros Hi. unfold handleHallInputChange.
  destruct (Z.leb_spec 0 (Z.of_nat i)) as [_|?]; [|lia].
  rewrite Nat2Z.id, Hi. eexists. split; [reflexivity|].
  destruct (hallNameTaken name cur (choices_of s)); cbn; [done|].
  rewrite map_replace_insert by lia.
  by replace (Z.to_nat (Z.of_nat i) - 0)%nat with i by lia.
Qed.

(** C3 as amended: an edit of row i is refused exactly when the name
    it gives is carried by another row and is not the row's own name,
    the names being compared as they are stored and given
    (case-sensitive, not trimmed).  A refused edit leaves the same
    entries and shows a notice; an accepted edit replaces the entry at
    i.  In both cases the list is then ordered by (rank, name) when
    every rank in it is a number. *)
Theorem handleHallInputChange_edit parse (rank : value) (name : option string) (i : nat)
    (current : Choice.t) (s : State)
    (Hi : choices_of s !! i = Some current) :
  let choices := choices_of s in
  let edited :=
    Choice.Make (Details.ApplicationID (applicationDetails s))
      (Number parse rank) (coalesce name (Choice.HallName current)) in
  exists s',
    handleHallInputChange parse rank name (Some (Z.of_nat i)) s = Some s' /\
    unsavedChanges s' = true /\
    (Spec.name_conflict name i current choices ->
       choices_of s' ≡ₚ choices /\
       (Spec.numeric_ranks choices -> Spec.sorted_by_rank_name (choices_of s')) /\
       snackbar s' = {| message := String_ name ++ " is already in the list.";
                        severity := "info"; open := true |}) /\
    (~ Spec.name_conflict name i current choices ->
       choices_of s' ≡ₚ <[i := edited]> choices /\
       (Spec.numeric_ranks (<[i := edited]> choices) ->
        Spec.sorted_by_rank_name (choices_of s')) /\
       snackbar s' = snackbar s).
Proof.
  intros choices edited.
  destruct (handleHallInputChange_at parse rank name i current s Hi)
    as (s' & Hrun & Hdirty & Hres).
  exists s'. split; [done|]. split; [done|].
  pose proof (hallNameTaken_conflict name i current choices Hi) as Hspec.
  fold choices in Hres.
  destruct (hallNameTaken name current choices).
  - destruct Hres as [-> ->]. split; [|intros Hn; by destruct Hn; apply Hspec].
    intros _. split; [apply sortHalls_Permutation|].
    split; [apply sortHalls_Sorted | done].
  - destruct Hres as [-> ->]. split; [intros Hc; by apply Hspec in Hc|].
    intros _. split; [apply sortHalls_Permutation|].
    split; [apply sortHalls_Sorted | done].
Qed.

(** C3, on three halls: giving the first row the name of the second
    is refused, with the notice. *)
Lemma handleHallInputChange_edit_witness :
  choices_of (Example.state [] Example.threeHalls) !! 0%nat
  = Some (Example.hall 1 "Bromley") /\
  exists s',
    handleHallInputChange Example.StringToNumber (VString "2") (Some "Tavilla")
      (Some 0%Z) (Example.state [] Example.threeHalls) = Some s' /\
    snackbar s' = Spec.notice "Tavilla is already in the list." "info" /\
    choices_of s' ≡ₚ Example.threeHalls.
Proof.
  split; [reflexivity|].
  destruct (handleHallInputChange_edit Example.StringToNumber (VString "2")
              (Some "Tavilla") 0 (Example.hall 1 "Bromley")
              (Example.state [] Example.threeHalls) eq_refl)
    as (s' & Hrun & _ & Hrefused & _).
  exists s'. split; [exact Hrun|].
  destruct Hrefused as (Hperm & _ & Hnotice).
  - split; [discriminate|]. exists 1%nat, (Example.hall 2 "Tavilla").
    split; [lia|]. split; reflexivity.
  - split; [exact Hnotice | exact Hperm].
Defined.

(** C3 fails as it stands: the names are not trimmed before they are
    compared.  Beside a stored 'Bromley ' (with a space at its end)
    the edit of the second row to 'Bromley' is accepted, although the
    two names are the same once trimmed: the list then holds both. *)
Lemma handleHallInputChange_untrimmed_duplicate :
  let s := Example.state [] [Example.hall 1 "Bromley "; Example.hall 2 "Tavilla"] in
  trim "Bromley " = trim "Bromley" /\
  exists s',
    handleHallInputChange Example.StringToNumber (VString "2") (Some "Bromley")
      (Some 1%Z) s = Some s' /\
    choices_of s' = [Example.hall 1 "Bromley "; Example.hall 2 "Bromley"] /\
    snackbar s' = snackbar s.
Proof. split; [by vm_compute|]. eexists. by vm_compute. Qed.

(** C10: when [Number(hallRankValue)] is [NaN], an accepted edit
    stores [NaN] as the rank of the edited entry; the previous rank is
    never taken, whatever it is. *)
Theorem handleHallInputChange_rank_NaN parse (rank : value) (name : option string)
    (i : nat) (current : Choice.t) (s : State)
    (Hi : choices_of s !! i = Some current)
    (Hfree : ~ Spec.name_conflict name i current (choices_of s))
    (Hnan : Number parse rank = NaN) :
  let edited :=
    Choice.Make (Details.ApplicationID (applicationDetails s)) NaN
      (coalesce name (Choice.HallName current)) in
  coalesce (Some (Number parse rank)) (Choice.HallRank current) = NaN /\
  exists s',
    handleHallInputChange parse rank name (Some (Z.of_nat i)) s = Some s' /\
    choices_of s' ≡ₚ <[i := edited]> (choices_of s) /\
    edited ∈ choices_of s'.
Proof.
  intros edited. split; [by rewrite Hnan|].
  destruct (handleHallInputChange_at parse rank name i current s Hi)
    as (s' & Hrun & _ & Hres).
  exists s'. split; [done|].
  destruct (hallNameTaken name current (choices_of s)) eqn:E.
  { by apply (hallNameTaken_conflict name i current _ Hi) in E. }
  destruct Hres as [Hres _]. rewrite Hnan in Hres. fold edited in Hres.
  assert (choices_of s' ≡ₚ <[i := edited]> (choices_of s)) as Hp
      by (rewrite Hres; apply sortHalls_Permutation).
  split; [done|]. rewrite Hp.
  apply list_elem_of_lookup. exists i. apply list_lookup_insert_eq.
  by eapply lookup_lt_Some.
Qed.

(** C10, on three halls: an undefined rank for the first row. *)
Lemma handleHallInputChange_rank_NaN_witness :
  Number Example.StringToNumber VUndefined = NaN /\
  exists s',
    handleHallInputChange Example.StringToNumber VUndefined (Some "Bromley")
      (Some 0%Z) (Example.state [] Example.threeHalls) = Some s' /\
    Choice.Make None NaN "Bromley" ∈ choices_of s'.
Proof.
  split; [reflexivity|].
  destruct (handleHallInputChange_rank_NaN Example.StringToNumber VUndefined
              (Some "Bromley") 0 (Example.hall 1 "Bromley")
              (Example.state [] Example.threeHalls) eq_refl
              (fun conflict => proj1 conflict eq_refl) eq_refl)
    as (_ & s' & Hrun & _ & Hin).
  exists s'. split; [exact Hrun | exact Hin].
Defined.

Lemma handleHallAdd_choices (s : State) :
  choices_of (handleHallAdd s)
  = (choices_of s
     ++ [Choice.Make (Details.ApplicationID (applicationDetails s))
           (Num (Z.of_nat (length (choices_of s)) + 1)) ""])%list.
Proof. reflexivity. Qed.

Lemma handleHallAdd_unsavedChanges (s : State) :
  unsavedChanges (handleHallAdd s) = unsavedChanges s.
Proof. reflexivity. Qed.

(** C9, where the code departs from it: on an application with
    nothing unsaved and three halls, addChoice appends the placeholder
    of rank 4 with an empty name and leaves the three halls as they
    are, but the unsaved-changes flag is still false afterwards. *)
Theorem handleHallAdd_leaves_flag_clear :
  let s := Example.state [Example.applicant Example.alice] Example.threeHalls in
  unsavedChanges s = false /\
  choices_of (handleHallAdd s) = (Example.threeHalls ++ [Example.hall 4 ""])%list /\
  unsavedChanges (handleHallAdd s) = false.
Proof.
  intros s. split; [reflexivity|].
  split; [by rewrite handleHallAdd_choices | by rewrite handleHallAdd_unsavedChanges].
Qed.

(** C1 fails as it stands: removing the first of three halls ranked
    1, 2, 3 leaves the ranks 2, 2. *)
Lemma handleHallRemove_ranks_not_contiguous :
  let s := Example.state [] Example.threeHalls in
  Spec.names_unique (choices_of s) /\
  Spec.ranks_contiguous (choices_of s) /\
  ~ (Spec.names_unique (choices_of (handleHallRemove (Some 0%Z) s)) /\
     Spec.ranks_contiguous (choices_of (handleHallRemove (Some 0%Z) s))).
Proof.
  intros s. split; [|split].
  - unfold Spec.names_unique. apply (bool_decide_unpack _). by vm_compute.
  - unfold Spec.ranks_contiguous. by vm_compute.
  - intros [_ Hp]. unfold Spec.ranks_contiguous in Hp. vm_compute in Hp.
    assert (Num 1 ∈ [Num 2; Num 2]) as Hin by (rewrite Hp; apply list_elem_of_here).
    apply list_elem_of_In in Hin. cbn in Hin. by intuition.
Qed.

Lemma ranks_in_range_clamp (l l' : list Choice.t) :
  l' `sublist_of` l -> Spec.ranks_in_range l ->
  Spec.ranks_in_range (map (clampRank l') l').
Proof.
  intros Hsub Hr. unfold Spec.ranks_in_range in *. rewrite length_map.
  apply Forall_forall. intros c' Hc'.
  change (map (clampRank l')) with (fmap (M:=list) (clampRank l')) in Hc'.
  apply list_elem_of_fmap in Hc' as (c & -> & Hc).
  assert (0 < length l')%nat as Hpos by (destruct l'; [by apply elem_of_nil in Hc | cbn; lia]).
  rewrite Forall_forall in Hr.
  destruct (Hr c) as (z & Hz & Hz1 & _); [by eapply elem_of_sublist|].
  destruct (Z.le_gt_cases z (Z.of_nat (length l'))).
  - exists z. by rewrite (clampRank_within l' c z).
  - exists (Z.of_nat (length l')). rewrite (clampRank_over l' c z) by (done || lia).
    split; [done | lia].
Qed.

(** C1 as amended: a list in which no two choices share a non-empty
    hall name stays so under addChoice, removeChoice and editChoice;
    ranks that lie in 1..len stay in 1..len under addChoice and
    removeChoice. *)
Theorem hall_mutations_keep_names_unique parse (s : State)
    (Hunique : Spec.names_unique (choices_of s)) :
  Spec.names_unique (choices_of (handleHallAdd s)) /\
  (forall index, Spec.names_unique (choices_of (handleHallRemove index s))) /\
  (forall rank name index s',
     handleHallInputChange parse rank name index s = Some s' ->
     Spec.names_unique (choices_of s')) /\
  (Spec.ranks_in_range (choices_of s) ->
   Spec.ranks_in_range (choices_of (handleHallAdd s)) /\
   forall index, Spec.ranks_in_range (choices_of (handleHallRemove index s))).
Proof.
  split; [|split; [|split]].
  - rewrite handleHallAdd_choices. unfold Spec.names_unique in *.
    rewrite map_app, filter_app. cbn [map Choice.HallName].
    rewrite filter_cons_False by (intros H; by apply H).
    by rewrite filter_nil, app_nil_r.
  - intros [index|]; [|done]. unfold handleHallRemove.
    destruct (index =? -1)%Z; [done|]. cbn.
    eapply names_unique_same_names; [apply clampRank_names|].
    eapply names_unique_sublist; [apply filter_index_sublist | done].
  - intros rank name [index|] s' Hrun; unfold handleHallInputChange in Hrun;
      [|by injection Hrun as <-].
    destruct (Z.leb_spec 0 index); [|by injection Hrun as <-].
    destruct (choices_of s !! Z.to_nat index) as [cur|] eqn:Hi; [|done].
    injection Hrun as <-.
    destruct (hallNameTaken name cur (choices_of s)) eqn:E; cbn.
    + eapply names_unique_Permutation; [symmetry; apply sortHalls_Permutation | done].
    + eapply names_unique_Permutation; [symmetry; apply sortHalls_Permutation|].
      rewrite map_replace_insert by lia.
      replace (Z.to_nat index - 0)%nat with (Z.to_nat index) by lia.
      by apply names_unique_insert.
  - intros Hr. split.
    + rewrite handleHallAdd_choices. unfold Spec.ranks_in_range in *.
      rewrite length_app. cbn [length]. apply Forall_app. split.
      * eapply Forall_impl; [exact Hr|]. cbn. intros c (z & Hz & ?).
        exists z. split; [done | lia].
      * constructor; [|done]. cbn. eexists. split; [done | lia].
    + intros [index|]; [|done]. unfold handleHallRemove.
      destruct (index =? -1)%Z; [done|]. cbn.
      apply (ranks_in_range_clamp (choices_of s)); [apply filter_index_sublist | done].
Qed.

(** C1 as amended, on three halls. *)
Lemma hall_mutations_keep_names_unique_witness :
  Spec.names_unique (choices_of (Example.state [] Example.threeHalls)) /\
  Spec.names_unique
    (choices_of (handleHallRemove (Some 0%Z) (Example.state [] Example.threeHalls))).
Proof.
  assert (Spec.names_unique (choices_of (Example.state [] Example.threeHalls))) as Hu.
  { unfold Spec.names_unique. apply (bool_decide_unpack _). by vm_compute. }
  split; [exact Hu|].
  exact (proj1 (proj2 (hall_mutations_keep_names_unique Example.StringToNumber
                         (Example.state [] Example.threeHalls) Hu))
           (Some 0%Z)).
Defined.
End HallClaims.

(** ** Claims on the roster and on saving *)

Section RosterClaims.
Import JS Lodash.
Variable userProfile : Profile.t.
Variable userService : user.t.
Variable housingService : housing.t.

Local Abbreviation applicants_of s := (Details.Applicants (applicationDetails s)).
Local Abbreviation isApplicantValid' := (isApplicantValid housingService).
Local Abbreviation addApplicant' := (addApplicant userService housingService).

(** What [isApplicantValid] leaves alone. *)
Lemma isApplicantValid_state (applicant : Applicant.t) (s : State) :
  let s' := (isApplicantValid' applicant s).2 in
  applicationDetails s' = applicationDetails s /\
  unsavedChanges s' = unsavedChanges s /\
  saving s' = saving s /\
  canEditApplication s' = canEditApplication s /\
  saveButtonAlertTimeout s' = saveButtonAlertTimeout s /\
  timers s' = timers s.
Proof. unfold isApplicantValid. repeat case_match; done. Qed.

Lemma isApplicantValid_full (applicant : Applicant.t) (s : State) :
  (MAX_NUM_APPLICANTS <= length (applicants_of s))%nat ->
  let '(valid, applicant', s') := isApplicantValid' applicant s in
  valid = false /\ applicant' = applicant /\ requests s' = requests s /\
  (snackbar s' = Spec.notice addPersonErrorMessage "error" \/
   snackbar s' = Spec.notice "You cannot have more than 8 applicants" "warning").
Proof.
  intros Hfull. unfold isApplicantValid.
  destruct (Applicant.Profile applicant); [|by auto].
  destruct (Nat.leb_spec MAX_NUM_APPLICANTS (length (applicants_of s))); [|lia].
  by auto.
Qed.

(** When [isApplicantValid] accepts, and what it gives back then. *)
Lemma isApplicantValid_accepts (applicant : Applicant.t) (p : Profile.t) (s : State) :
  Applicant.Profile applicant = Some p ->
  (length (applicants_of s) < MAX_NUM_APPLICANTS)%nat ->
  includes (Profile.PersonType p) "stu" = true ->
  Profile.Gender p = Details.Gender (applicationDetails s) ->
  Spec.free_to_join housingService (requests s) p
    (Details.ApplicationID (applicationDetails s)) ->
  isApplicantValid' applicant s
  = (true, Applicant.set_Profile (Some (Spec.named p)) applicant,
     send (housing_getCurrentApplicationID (Some (Profile.AD_Username p))) s).
Proof.
  intros Hp Hlen Hstu Hgender Hfree. unfold isApplicantValid, Spec.free_to_join in *.
  rewrite Hp.
  destruct (Nat.leb_spec MAX_NUM_APPLICANTS (length (applicants_of s))); [lia|].
  cbn. rewrite Hstu. cbn. rewrite bool_decide_eq_true_2 by done. cbn.
  destruct (housing.getCurrentApplicationID _ _ _) as [id|[]]; try done.
  destruct Hfree as [Hid|Hid].
  - by destruct (Z.ltb_spec 0 id); [lia|].
  - rewrite (bool_decide_eq_true_2 _ Hid). by rewrite andb_false_r.
Qed.

Lemma isApplicantValid_true (applicant : Applicant.t) (s : State) :
  (isApplicantValid' applicant s).1.1 = true ->
  exists p,
    Applicant.Profile applicant = Some p /\
    (length (applicants_of s) < MAX_NUM_APPLICANTS)%nat /\
    includes (Profile.PersonType p) "stu" = true /\
    Profile.Gender p = Details.Gender (applicationDetails s) /\
    Spec.free_to_join housingService (requests s) p
      (Details.ApplicationID (applicationDetails s)).
Proof.
  unfold isApplicantValid, Spec.free_to_join.
  destruct (Applicant.Profile applicant) as [p|]; [|done].
  destruct (Nat.leb_spec MAX_NUM_APPLICANTS (length (applicants_of s))); [done|].
  cbn. destruct (includes (Profile.PersonType p) "stu") eqn:Hstu; [|done]. cbn.
  destruct (bool_decide_reflect
              (Profile.Gender p = Details.Gender (applicationDetails s))); [|done].
  cbn. intros Hv. exists p. repeat split; try done.
  destruct (housing.getCurrentApplicationID _ _ _) as [id|[]]; try done.
  destruct (Z.ltb_spec 0 id); [|by left]. right.
  by destruct (bool_decide_reflect
                 (Some id = Details.ApplicationID (applicationDetails s))).
Qed.

(** A refusal of [isApplicantValid] that comes before the query. *)
Lemma isApplicantValid_gender (applicant : Applicant.t) (p : Profile.t) (s : State) :
  Applicant.Profile applicant = Some p ->
  Profile.Gender p <> Details.Gender (applicationDetails s) ->
  let '(valid, _, s') := isApplicantValid' applicant s in
  valid = false /\ requests s' = requests s /\
  open (snackbar s') = true /\ severity (snackbar s') = "warning" /\
  ((length (applicants_of s) < MAX_NUM_APPLICANTS)%nat ->
   includes (Profile.PersonType p) "stu" = true ->
   message (snackbar s')
   = "Could not add " ++ Spec.display_name p ++
     " as an applicant because they are not the same gender as the other applicants.").
Proof.
  intros Hp Hgender. unfold isApplicantValid. rewrite Hp.
  destruct (Nat.leb_spec MAX_NUM_APPLICANTS (length (applicants_of s))).
  { repeat split; try done. lia. }
  cbn. destruct (includes (Profile.PersonType p) "stu"); cbn; [|done].
  by rewrite bool_decide_eq_false_2.
Qed.

(** [arr.some] and [arr.filter] on the username. *)
Lemma some_username_false (username : string) (l : list Applicant.t) :
  some (fun applicant =>
          match Applicant.Profile applicant with
          | Some p => Some (String.eqb (Profile.AD_Username p) username)
          | None => None
          end) l = Some false ->
  Spec.not_listed username l.
Proof.
  induction l as [|a l IH]; cbn; [by constructor|].
  destruct (Applicant.Profile a) as [q|] eqn:Hq; [|done].
  destruct (String.eqb_spec (Profile.AD_Username q) username); [done|].
  intros H. constructor; [by exists q | by apply IH].
Qed.

Lemma not_listed_some (username : string) (l : list Applicant.t) :
  Spec.not_listed username l ->
  some (fun applicant =>
          match Applicant.Profile applicant with
          | Some p => Some (String.eqb (Profile.AD_Username p) username)
          | None => None
          end) l = Some false.
Proof.
  induction 1 as [|a l (q & Hq & Hne) _ IH]; cbn; [done|].
  rewrite Hq. by destruct (String.eqb_spec (Profile.AD_Username q) username).
Qed.

Lemma filter_username_not_listed (username : string) (l : list Applicant.t) :
  Spec.not_listed username l ->
  filter_ (fun applicant =>
             match Applicant.Profile applicant with
             | Some p => Some (negb (String.eqb (Profile.AD_Username p) username))
             | None => None
             end) l = Some l.
Proof.
  induction 1 as [|a l (q & Hq & Hne) _ IH]; cbn; [done|].
  rewrite Hq, IH. by destruct (String.eqb_spec (Profile.AD_Username q) username).
Qed.

Lemma filter__app {A} (f : A -> option bool) (l1 l2 r1 r2 : list A) :
  filter_ f l1 = Some r1 -> filter_ f l2 = Some r2 ->
  filter_ f (l1 ++ l2)%list = Some (r1 ++ r2)%list.
Proof.
  revert r1. induction l1 as [|x l1 IH]; cbn; intros r1 H1 H2; [by injection H1 as <-|].
  destruct (f x) as [b|]; [|done].
  destruct (filter_ f l1) as [r|]; [|done]. injection H1 as <-.
  rewrite (IH r eq_refl H2). by destruct b.
Qed.


(** [addApplicant] accepts a candidate that passes every check. *)
Lemma addApplicant_accepts (username : string) (p : Profile.t) (s : State) :
  user.getProfileInfo userService (requests s) username = Resolved (Some p) ->
  Spec.not_listed username (applicants_of s) ->
  (length (applicants_of s) < MAX_NUM_APPLICANTS)%nat ->
  includes (Profile.PersonType p) "stu" = true ->
  Profile.Gender p = Details.Gender (applicationDetails s) ->
  Spec.free_to_join housingService (requests s ++ [user_getProfileInfo username]) p
    (Details.ApplicationID (applicationDetails s)) ->
  applicants_of (addApplicant' username s)
  = (applicants_of s
     ++ [Applicant.Make (Details.ApplicationID (applicationDetails s))
           (Some (Spec.named p)) username ""])%list /\
  unsavedChanges (addApplicant' username s) = true.
Proof.
  intros Hprofile Hlisted Hlen Hstu Hgender Hfree. unfold addApplicant.
  rewrite Hprofile. cbn [send applicationDetails requests].
  rewrite (not_listed_some _ _ Hlisted).
  by rewrite (isApplicantValid_accepts _ p).
Qed.

(** Either [addApplicant] leaves the roster as it is, or the
    candidate passed every check and is at its end. *)
Lemma addApplicant_cases (username : string) (s : State) :
  let s' := addApplicant' username s in
  (applicants_of s' = applicants_of s /\ unsavedChanges s' = unsavedChanges s) \/
  (exists p,
     user.getProfileInfo userService (requests s) username = Resolved (Some p) /\
     Spec.not_listed username (applicants_of s) /\
     (length (applicants_of s) < MAX_NUM_APPLICANTS)%nat /\
     applicants_of s'
     = (applicants_of s
        ++ [Applicant.Make (Details.ApplicationID (applicationDetails s))
              (Some (Spec.named p)) username ""])%list).
Proof.
  cbn zeta. unfold addApplicant.
  destruct (user.getProfileInfo userService (requests s) username)
    as [profile|e] eqn:Hprofile; [|by left].
  cbn [send applicationDetails requests].
  destruct (some _ (applicants_of s)) as [[|]|] eqn:Hsome; [|..|by left].
  { left. by destruct profile. }
  set (s0 := send _ s). set (candidate := Applicant.Make _ _ _ _).
  pose proof (isApplicantValid_state candidate s0) as (Hd & Hu & _).
  pose proof (isApplicantValid_true candidate s0) as Htrue.
  destruct (isApplicantValid' candidate s0) as [[valid candidate'] s1] eqn:Hrun.
  cbn [fst snd] in *. destruct valid; [|left; by rewrite Hd, Hu].
  destruct (Htrue eq_refl) as (p & Hp & Hlen & Hstu & Hgender & Hfree).
  cbn in Hp. subst profile. right. exists p.
  split; [done|]. split; [by apply some_username_false|]. split; [done|].
  rewrite (isApplicantValid_accepts candidate p s0) in Hrun by done.
  by injection Hrun as <- <-.
Qed.


(** C6: a candidate whose gender differs from the gender of the
    aggregate is refused by addApplicant, with a notice and the roster
    as it was (the notice names the gender when the checks before it
    pass); a candidate of the same gender who passes the other checks
    is appended. *)
Theorem addApplicant_gender (username : string) (p : Profile.t) (s : State)
    (Hprofile : user.getProfileInfo userService (requests s) username
                = Resolved (Some p)) :
  let s' := addApplicant' username s in
  (Profile.Gender p <> Details.Gender (applicationDetails s) ->
   applicants_of s' = applicants_of s /\
   unsavedChanges s' = unsavedChanges s /\
   open (snackbar s') = true /\
   (Spec.not_listed username (applicants_of s) ->
    (length (applicants_of s) < MAX_NUM_APPLICANTS)%nat ->
    includes (Profile.PersonType p) "stu" = true ->
    snackbar s'
    = Spec.notice
        ("Could not add " ++ Spec.display_name p ++
         " as an applicant because they are not the same gender as the other applicants.")
        "warning")) /\
  (Profile.Gender p = Details.Gender (applicationDetails s) ->
   Spec.not_listed username (applicants_of s) ->
   (length (applicants_of s) < MAX_NUM_APPLICANTS)%nat ->
   includes (Profile.PersonType p) "stu" = true ->
   Spec.free_to_join housingService (requests s ++ [user_getProfileInfo username]) p
     (Details.ApplicationID (applicationDetails s)) ->
   applicants_of s'
   = (applicants_of s
      ++ [Applicant.Make (Details.ApplicationID (applicationDetails s))
            (Some (Spec.named p)) username ""])%list /\
   unsavedChanges s' = true).
Proof.
  intros s'. split; [|intros ? ? ? ? ?; by apply addApplicant_accepts].
  intros Hgender. unfold s', addApplicant. rewrite Hprofile.
  cbn [send applicationDetails requests].
  destruct (some _ (applicants_of s)) as [[|]|] eqn:Hsome.
  - repeat split; try done. intros Hl%not_listed_some. congruence.
  - set (s0 := send _ s). set (candidate := Applicant.Make _ _ _ _).
    pose proof (isApplicantValid_gender candidate p s0 eq_refl Hgender) as Hrej.
    pose proof (isApplicantValid_state candidate s0) as (Hd & Hu & _).
    destruct (isApplicantValid' candidate s0) as [[valid candidate'] s1].
    cbn [fst snd] in *. cbv beta iota in Hrej.
    destruct Hrej as (-> & _ & Hopen & Hsev & Hmsg).
    rewrite Hd, Hu. repeat split; try done.
    intros _ Hlen Hstu. specialize (Hmsg Hlen Hstu).
    destruct (snackbar s1) as [m sev o]. cbn in *. by subst.
  - repeat split; try done. intros Hl%not_listed_some. congruence.
Qed.

(** C7 as amended: when an addition is accepted and the identity
    service has answered with the profile of the very username it was
    asked for, removing that username afterwards gives back the roster
    as it was (the same entries, in the same order). *)
Theorem add_then_remove (username : string) (s : State)
    (Hname : username <> "")
    (Hservice : forall p,
        user.getProfileInfo userService (requests s) username = Resolved (Some p) ->
        Profile.AD_Username p = username)
    (Haccepted : length (applicants_of (addApplicant' username s))
                 = S (length (applicants_of s))) :
  exists s'',
    handleApplicantRemove username (addApplicant' username s) = Some s'' /\
    applicants_of s'' = applicants_of s /\
    applicants_of s'' ≡ₚ applicants_of s.
Proof.
  destruct (addApplicant_cases username s)
    as [[Hsame _]|(p & Hprofile & Hlisted & _ & Hadded)].
  { rewrite Hsame in Haccepted. lia. }
  unfold handleApplicantRemove.
  assert (truthy username = true) as ->.
  { unfold truthy. by destruct (String.eqb_spec username ""). }
  rewrite Hadded.
  erewrite filter__app;
    [|by apply filter_username_not_listed|cbn; rewrite (Hservice p Hprofile);
       by rewrite String.eqb_refl].
  eexists. split; [reflexivity|]. cbn. by rewrite app_nil_r.
Qed.

(** C4: saving an aggregate without applicants sends nothing to the
    housing service, shows an error notice, sets the saving flag to
    'error' and leaves the aggregate as it is. *)
Theorem save_without_applicants (details : Details.t) (s : State)
    (Hempty : Details.Applicants details = []) :
  let result := (saveApartmentApplication userProfile housingService details s).1 in
  let s' := (saveApartmentApplication userProfile housingService details s).2 in
  result = None /\
  requests s' = requests s /\
  snackbar s'
  = Spec.notice
      "Error: There are no applicants on this application. This should not be possible. Please refresh the page and try again."
      "error" /\
  saving s' = BError /\
  applicationDetails s' = applicationDetails s /\
  unsavedChanges s' = unsavedChanges s.
Proof.
  cbn zeta. unfold saveApartmentApplication. rewrite Hempty. cbn.
  by destruct (saveButtonAlertTimeout s).
Qed.
End RosterClaims.

(** ** The claims on the roster, on the example application *)

Section RosterExamples.
Import JS.

Local Abbreviation applicants_of s := (Details.Applicants (applicationDetails s)).
Local Abbreviation addApplicant' :=
  (addApplicant Example.userService Example.housingService).

(** The roster of the scenario: Alice alone. *)
Local Abbreviation aliceAlone := (Example.state [Example.applicant Example.alice] []).

(** C4, on the blank aggregate. *)
Lemma save_without_applicants_witness :
  Details.Applicants BLANK_APPLICATION_DETAILS = [] /\
  saving (saveApartmentApplication Example.alice Example.housingService
            BLANK_APPLICATION_DETAILS (Example.state [] [])).2 = BError /\
  requests (saveApartmentApplication Example.alice Example.housingService
              BLANK_APPLICATION_DETAILS (Example.state [] [])).2 = [].
Proof.
  split; [reflexivity|].
  destruct (save_without_applicants Example.alice Example.housingService
              BLANK_APPLICATION_DETAILS (Example.state [] []) eq_refl)
    as (_ & Hrequests & _ & Hsaving & _).
  split; [exact Hsaving | exact Hrequests].
Defined.


(** C6, the scenario of the specification: with Alice (F) on the
    roster, Bob (M) is refused and Carol (F) is appended. *)
Lemma addApplicant_gender_witness :
  user.getProfileInfo Example.userService (requests aliceAlone) "Bob.Brown"
  = Resolved (Some Example.bob) /\
  applicants_of (addApplicant' "Bob.Brown" aliceAlone)
  = [Example.applicant Example.alice] /\
  applicants_of (addApplicant' "Carol.Clark" aliceAlone)
  = [Example.applicant Example.alice;
     Applicant.Make None (Some (Spec.named Example.carol)) "Carol.Clark" ""].
Proof.
  split; [reflexivity|]. split.
  - destruct (addApplicant_gender Example.userService Example.housingService
                "Bob.Brown" Example.bob aliceAlone eq_refl) as [Hdiffers _].
    refine (proj1 (Hdiffers _)). cbn. discriminate.
  - destruct (addApplicant_gender Example.userService Example.housingService
                "Carol.Clark" Example.carol aliceAlone eq_refl) as [_ Hsame].
    refine (proj1 (Hsame eq_refl _ _ eq_refl I)).
    + constructor; [|constructor].
      exists Example.alice. split; [reflexivity | discriminate].
    + vm_compute. lia.
Defined.

(** C7, on the scenario: Carol added, then removed. *)
Lemma add_then_remove_witness :
  "Carol.Clark" <> "" /\
  exists s'',
    handleApplicantRemove "Carol.Clark" (addApplicant' "Carol.Clark" aliceAlone)
    = Some s'' /\
    applicants_of s'' = [Example.applicant Example.alice].
Proof.
  split; [discriminate|].
  destruct (add_then_remove Example.userService Example.housingService
              "Carol.Clark" aliceAlone)
    as (s'' & Hrun & Hsame & _).
  - discriminate.
  - intros p Hp. vm_compute in Hp. by injection Hp as <-.
  - reflexivity.
  - exists s''. split; [exact Hrun | exact Hsame].
Defined.

(** C6, with a gender that is [null]: Dana is refused on an aggregate
    that has no gender, with the notice of the gender; [null] and a
    missing property are not the same gender. *)
Lemma addApplicant_gender_null :
  let s := setApplicationDetails (fun _ => BLANK_APPLICATION_DETAILS) aliceAlone in
  let s' := addApplicant Example.danaUserService Example.housingService "Dana.Doe" s in
  Profile.Gender Example.dana = Null /\
  Details.Gender (applicationDetails s) = Undefined /\
  applicants_of s' = applicants_of s /\
  snackbar s'
  = Spec.notice
      "Could not add Dana Doe as an applicant because they are not the same gender as the other applicants."
      "warning".
Proof. by vm_compute. Qed.

(** C7 fails as it stands: the identity service may answer with a
    profile whose username is spelled otherwise than the one it was
    asked for.  'carol.clark' is accepted on the roster of Alice, with
    the profile of 'Carol.Clark'; removing 'carol.clark' then removes
    nobody, and the roster is not what it was before the addition. *)
Lemma add_then_remove_other_spelling :
  let s := aliceAlone in
  let s1 := addApplicant Example.lenientUserService Example.housingService
              "carol.clark" s in
  length (applicants_of s1) = S (length (applicants_of s)) /\
  exists s2,
    handleApplicantRemove "carol.clark" s1 = Some s2 /\
    applicants_of s2 = applicants_of s1 /\
    ~ applicants_of s2 ≡ₚ applicants_of s.
Proof.
  cbv zeta. split; [by vm_compute|]. eexists. split; [by vm_compute|].
  split; [done|]. intros Hlength%Permutation_length. by vm_compute in Hlength.
Qed.

End RosterExamples.

(** * Further properties of the handlers *)

(** ** Loading *)

Section LoadProperties.
Import JS.
Variable userProfile : Profile.t.
Variable housingService : housing.t.

Local Abbreviation loadApplication' := (loadApplication userProfile housingService).

(** What [loadApplication] never writes. *)
Lemma loadApplication_frame (s : State) :
  let s' := (loadApplication' s).2 in
  saving s' = saving s /\
  saveButtonAlertTimeout s' = saveButtonAlertTimeout s /\
  timers s' = timers s /\
  newEditorProfile s' = None /\
  exists sent, requests s' = (requests s ++ sent)%list /\
               Forall (fun r => forall d, r <> housing_saveApartmentApplication d) sent.
Proof.
  unfold loadApplication, loadApplication_catch.
  repeat case_match; simplify_eq; cbn; repeat split; try done;
    (eexists; split;
     [rewrite <- ?app_assoc; reflexivity | repeat constructor; done]).
Qed.

(** [loadApplication] begins with the query of the application of the
    current user. *)
Lemma loadApplication_requests (s : State) :
  exists more,
    requests (loadApplication' s).2
    = (requests s ++ housing_getCurrentApplicationID None :: more)%list.
Proof.
  unfold loadApplication, loadApplication_catch.
  repeat case_match; simplify_eq; cbn; eexists; rewrite <- ?app_assoc; reflexivity.
Qed.

Lemma loadApplication_draft (s : State)
    (Hnone : housing.getCurrentApplicationID housingService (requests s) None
             = Rejected NotFoundError \/
             exists id,
               housing.getCurrentApplicationID housingService (requests s) None
               = Resolved id /\ (id <= 0)%Z) :
  let result := (loadApplication' s).1 in
  let s' := (loadApplication' s).2 in
  result = false /\
  applicationDetails s'
  = Details.Make None None None (Some userProfile) (Profile.Gender userProfile)
      [Applicant.Make None (Some userProfile) (Profile.AD_Username userProfile) ""] [] /\
  canEditApplication s' = true /\
  unsavedChanges s' = true /\
  newEditorProfile s' = None /\
  snackbar s' = snackbar s /\
  requests s' = (requests s ++ [housing_getCurrentApplicationID None])%list.
Proof.
  unfold loadApplication. cbn [send requests].
  destruct Hnone as [->|(id & -> & Hid)]; [done|].
  by destruct (Z.ltb_spec 0 id); [lia|].
Qed.

(** X1: when the housing service knows no application of the current
    user (it answers not-found, or an id that is not positive),
    loadApplication starts a draft: the current user is the editor and
    the only applicant, the gender of the aggregate is theirs, editing
    is allowed and the draft counts as unsaved; the result is false. *)
Theorem loadApplication_starts_draft (s : State)
    (Hnone : housing.getCurrentApplicationID housingService (requests s) None
             = Rejected NotFoundError \/
             exists id,
               housing.getCurrentApplicationID housingService (requests s) None
               = Resolved id /\ (id <= 0)%Z) :
  let result := (loadApplication' s).1 in
  let s' := (loadApplication' s).2 in
  result = false /\
  applicationDetails s'
  = Details.Make None None None (Some userProfile) (Profile.Gender userProfile)
      [Applicant.Make None (Some userProfile) (Profile.AD_Username userProfile) ""] [] /\
  canEditApplication s' = true /\
  unsavedChanges s' = true /\
  newEditorProfile s' = None /\
  snackbar s' = snackbar s /\
  requests s' = (requests s ++ [housing_getCurrentApplicationID None])%list.
Proof. exact (loadApplication_draft s Hnone). Qed.

Lemma loadApplication_record (id : Z) (d : Details.t) (s : State)
    (Hid : housing.getCurrentApplicationID housingService (requests s) None
           = Resolved id)
    (Hpositive : (0 < id)%Z)
    (Hrecord : housing.getApartmentApplication housingService
                 (requests s ++ [housing_getCurrentApplicationID None]) id
               = Resolved d) :
  let result := (loadApplication' s).1 in
  let s' := (loadApplication' s).2 in
  applicationDetails s' = d /\
  newEditorProfile s' = None /\
  snackbar s' = snackbar s /\
  match Details.EditorProfile d with
  | Some editor =>
      result = true /\
      unsavedChanges s' = false /\
      (canEditApplication s' = true <->
       Profile.AD_Username userProfile = Profile.AD_Username editor)
  | None =>
      result = false /\
      unsavedChanges s' = unsavedChanges s /\
      canEditApplication s' = canEditApplication s
  end.
Proof.
  unfold loadApplication. cbn [send requests]. rewrite Hid.
  destruct (Z.ltb_spec 0 id); [|lia]. rewrite Hrecord.
  destruct (Details.EditorProfile d) as [editor|]; cbn; repeat split; try done.
  - by intros ?%String.eqb_eq.
  - by intros ?%String.eqb_eq.
Qed.

(** X2: when the housing service gives a positive id and the record of
    that id, loadApplication adopts the record.  If the record names an
    editor, editing is allowed exactly when the current user is that
    editor, nothing counts as unsaved and the result is true; if it
    names none, the record is adopted all the same but the result is
    false and the two flags stay as they were. *)
Theorem loadApplication_adopts_record (id : Z) (d : Details.t) (s : State)
    (Hid : housing.getCurrentApplicationID housingService (requests s) None
           = Resolved id)
    (Hpositive : (0 < id)%Z)
    (Hrecord : housing.getApartmentApplication housingService
                 (requests s ++ [housing_getCurrentApplicationID None]) id
               = Resolved d) :
  let result := (loadApplication' s).1 in
  let s' := (loadApplication' s).2 in
  applicationDetails s' = d /\
  newEditorProfile s' = None /\
  snackbar s' = snackbar s /\
  match Details.EditorProfile d with
  | Some editor =>
      result = true /\
      unsavedChanges s' = false /\
      (canEditApplication s' = true <->
       Profile.AD_Username userProfile = Profile.AD_Username editor)
  | None =>
      result = false /\
      unsavedChanges s' = unsavedChanges s /\
      canEditApplication s' = canEditApplication s
  end.
Proof. exact (loadApplication_record id d s Hid Hpositive Hrecord). Qed.

End LoadProperties.

(** ** Saving *)

Section SaveProperties.
Import JS.
Variable userProfile : Profile.t.
Variable housingService : housing.t.

Local Abbreviation applicants_of s := (Details.Applicants (applicationDetails s)).
Local Abbreviation isApplicantValid' := (isApplicantValid housingService).
Local Abbreviation validateApplicants' := (validateApplicants housingService).
Local Abbreviation checkApplicants' := (checkApplicants housingService).
Local Abbreviation save := (saveApartmentApplication userProfile housingService).






Lemma validation_frame_refl (s : State) : Roster.validation_frame s s.
Proof. repeat split. exists []. by rewrite app_nil_r. Qed.

Lemma validation_frame_trans (s1 s2 s3 : State) :
  Roster.validation_frame s1 s2 -> Roster.validation_frame s2 s3 ->
  Roster.validation_frame s1 s3.
Proof.
  intros (? & ? & ? & ? & ? & ? & ? & q1 & Hq1 & ?)
         (? & ? & ? & ? & ? & ? & ? & q2 & Hq2 & ?).
  repeat split; try congruence.
  exists (q1 ++ q2)%list. split; [|by apply Forall_app].
  by rewrite Hq2, Hq1, app_assoc.
Qed.

Lemma isApplicantValid_frame (applicant : Applicant.t) (s : State) :
  Roster.validation_frame s (isApplicantValid' applicant s).2.
Proof.
  unfold isApplicantValid.
  repeat case_match; cbn; repeat split; try done;
    first [ exists []; by rewrite app_nil_r
          | eexists [_]; split; [reflexivity | by repeat constructor] ].
Qed.

Lemma validateApplicants_cons (a : Applicant.t) (l : list Applicant.t) (s : State) :
  validateApplicants' (a :: l) s
  = let r1 := isApplicantValid' a s in
    let r2 := validateApplicants' l r1.2 in
    (r1.1.1 :: r2.1.1, r1.1.2 :: r2.1.2, r2.2).
Proof.
  change (validateApplicants' (a :: l) s)
    with (let '(v, a', s1) := isApplicantValid' a s in
          let '(vs, rest, s2) := validateApplicants' l s1 in
          (v :: vs, a' :: rest, s2)).
  destruct (isApplicantValid' a s) as [[v a'] s1]. cbn [fst snd].
  by destruct (validateApplicants' l s1) as [[vs l'] s2].
Qed.

Lemma validateApplicants_frame (l : list Applicant.t) (s : State) :
  Roster.validation_frame s (validateApplicants' l s).2.
Proof.
  revert s. induction l as [|a l IH]; intros s; [apply validation_frame_refl|].
  rewrite validateApplicants_cons. cbn.
  eapply validation_frame_trans; [apply isApplicantValid_frame | apply IH].
Qed.

Lemma checkApplicants_unfold (details : Details.t) (s : State) :
  checkApplicants' details s
  = let r := validateApplicants' (Details.Applicants details) s in
    (r.1.1, Details.set_Applicants r.1.2 details,
     if bool_decide (Details.Applicants details = applicants_of s)
     then setApplicationDetails (Details.set_Applicants r.1.2) r.2
     else r.2).
Proof.
  unfold checkApplicants.
  by destruct (validateApplicants' (Details.Applicants details) s) as [[vs l] s1].
Qed.

(** On a full roster every verdict is a refusal, made without a call. *)
Lemma validateApplicants_full (l : list Applicant.t) (s : State) :
  (MAX_NUM_APPLICANTS <= length (applicants_of s))%nat ->
  let r := validateApplicants' l s in
  Forall (fun v => v = false) r.1.1 /\ length r.1.1 = length l /\
  r.1.2 = l /\ requests r.2 = requests s /\
  (l <> [] ->
   snackbar r.2 = Spec.notice addPersonErrorMessage "error" \/
   snackbar r.2 = Spec.notice "You cannot have more than 8 applicants" "warning").
Proof.
  revert s. induction l as [|a l IH]; intros s Hfull; [done|].
  rewrite validateApplicants_cons.
  pose proof (isApplicantValid_full housingService a s Hfull) as H1.
  pose proof (isApplicantValid_frame a s) as (Hd & _).
  destruct (isApplicantValid' a s) as [[v a'] s1]. cbn [fst snd] in *.
  cbv beta iota in H1. destruct H1 as (-> & -> & Hreq & Hnotice).
  specialize (IH s1). rewrite Hd in IH. destruct (IH Hfull) as (Hv & Hlen & Hl & Hr & Hn).
  cbn. repeat split; [by constructor|by rewrite Hlen|by rewrite Hl|congruence|].
  intros _. destruct l as [|b l]; [done|]. by apply Hn.
Qed.

(** An applicant that fails a local check is refused. *)
Lemma isApplicantValid_fails_locally (a : Applicant.t) (s : State) :
  Roster.fails_locally (applicationDetails s) a -> (isApplicantValid' a s).1.1 = false.
Proof.
  unfold Roster.fails_locally, isApplicantValid.
  destruct (Applicant.Profile a) as [p|]; [|done]. intros Hfail.
  destruct (_ <=? _)%nat; [done|]. cbn.
  destruct Hfail as [->|Hg]; [done|].
  destruct (includes _ _); [|done]. cbn. by rewrite bool_decide_eq_false_2.
Qed.

Lemma validateApplicants_fails_locally (a : Applicant.t) (l : list Applicant.t) (s : State) :
  a ∈ l -> Roster.fails_locally (applicationDetails s) a ->
  forallb (fun v => v) (validateApplicants' l s).1.1 = false.
Proof.
  revert s. induction l as [|b l IH]; intros s Hin Hfail; [by apply elem_of_nil in Hin|].
  rewrite validateApplicants_cons. cbn.
  apply elem_of_cons in Hin as [<-|Hin].
  - by rewrite isApplicantValid_fails_locally.
  - rewrite (IH _ Hin); [by rewrite andb_false_r|].
    by destruct (isApplicantValid_frame b s) as (-> & _).
Qed.

(** Applicants that are all eligible are all accepted. *)
Lemma validateApplicants_eligible (l : list Applicant.t) (s : State) :
  (length (applicants_of s) < MAX_NUM_APPLICANTS)%nat ->
  Forall (Roster.eligible housingService (applicationDetails s)) l ->
  let r := validateApplicants' l s in
  forallb (fun v => v) r.1.1 = true /\ r.1.2 = map Roster.named l /\
  snackbar r.2 = snackbar s.
Proof.
  revert s. induction l as [|a l IH]; intros s Hroom Hall; [done|].
  apply Forall_cons in Hall as [(p & Hp & Hstu & Hg & Hfree) Hall].
  rewrite validateApplicants_cons.
  rewrite (isApplicantValid_accepts housingService a p s Hp Hroom Hstu Hg (Hfree _)).
  cbn [fst snd]. specialize (IH (send (housing_getCurrentApplicationID
                                         (Some (Profile.AD_Username p))) s) Hroom Hall).
  destruct IH as (Hv & Hl & Hs). cbn. rewrite Hv, Hl. unfold Roster.named at 2.
  by rewrite Hp.
Qed.

Lemma forallb_id_false (vs : list bool) :
  vs <> [] -> Forall (fun v => v = false) vs -> forallb (fun v => v) vs = false.
Proof. intros Hne Hall. destruct Hall as [|v vs Hv _]; [done|]. by rewrite Hv. Qed.

(** X3: a roster that is full (8 or more applicants) cannot be saved:
    the save button sends nothing to any service, leaves the aggregate
    and the unsaved flag as they are, shows the notice of the size
    check (or of a missing profile), and leaves the saving flag at
    true, not at 'error'. *)
Theorem handleSaveButtonClick_full_roster (s : State)
    (Hfull : (MAX_NUM_APPLICANTS <= length (applicants_of s))%nat) :
  let s' := handleSaveButtonClick userProfile housingService s in
  requests s' = requests s /\
  applicationDetails s' = applicationDetails s /\
  unsavedChanges s' = unsavedChanges s /\
  saving s' = BTrue /\
  (snackbar s' = Spec.notice "You cannot have more than 8 applicants" "warning" \/
   snackbar s' = Spec.notice addPersonErrorMessage "error").
Proof.
  unfold handleSaveButtonClick, saveApartmentApplication.
  destruct (Nat.ltb_spec (length (applicants_of s)) 1) as [Hlt|_];
    [unfold MAX_NUM_APPLICANTS in Hfull; lia|].
  set (s0 := setSaveButtonAlertTimeout None (setSaving BTrue s)).
  rewrite checkApplicants_unfold. cbv zeta.
  change (applicants_of s0) with (applicants_of s).
  rewrite bool_decide_eq_true_2 by done.
  assert (applicants_of s <> []) as Hne.
  { intros E. rewrite E in Hfull. unfold MAX_NUM_APPLICANTS in Hfull. cbn in Hfull. lia. }
  pose proof (validateApplicants_full (applicants_of s) s0 Hfull)
    as (Hv & Hlen & Hl & Hr & Hn).
  pose proof (validateApplicants_frame (applicants_of s) s0)
    as (Hd & Hu & Hs & _).
  destruct (validateApplicants' (applicants_of s) s0) as [[vs apps] s1].
  cbn [fst snd] in *. subst apps.
  rewrite forallb_id_false; [|by destruct vs, (applicants_of s)|done].
  assert (Details.set_Applicants (applicants_of s) (applicationDetails s1)
          = applicationDetails s) as Hagg.
  { rewrite Hd. cbn. by destruct (applicationDetails s). }
  destruct (saveButtonAlertTimeout s); cbn; rewrite Hagg, Hr, Hu, Hs;
    (repeat split; try done; by destruct (Hn Hne); auto).
Qed.

(** X4: when an applicant of the aggregate fails a local check (no
    profile, not a student, another gender), saveApartmentApplication
    gives null and sends no save: it sends queries of applications at
    most.  The application id and the unsaved flag stay as they are and
    the saving flag stays at true. *)
Theorem save_refused_locally (details : Details.t) (a : Applicant.t) (s : State)
    (Hin : a ∈ Details.Applicants details)
    (Hfails : Roster.fails_locally (applicationDetails s) a) :
  let result := (save details s).1 in
  let s' := (save details s).2 in
  result = None /\
  saving s' = BTrue /\
  unsavedChanges s' = unsavedChanges s /\
  Details.ApplicationID (applicationDetails s')
  = Details.ApplicationID (applicationDetails s) /\
  exists sent, requests s' = (requests s ++ sent)%list /\ Forall Roster.is_query sent.
Proof.
  unfold saveApartmentApplication.
  destruct (Nat.ltb_spec (length (Details.Applicants details)) 1) as [Hlt|_].
  { destruct (Details.Applicants details); [by apply elem_of_nil in Hin | cbn in Hlt; lia]. }
  set (s0 := setSaveButtonAlertTimeout None (setSaving BTrue s)).
  rewrite checkApplicants_unfold. cbv zeta.
  pose proof (validateApplicants_fails_locally a _ s0 Hin Hfails) as Hv.
  pose proof (validateApplicants_frame (Details.Applicants details) s0)
    as (Hd & Hu & Hs & _ & _ & _ & _ & Hsent).
  destruct (validateApplicants' (Details.Applicants details) s0) as [[vs apps] s1].
  cbn [fst snd] in *. rewrite Hv.
  destruct (saveButtonAlertTimeout s), (bool_decide _); cbn; rewrite ?Hd, Hu, Hs; done.
Qed.

(** The message of a failed save. *)
Lemma saveApartmentApplication_catch_spec (e : error) (s : State) :
  saveApartmentApplication_catch e s
  = setSaving BError (createSnackbar (Roster.save_error_message e) "error" s).
Proof. by destruct e. Qed.

(** An accepted save ends with the reload of the application. *)
Lemma save_accepted_reload (details : Details.t) (id : Z) (s : State) :
  Details.Applicants details <> [] ->
  (length (applicants_of s) < MAX_NUM_APPLICANTS)%nat ->
  Forall (Roster.eligible housingService (applicationDetails s))
    (Details.Applicants details) ->
  (forall log d, housing.saveApartmentApplication housingService log d = Resolved id) ->
  id <> 0%Z ->
  exists s3,
    (save details s).1 = Some id /\
    housing_saveApartmentApplication
      (Details.set_Applicants (map Roster.named (Details.Applicants details)) details)
    ∈ requests s3 /\
    saving s3 = BSuccess /\
    canEditApplication s3 = canEditApplication s /\
    let s' := (save details s).2 in
    let loaded := (loadApplication userProfile housingService s3).2 in
    applicationDetails s' = applicationDetails loaded /\
    canEditApplication s' = canEditApplication loaded /\
    unsavedChanges s' = unsavedChanges loaded /\
    newEditorProfile s' = newEditorProfile loaded /\
    snackbar s' = snackbar loaded /\
    saving s' = saving loaded /\
    requests s' = requests loaded.
Proof.
  intros Hnonempty Hroom Heligible Hservice Hid. unfold saveApartmentApplication.
  destruct (Nat.ltb_spec (length (Details.Applicants details)) 1) as [Hlt|_].
  { destruct (Details.Applicants details); [done | cbn in Hlt; lia]. }
  set (s0 := setSaveButtonAlertTimeout None (setSaving BTrue s)).
  rewrite checkApplicants_unfold. cbv zeta.
  pose proof (validateApplicants_eligible (Details.Applicants details) s0 Hroom Heligible)
    as (Hv & Hl & _).
  pose proof (validateApplicants_frame (Details.Applicants details) s0)
    as (_ & _ & _ & Hc & _).
  destruct (validateApplicants' (Details.Applicants details) s0) as [[vs apps] s1].
  cbn [fst snd] in *. rewrite Hv, Hservice. subst apps.
  destruct (Z.eqb_spec id 0) as [?|_]; [done|]. cbn [negb].
  destruct (bool_decide (Details.Applicants details = applicants_of s0));
    (match goal with
     | |- context [loadApplication userProfile housingService ?st] => exists st
     end;
     split; [by destruct (saveButtonAlertTimeout s)|];
     split; [cbn; apply elem_of_app; right; apply list_elem_of_here|];
     split; [done|]; split; [done|];
     by destruct (saveButtonAlertTimeout s)).
Qed.




(** X7: saveApartmentApplication sets the timer of the button icon
    only when no timer was recorded at the render it runs from: then it
    queues one timer of 6000 ms and records its id, and the callback of
    that timer sets the saving flag back to false.  When a timer was
    recorded, it queues none and leaves none recorded. *)
Theorem save_icon_timer (details : Details.t) (s : State) :
  let s' := (save details s).2 in
  match saveButtonAlertTimeout s with
  | None =>
      timers s' = (timers s ++ [ResetSaveButton 6000])%list /\
      saveButtonAlertTimeout s' = Some (length (timers s)) /\
      saving (fire (ResetSaveButton 6000) s') = BFalse /\
      saveButtonAlertTimeout (fire (ResetSaveButton 6000) s') = None
  | Some _ =>
      timers s' = timers s /\ saveButtonAlertTimeout s' = None
  end.
Proof.
  unfold saveApartmentApplication. cbv zeta.
  set (s0 := setSaveButtonAlertTimeout None (setSaving BTrue s)).
  assert (forall body : option Z * State,
             timers body.2 = timers s ->
             saveButtonAlertTimeout body.2 = None ->
             match saveButtonAlertTimeout s with
             | None =>
                 timers
                   (let '(result, s1) := body in
                    match saveButtonAlertTimeout s with
                    | Some _ => (result, s1)
                    | None =>
                        let '(id, s2) :=
                          setTimeout (ResetSaveButton DYNAMIC_ICON_TIMEOUT) s1 in
                        (result, setSaveButtonAlertTimeout (Some id) s2)
                    end).2
                 = (timers s ++ [ResetSaveButton 6000])%list /\
                 saveButtonAlertTimeout
                   (let '(result, s1) := body in
                    match saveButtonAlertTimeout s with
                    | Some _ => (result, s1)
                    | None =>
                        let '(id, s2) :=
                          setTimeout (ResetSaveButton DYNAMIC_ICON_TIMEOUT) s1 in
                        (result, setSaveButtonAlertTimeout (Some id) s2)
                    end).2
                 = Some (length (timers s)) /\
                 saving
                   (fire (ResetSaveButton 6000)
                      (let '(result, s1) := body in
                       match saveButtonAlertTimeout s with
                       | Some _ => (result, s1)
                       | None =>
                           let '(id, s2) :=
                             setTimeout (ResetSaveButton DYNAMIC_ICON_TIMEOUT) s1 in
                           (result, setSaveButtonAlertTimeout (Some id) s2)
                       end).2) = BFalse /\
                 saveButtonAlertTimeout
                   (fire (ResetSaveButton 6000)
                      (let '(result, s1) := body in
                       match saveButtonAlertTimeout s with
                       | Some _ => (result, s1)
                       | None =>
                           let '(id, s2) :=
                             setTimeout (ResetSaveButton DYNAMIC_ICON_TIMEOUT) s1 in
                           (result, setSaveButtonAlertTimeout (Some id) s2)
                       end).2) = None
             | Some _ =>
                 timers
                   (let '(result, s1) := body in
                    match saveButtonAlertTimeout s with
                    | Some _ => (result, s1)
                    | None =>
                        let '(id, s2) :=
                          setTimeout (ResetSaveButton DYNAMIC_ICON_TIMEOUT) s1 in
                        (result, setSaveButtonAlertTimeout (Some id) s2)
                    end).2 = timers s /\
                 saveButtonAlertTimeout
                   (let '(result, s1) := body in
                    match saveButtonAlertTimeout s with
                    | Some _ => (result, s1)
                    | None =>
                        let '(id, s2) :=
                          setTimeout (ResetSaveButton DYNAMIC_ICON_TIMEOUT) s1 in
                        (result, setSaveButtonAlertTimeout (Some id) s2)
                    end).2 = None
             end) as Hfinally.
  { intros [result s1] Ht Hn. cbn in Ht, Hn.
    destruct (saveButtonAlertTimeout s); cbn; by rewrite ?Ht, ?Hn. }
  apply Hfinally.
  all: destruct (length (Details.Applicants details) <? 1)%nat; [done|..].
  all: rewrite checkApplicants_unfold; cbv zeta.
  all: pose proof (validateApplicants_frame (Details.Applicants details) s0)
         as (_ & _ & _ & _ & _ & Hto & Hti & _).
  all: destruct (validateApplicants' (Details.Applicants details) s0) as [[vs apps] s1].
  all: cbn [fst snd] in *.
  all: destruct (bool_decide (Details.Applicants details = applicants_of s0)).
  all: destruct (forallb (fun v => v) vs); [|done].
  all: destruct (housing.saveApartmentApplication _ _ _) as [z|e];
         [|by rewrite saveApartmentApplication_catch_spec].
  all: destruct (negb (z =? 0)%Z); [|by rewrite saveApartmentApplication_catch_spec].
  all: match goal with
       | |- context [loadApplication userProfile housingService ?st] =>
           pose proof (loadApplication_frame userProfile housingService st)
             as (_ & Hto2 & Hti2 & _)
       end.
  all: cbn [fst snd]; by rewrite ?Hto2, ?Hti2.
Qed.

End SaveProperties.

(** ** The claim on the validation rules *)

Section ValidationClaims.
Import JS.
Variable housingService : housing.t.

Local Abbreviation applicants_of s := (Details.Applicants (applicationDetails s)).
Local Abbreviation choices_of s := (Details.ApartmentChoices (applicationDetails s)).
Local Abbreviation roster_full s :=
  (MAX_NUM_APPLICANTS <=? length (Details.Applicants (applicationDetails s)))%nat.
Local Abbreviation isApplicantValid' := (isApplicantValid housingService).
Local Abbreviation validateApplicants' := (validateApplicants housingService).
Local Abbreviation checkApplicants' := (checkApplicants housingService).




End ValidationClaims.

Section ValidationExamples.
Import JS.

Local Abbreviation applicants_of s := (Details.Applicants (applicationDetails s)).
Local Abbreviation choices_of s := (Details.ApartmentChoices (applicationDetails s)).
Local Abbreviation bob := (Example.applicant Example.bob).
Local Abbreviation bobAlone := (Example.state [Example.applicant Example.bob] []).
Local Abbreviation threeHalls := (Example.state [] Example.threeHalls).

End ValidationExamples.

(** ** The roster *)

Section RosterProperties.
Import JS.
Variable userProfile : Profile.t.
Variable userService : user.t.
Variable housingService : housing.t.

Local Abbreviation applicants_of s := (Details.Applicants (applicationDetails s)).
Local Abbreviation addApplicant' := (addApplicant userService housingService).
Local Abbreviation carries u :=
  (fun a : Applicant.t => Profile.AD_Username <$> Applicant.Profile a = Some u).

(** The callback of the filter of [handleApplicantRemove]. *)
Local Abbreviation keeps u :=
  (fun applicant : Applicant.t =>
     match Applicant.Profile applicant with
     | Some p => Some (negb (String.eqb (Profile.AD_Username p) u))
     | None => None
     end).

Lemma filter_username (u : string) (l r : list Applicant.t) :
  filter_ (keeps u) l = Some r ->
  r = filter (fun a => ~ carries u a) l /\ Roster.profiled l.
Proof.
  revert r. induction l as [|a l IH]; cbn [filter_]; intros r Hr.
  { injection Hr as <-. split; [done | constructor]. }
  destruct (Applicant.Profile a) as [p|] eqn:Hp; [|done].
  destruct (filter_ (keeps u) l) as [r'|]; [|done]. injection Hr as <-.
  destruct (IH r' eq_refl) as [-> Hprofiled].
  split; [|constructor; [by rewrite Hp | done]].
  rewrite filter_cons. rewrite Hp. cbn.
  destruct (String.eqb_spec (Profile.AD_Username p) u) as [->|Hne]; cbn.
  - by rewrite decide_False by (intros H; by apply H).
  - by rewrite decide_True by congruence.
Qed.

Lemma filter_username_profiled (u : string) (l : list Applicant.t) :
  Roster.profiled l -> is_Some (filter_ (keeps u) l).
Proof.
  induction 1 as [|a l [p Hp] _ [r IH]]; cbn; [done|].
  rewrite Hp, IH. done.
Qed.

Lemma usernames_cons (a : Applicant.t) (l : list Applicant.t) :
  Roster.usernames (a :: l)
  = match Profile.AD_Username <$> Applicant.Profile a with
    | Some name => name :: Roster.usernames l
    | None => Roster.usernames l
    end.
Proof. reflexivity. Qed.

Lemma usernames_filter (u : string) (l : list Applicant.t) :
  Roster.usernames (filter (fun a => ~ carries u a) l)
  = filter (fun name => name <> u) (Roster.usernames l).
Proof.
  induction l as [|a l IH]; [done|].
  rewrite (usernames_cons a l).
  destruct (decide (~ carries u a)) as [Hk|Hk].
  - rewrite filter_cons_True by done. rewrite usernames_cons, IH.
    destruct (Profile.AD_Username <$> Applicant.Profile a) as [name|]; [|done].
    by rewrite filter_cons_True by congruence.
  - rewrite filter_cons_False by done. apply dec_stable in Hk. rewrite Hk.
    by rewrite filter_cons_False by (intros H; by apply H).
Qed.

(** X8: removeApplicant of a non-empty username, on a roster whose
    applicants all have a profile, keeps exactly the applicants that do
    not carry the username, in their order; the username is then on the
    roster no more, the aggregate counts as unsaved, and removing it
    once more changes nothing in the roster. *)
Theorem handleApplicantRemove_removes (username : string) (s : State)
    (Hname : username <> "")
    (Hprofiled : Roster.profiled (applicants_of s)) :
  exists s',
    handleApplicantRemove username s = Some s' /\
    applicants_of s' = filter (fun a => ~ carries username a) (applicants_of s) /\
    (username ∉ Roster.usernames (applicants_of s')) /\
    unsavedChanges s' = true /\
    exists s'',
      handleApplicantRemove username s' = Some s'' /\
      applicants_of s'' = applicants_of s'.
Proof.
  assert (truthy username = true) as Htruthy.
  { unfold truthy. by destruct (String.eqb_spec username ""). }
  assert (forall t, Roster.profiled (applicants_of t) ->
            exists t', handleApplicantRemove username t = Some t' /\
                       applicants_of t'
                       = filter (fun a => ~ carries username a) (applicants_of t) /\
                       unsavedChanges t' = true) as Hstep.
  { intros t Ht. unfold handleApplicantRemove. rewrite Htruthy.
    destruct (filter_username_profiled username _ Ht) as [r Hr]. rewrite Hr.
    apply filter_username in Hr as [-> _]. by eexists. }
  destruct (Hstep s Hprofiled) as (s' & Hrun & Hroster & Hdirty).
  exists s'. split; [done|]. split; [done|].
  split; [|split; [done|]].
  - rewrite Hroster, usernames_filter. rewrite list_elem_of_filter. tauto.
  - destruct (Hstep s') as (s'' & Hrun' & Hroster' & _).
    { rewrite Hroster. apply Forall_forall. intros a [_ Ha]%list_elem_of_filter.
      by eapply Forall_forall in Hprofiled. }
    exists s''. split; [done|]. rewrite Hroster', Hroster.
    rewrite list_filter_filter. apply list_filter_iff. tauto.
Qed.

(** Either [addApplicant] leaves the aggregate as it is, or the
    candidate passed every check and is at the end of the roster. *)
Lemma addApplicant_outcome (username : string) (s : State) :
  let s' := addApplicant' username s in
  (applicationDetails s' = applicationDetails s /\
   unsavedChanges s' = unsavedChanges s) \/
  (exists p,
     user.getProfileInfo userService (requests s) username = Resolved (Some p) /\
     Spec.not_listed username (applicants_of s) /\
     (length (applicants_of s) < MAX_NUM_APPLICANTS)%nat /\
     includes (Profile.PersonType p) "stu" = true /\
     Profile.Gender p = Details.Gender (applicationDetails s) /\
     Spec.free_to_join housingService (requests s ++ [user_getProfileInfo username]) p
       (Details.ApplicationID (applicationDetails s)) /\
     applicationDetails s'
     = Details.set_Applicants
         (applicants_of s
          ++ [Applicant.Make (Details.ApplicationID (applicationDetails s))
                (Some (Spec.named p)) username ""])
         (applicationDetails s) /\
     unsavedChanges s' = true).
Proof.
  cbn zeta. unfold addApplicant.
  destruct (user.getProfileInfo userService (requests s) username)
    as [profile|e] eqn:Hprofile; [|by left].
  cbn [send applicationDetails requests].
  destruct (some _ (applicants_of s)) as [[|]|] eqn:Hsome; [|..|by left].
  { left. by destruct profile. }
  set (s0 := send _ s). set (candidate := Applicant.Make _ _ _ _).
  pose proof (isApplicantValid_state housingService candidate s0) as (Hd & Hu & _).
  pose proof (isApplicantValid_true housingService candidate s0) as Htrue.
  destruct (isApplicantValid housingService candidate s0)
    as [[valid candidate'] s1] eqn:Hrun.
  cbn [fst snd] in *. destruct valid; [|left; by rewrite Hd, Hu].
  destruct (Htrue eq_refl) as (p & Hp & Hlen & Hstu & Hgender & Hfree).
  cbn in Hp. subst profile. right. exists p.
  rewrite (isApplicantValid_accepts housingService candidate p s0) in Hrun by done.
  injection Hrun as <- <-.
  repeat split; try done. by apply some_username_false.
Qed.

(** X9: addApplicant is sound: when the roster has grown, the
    identity service gave a profile for the username, nobody on the
    roster carried the username, the roster had fewer than 8 applicants,
    the candidate is a student of the gender of the aggregate, and the
    housing service did not report the candidate on another application;
    the candidate is the last applicant, with the name filled in and no
    off-campus program, and the aggregate counts as unsaved. *)
Theorem addApplicant_sound (username : string) (s : State)
    (Hgrown : length (applicants_of (addApplicant' username s))
              = S (length (applicants_of s))) :
  exists p,
    user.getProfileInfo userService (requests s) username = Resolved (Some p) /\
    Spec.not_listed username (applicants_of s) /\
    (length (applicants_of s) < MAX_NUM_APPLICANTS)%nat /\
    includes (Profile.PersonType p) "stu" = true /\
    Profile.Gender p = Details.Gender (applicationDetails s) /\
    Spec.free_to_join housingService (requests s ++ [user_getProfileInfo username]) p
      (Details.ApplicationID (applicationDetails s)) /\
    applicants_of (addApplicant' username s)
    = (applicants_of s
       ++ [Applicant.Make (Details.ApplicationID (applicationDetails s))
             (Some (Spec.named p)) username ""])%list /\
    unsavedChanges (addApplicant' username s) = true.
Proof.
  destruct (addApplicant_outcome username s)
    as [[Hsame _]|(p & ? & ? & ? & ? & ? & ? & Hagg & ?)].
  { rewrite Hsame in Hgrown. lia. }
  exists p. repeat split; try done. by rewrite Hagg.
Qed.

Lemma same_gender_sublist (d : Details.t) (l : list Applicant.t) :
  l ⊆ Details.Applicants d -> Roster.same_gender d ->
  Roster.same_gender (Details.set_Applicants l d).
Proof.
  unfold Roster.same_gender. cbn. intros Hsub Hall.
  apply Forall_forall. intros a Ha. eapply Forall_forall in Hall; [done|].
  by apply Hsub.
Qed.

Lemma map_replace_lookup {A} (i : nat) (y : A) (l : list A) :
  map_replace (Z.of_nat i) y 0 l = <[i := y]> l.
Proof.
  rewrite map_replace_insert by lia.
  by replace (Z.to_nat (Z.of_nat i) - 0)%nat with i by lia.
Qed.

(** What [handleOffCampusInputChange] does to the roster. *)
Lemma handleOffCampusInputChange_roster (program : string) (index : option Z) (s : State) :
  let s' := handleOffCampusInputChange program index s in
  applicationDetails s'
  = Details.set_Applicants (applicants_of s') (applicationDetails s) /\
  (applicants_of s' = applicants_of s \/
   exists i a,
     index = Some (Z.of_nat i) /\ applicants_of s !! i = Some a /\
     applicants_of s'
     = <[i := Applicant.set_OffCampusProgram program a]> (applicants_of s)).
Proof.
  unfold handleOffCampusInputChange. cbv zeta.
  destruct index as [index|];
    [|split; [cbn; by destruct (applicationDetails s) | by left]].
  destruct (Z.leb_spec 0 index);
    [|split; [cbn; by destruct (applicationDetails s) | by left]].
  cbn. split; [done|].
  rewrite map_replace_insert by lia.
  replace (Z.to_nat index - 0)%nat with (Z.to_nat index) by lia.
  destruct (applicants_of s !! Z.to_nat index) as [a|] eqn:Hi.
  - right. exists (Z.to_nat index), a. by rewrite Z2Nat.id.
  - left. apply list_insert_ge. by apply lookup_ge_None.
Qed.

(** X10: the roster stays of one gender.  When every applicant has the
    gender of the aggregate, this is still so after addApplicant, after
    removeApplicant and after a change of an off-campus program; and it
    is so in the draft that loadApplication starts. *)
Theorem roster_same_gender_kept (s : State)
    (Hsame : Roster.same_gender (applicationDetails s)) :
  (forall username,
     Roster.same_gender (applicationDetails (addApplicant' username s))) /\
  (forall username s',
     handleApplicantRemove username s = Some s' ->
     Roster.same_gender (applicationDetails s')) /\
  (forall program index,
     Roster.same_gender
       (applicationDetails (handleOffCampusInputChange program index s))) /\
  Roster.same_gender (applicationDetails (initializeNewApplication userProfile s)).
Proof.
  split; [|split; [|split]].
  - intros username.
    destruct (addApplicant_outcome username s)
      as [[-> _]|(p & _ & _ & _ & _ & Hg & _ & -> & _)]; [done|].
    unfold Roster.same_gender in *. cbn. apply Forall_app. split; [done|].
    constructor; [|done]. by exists (Spec.named p).
  - intros username s' Hrun. unfold handleApplicantRemove in Hrun.
    destruct (truthy username); [|by injection Hrun as <-].
    destruct (filter_ _ (applicants_of s)) as [r|] eqn:Hr; [|done].
    injection Hrun as <-. cbn. apply filter_username in Hr as [-> _].
    apply same_gender_sublist; [|done]. intros a [_ Ha]%list_elem_of_filter. done.
  - intros program index.
    destruct (handleOffCampusInputChange_roster program index s)
      as (Hagg & [Hroster|(i & a & _ & Hi & Hroster)]);
      rewrite Hagg, Hroster.
    + by destruct (applicationDetails s).
    + unfold Roster.same_gender in *. cbn.
      apply Forall_insert; [done|]. cbn.
      by eapply Forall_lookup_1 in Hsame.
  - unfold Roster.same_gender. cbn. constructor; [|done]. by exists userProfile.
Qed.



(** X12: a change of the off-campus program of the applicant at a
    position of the roster replaces the program of that applicant and
    nothing else of the roster; the aggregate then counts as unsaved and
    no notice is shown. *)
Theorem handleOffCampusInputChange_edit (program : string) (i : nat) (a : Applicant.t)
    (s : State)
    (Hi : applicants_of s !! i = Some a) :
  let s' := handleOffCampusInputChange program (Some (Z.of_nat i)) s in
  applicants_of s' = <[i := Applicant.set_OffCampusProgram program a]> (applicants_of s) /\
  applicants_of s' !! i
  = Some (Applicant.Make (Applicant.ApplicationID a) (Applicant.Profile a)
            (Applicant.Username a) program) /\
  (forall j, j <> i -> applicants_of s' !! j = applicants_of s !! j) /\
  unsavedChanges s' = true /\
  snackbar s' = snackbar s.
Proof.
  unfold handleOffCampusInputChange.
  destruct (Z.leb_spec 0 (Z.of_nat i)); [|lia].
  cbn. rewrite Nat2Z.id, Hi, map_replace_lookup.
  split; [done|]. split; [|split; [|done]].
  - apply list_lookup_insert_eq. by eapply lookup_lt_Some.
  - intros j Hj. by apply list_lookup_insert_ne.
Qed.

(** X13: a change of an off-campus program at an index that is not a
    position of the roster never changes the roster: with a null or
    negative index it shows an error notice and leaves the unsaved flag
    as it is; with an index past the end it shows nothing, yet the
    aggregate then counts as unsaved. *)
Theorem handleOffCampusInputChange_outside (program : string) (index : option Z)
    (s : State)
    (Houtside : forall z, index = Some z ->
                          (z < 0)%Z \/ (Z.of_nat (length (applicants_of s)) <= z)%Z) :
  let s' := handleOffCampusInputChange program index s in
  applicationDetails s' = applicationDetails s /\
  match index with
  | Some z =>
      if (0 <=? z)%Z then unsavedChanges s' = true /\ snackbar s' = snackbar s
      else unsavedChanges s' = unsavedChanges s /\
           snackbar s'
           = Spec.notice
               "Something went wrong while trying to change the off-campus program. Please try again."
               "error"
  | None =>
      unsavedChanges s' = unsavedChanges s /\
      snackbar s'
      = Spec.notice
          "Something went wrong while trying to change the off-campus program. Please try again."
          "error"
  end.
Proof.
  unfold handleOffCampusInputChange. destruct index as [z|]; [|done].
  destruct (Z.leb_spec 0 z) as [Hz|Hz]; [|done].
  destruct (Houtside z eq_refl) as [?|Hge]; [lia|].
  cbn. rewrite map_replace_insert by lia. rewrite list_insert_ge by lia.
  by destruct (applicationDetails s).
Qed.
End RosterProperties.

(** ** Hall preferences *)

Section HallProperties.
Import JS Lodash.

Local Abbreviation choices_of s := (Details.ApartmentChoices (applicationDetails s)).

Lemma clampRank_within_all (l l' : list Choice.t) :
  Forall (fun c => gt (Choice.HallRank c) (Num (Z.of_nat (length l'))) = false) l ->
  map (clampRank l') l = l.
Proof.
  induction 1 as [|c l Hc _ IH]; [done|]. cbn. rewrite IH. f_equal.
  unfold clampRank. by rewrite Hc.
Qed.

(** X14: addChoice followed by removeChoice of the row it added gives
    back the list of choices, when no rank in it exceeded its length. *)
Theorem handleHallAdd_then_remove (s : State)
    (Hranks : Forall (fun c => gt (Choice.HallRank c)
                                 (Num (Z.of_nat (length (choices_of s)))) = false)
                (choices_of s)) :
  choices_of (handleHallRemove (Some (Z.of_nat (length (choices_of s))))
                (handleHallAdd s))
  = choices_of s.
Proof.
  rewrite handleHallRemove_choices, handleHallAdd_choices.
  assert (forall (x : Choice.t) l, delete (length l) (l ++ [x])%list = l) as Hdel.
  { intros x l. induction l as [|y l IH]; [done|]. cbn. f_equal. apply IH. }
  rewrite Hdel. by apply clampRank_within_all.
Qed.

(** X15: an edit at an index that is not a row.  With an index past
    the end handleHallInputChange throws; with a null or negative index
    it shows an error notice and changes neither the aggregate nor the
    unsaved flag. *)
Theorem handleHallInputChange_outside parse (rank : value) (name : option string)
    (index : option Z) (s : State)
    (Houtside : forall z, index = Some z ->
                          (z < 0)%Z \/ (Z.of_nat (length (choices_of s)) <= z)%Z) :
  match handleHallInputChange parse rank name index s with
  | None => exists z, index = Some z /\ (Z.of_nat (length (choices_of s)) <= z)%Z
  | Some s' =>
      (index = None \/ exists z, index = Some z /\ (z < 0)%Z) /\
      applicationDetails s' = applicationDetails s /\
      unsavedChanges s' = unsavedChanges s /\
      snackbar s' = Spec.notice editHallErrorMessage "error"
  end.
Proof.
  unfold handleHallInputChange. destruct index as [z|]; [|by split; [left|]].
  destruct (Z.leb_spec 0 z) as [Hz|Hz]; [|split; [right; by exists z | done]].
  destruct (Houtside z eq_refl) as [?|Hge]; [lia|].
  rewrite (proj2 (lookup_ge_None _ _)) by lia. by exists z.
Qed.

(** X16: removeChoice at an index that is not a row removes nothing.
    With a null index or the index -1 the state is left as it is; with
    any other such index the list keeps its length and, when no rank
    exceeds that length, its entries, yet the aggregate then counts as
    unsaved. *)
Theorem handleHallRemove_outside (index : option Z) (s : State)
    (Houtside : forall z, index = Some z ->
                          (z < 0)%Z \/ (Z.of_nat (length (choices_of s)) <= z)%Z) :
  let s' := handleHallRemove index s in
  length (choices_of s') = length (choices_of s) /\
  (Forall (fun c => gt (Choice.HallRank c)
                      (Num (Z.of_nat (length (choices_of s)))) = false)
     (choices_of s) ->
   choices_of s' = choices_of s) /\
  match index with
  | None => s' = s
  | Some z => if (z =? -1)%Z then s' = s else unsavedChanges s' = true
  end.
Proof.
  unfold handleHallRemove. destruct index as [z|]; [|done].
  destruct (Z.eqb_spec z (-1)); [done|]. cbn.
  assert (filter_index (fun index => negb (Z.of_nat index =? z)%Z) 0 (choices_of s)
          = choices_of s) as ->.
  { destruct (Houtside z eq_refl).
    - apply filter_index_outside. lia.
    - rewrite filter_index_delete by lia.
      rewrite delete_take_drop, take_ge, drop_ge by lia. apply app_nil_r. }
  rewrite length_map. split; [done|]. split; [|done]. apply clampRank_within_all.
Qed.

Lemma sort_sorted {A} (cmp : A -> A -> Z) (l : list A) :
  Sorted (fun a b => (cmp a b <= 0)%Z) l -> sort cmp l = l.
Proof.
  induction 1 as [|a l _ IH Hhd]; [done|].
  rewrite sort_cons, IH. destruct Hhd as [|b l Hab]; [done|].
  cbn. by destruct (Z.leb_spec (cmp a b) 0); [|lia].
Qed.

Lemma compareMultiple_in_order {A} k1 k2 (a b : entry A) :
  criteria1 a = k1 (value_ a) -> criteria2 a = k2 (value_ a) ->
  criteria1 b = k1 (value_ b) -> criteria2 b = k2 (value_ b) ->
  Spec.key_le k1 k2 (value_ a) (value_ b) ->
  (index a < index b)%nat ->
  (compareMultiple a b <= 0)%Z.
Proof.
  intros Ha1 Ha2 Hb1 Hb2 Hle Hlt. unfold compareMultiple, Spec.key_le in *.
  rewrite Ha1, Ha2, Hb1, Hb2.
  destruct (k1 (value_ a)) as [|x]; [done|]. destruct (k1 (value_ b)) as [|y]; [done|].
  rewrite compareAscending_Num, compareAscending_string.
  destruct Hle as [Hxy|[-> Hnames]].
  - destruct (Z.eqb_spec x y); [lia|]. by destruct (Z.ltb_spec y x); [lia|].
  - rewrite Z.eqb_refl. cbn.
    destruct (compareStrings _ _); cbn; [lia|lia|done].
Qed.

Lemma imap_entries_sorted {A} k1 k2 (n : nat) (l : list A) :
  Sorted (Spec.key_le k1 k2) l ->
  Sorted (fun a b => (compareMultiple a b <= 0)%Z)
    (imap (fun i x => Entry (k1 x) (k2 x) (n + i) x) l).
Proof.
  intros Hs. revert n. induction Hs as [|x l _ IH Hhd]; intros n; [constructor|].
  cbn [imap]. constructor.
  - erewrite imap_ext; [apply (IH (S n))|]. intros i y _. cbn. f_equal. lia.
  - destruct Hhd as [|y l Hxy]; cbn; constructor.
    apply (compareMultiple_in_order k1 k2); cbn; try done. lia.
Qed.

Lemma sortBy_sorted {A} k1 k2 (l : list A) :
  Sorted (Spec.key_le k1 k2) l -> sortBy k1 k2 l = l.
Proof.
  intros Hs. unfold sortBy.
  rewrite sort_sorted by apply (imap_entries_sorted k1 k2 0 l Hs).
  by apply imap_value.
Qed.

(** X17: sorting the halls is idempotent: when every rank is a number,
    sorting the sorted list gives the sorted list. *)
Theorem sortHalls_idempotent (choices : list Choice.t)
    (Hnumeric : Spec.numeric_ranks choices) :
  sortHalls (sortHalls choices) = sortHalls choices.
Proof. apply sortBy_sorted. by apply sortHalls_Sorted. Qed.

(** X18: a refused edit of a list that is in the order of (rank, name)
    leaves the list exactly as it is. *)
Theorem refused_edit_keeps_sorted_list parse (rank : value) (name : option string)
    (i : nat) (current : Choice.t) (s : State)
    (Hi : choices_of s !! i = Some current)
    (Hconflict : Spec.name_conflict name i current (choices_of s))
    (Hsorted : Spec.sorted_by_rank_name (choices_of s)) :
  exists s',
    handleHallInputChange parse rank name (Some (Z.of_nat i)) s = Some s' /\
    choices_of s' = choices_of s.
Proof.
  destruct (handleHallInputChange_at parse rank name i current s Hi)
    as (s' & Hrun & _ & Hres).
  exists s'. split; [done|].
  apply (hallNameTaken_conflict name i current _ Hi) in Hconflict.
  rewrite Hconflict in Hres. destruct Hres as [-> _]. by apply sortBy_sorted.
Qed.
End HallProperties.

(** ** The hall names on offer *)

Section TrimProperties.
Import JS.

(** X19: trim strips white space at the two ends and nothing else:
    the string is its trimmed part between two runs of white space, and
    the trimmed part neither starts nor ends with white space. *)
Theorem trim_spec (s : string) :
  (exists front back,
     s = front ++ trim s ++ back /\
     Trim.blank front /\ Trim.blank back) /\
  Trim.trimmed (trim s).
Proof.
  split; [|apply trim_trimmed].
  destruct (trimStart_split s) as (front & Hs & Hfront).
  destruct (trimEnd_split (trimStart s)) as (back & Ht & Hback).
  exists front, back. split; [|done]. unfold trim. by rewrite <- Ht.
Qed.

(** X20: the hall names that loadHalls offers are those of the housing
    service, or those of the people search when the housing service
    fails, each trimmed at both ends; when both calls fail it offers
    nothing and fails. *)
Theorem loadHalls_offers
    (apartmentHalls goStalkHalls : response (list string)) :
  match loadHalls apartmentHalls goStalkHalls with
  | Some availableHalls =>
      exists source,
        (apartmentHalls = Resolved source \/
         (exists e, apartmentHalls = Rejected e) /\ goStalkHalls = Resolved source) /\
        availableHalls = map trim source /\
        Forall Trim.trimmed availableHalls
  | None =>
      (exists e, apartmentHalls = Rejected e) /\ (exists e, goStalkHalls = Rejected e)
  end.
Proof.
  unfold loadHalls.
  assert (forall source, Forall Trim.trimmed (map trim source)) as Htrimmed.
  { intros source. apply Forall_forall. intros hall Hin.
    change (map trim) with (fmap (M:=list) trim) in Hin.
    apply list_elem_of_fmap in Hin as (h & -> & _). apply trim_trimmed. }
  destruct apartmentHalls as [source|e]; [by exists source; auto|].
  destruct goStalkHalls as [source|e']; [|by eauto].
  exists source. split; [right; by eauto|by auto].
Qed.
End TrimProperties.

(** ** Submitting, deleting, changing the editor *)

Section PageProperties.
Import JS.
Variable userProfile : Profile.t.
Variable housingService : housing.t.
Variable housingService2 : housing2.t.

Local Abbreviation aggregate p := (applicationDetails (core p)).
Local Abbreviation roster p := (Details.Applicants (applicationDetails (core p))).
Local Abbreviation submit := (submitApplication userProfile housingService housingService2).
Local Abbreviation delete' :=
  (deleteApartmentApplication userProfile housingService housingService2).
Local Abbreviation changeEditor := (handleChangeEditor userProfile housingService).
Local Abbreviation acceptEditor := (handleChangeEditorAccepted userProfile housingService).

(** X21: submitting an application without applicants sends nothing,
    shows the error notice and leaves the aggregate as it is; the flag
    it sets to 'error' is the saving flag, and the submit status stays
    at true. *)
Theorem submitApplication_without_applicants (p : Page)
    (Hempty : roster p = []) :
  let p' := submit p in
  lifecycleRequests p' = lifecycleRequests p /\
  requests (core p') = requests (core p) /\
  aggregate p' = aggregate p /\
  snackbar (core p')
  = Spec.notice
      "Error: There are no applicants on this application. This should not be possible. Please refresh the page and try again."
      "error" /\
  saving (core p') = BError /\
  submitStatus p' = BTrue.
Proof.
  unfold submitApplication. cbn [core setSubmitStatus setSubmitButtonAlertTimeout].
  rewrite Hempty. cbn. by destruct (submitButtonAlertTimeout p).
Qed.

(** X22: when an applicant of the aggregate fails a local check (no
    profile, not a student, another gender), submitApplication sends no
    submission; the submit status stays at true and the saving flag as
    it was. *)
Theorem submitApplication_refused_locally (a : Applicant.t) (p : Page)
    (Hin : a ∈ roster p)
    (Hfails : Roster.fails_locally (aggregate p) a) :
  let p' := submit p in
  lifecycleRequests p' = lifecycleRequests p /\
  submitStatus p' = BTrue /\
  saving (core p') = saving (core p) /\
  unsavedChanges (core p') = unsavedChanges (core p).
Proof.
  unfold submitApplication. cbn [core setSubmitStatus setSubmitButtonAlertTimeout].
  destruct (Nat.ltb_spec (length (roster p)) 1) as [Hlt|_].
  { destruct (roster p); [by apply elem_of_nil in Hin | cbn in Hlt; lia]. }
  rewrite checkApplicants_unfold, bool_decide_eq_true_2 by done. cbv zeta.
  pose proof (validateApplicants_fails_locally housingService a _ (core p) Hin Hfails)
    as Hv.
  pose proof (validateApplicants_frame housingService (roster p) (core p))
    as (_ & Hu & Hs & _).
  destruct (validateApplicants housingService (roster p) (core p)) as [[vs apps] s1].
  cbn [fst snd] in *. rewrite Hv.
  by destruct (submitButtonAlertTimeout p).
Qed.

(** X23: when every applicant is eligible, submitApplication sends
    one submission, of the id of the aggregate.  If the housing service
    accepts it the submit status is 'success' and the application is
    reloaded (the query that begins the reload is sent after those of
    the checks); if it refuses, or answers false, the submit status is
    'error' and the notice of the failure is shown.  The saving flag is
    not touched. *)
Theorem submitApplication_outcome (answer : response bool) (p : Page)
    (Hnonempty : roster p <> [])
    (Hroom : (length (roster p) < MAX_NUM_APPLICANTS)%nat)
    (Heligible : Forall (Roster.eligible housingService (aggregate p)) (roster p))
    (Hservice : forall log log2 id,
        housing2.submitApplication housingService2 log log2 id = answer) :
  let p' := submit p in
  lifecycleRequests p'
  = (lifecycleRequests p
     ++ [housing_submitApplication (Details.ApplicationID (aggregate p))])%list /\
  saving (core p') = saving (core p) /\
  match answer with
  | Resolved true =>
      submitStatus p' = BSuccess /\ newEditorProfile (core p') = None /\
      exists before after,
        requests (core p')
        = (requests (core p) ++ before
           ++ housing_getCurrentApplicationID None :: after)%list
  | Resolved false =>
      submitStatus p' = BError /\
      snackbar (core p')
      = Spec.notice "Something went wrong while trying to submit the application." "error"
  | Rejected e =>
      submitStatus p' = BError /\
      snackbar (core p') = Spec.notice (lifecycle_error_message "submit" e) "error"
  end.
Proof.
  unfold submitApplication. cbn [core setSubmitStatus setSubmitButtonAlertTimeout].
  destruct (Nat.ltb_spec (length (roster p)) 1) as [Hlt|_].
  { destruct (roster p); [done | cbn in Hlt; lia]. }
  rewrite checkApplicants_unfold, bool_decide_eq_true_2 by done. cbv zeta.
  pose proof (validateApplicants_eligible housingService (roster p) (core p) Hroom Heligible)
    as (Hv & _ & _).
  pose proof (validateApplicants_frame housingService (roster p) (core p))
    as (_ & _ & Hs & _ & _ & _ & _ & queries & Hqueries & _).
  destruct (validateApplicants housingService (roster p) (core p)) as [[vs apps] s1].
  cbn [fst snd] in *. rewrite Hv, Hservice.
  destruct answer as [[|]|e].
  - destruct (submitButtonAlertTimeout p); cbn;
      match goal with
      | |- context [loadApplication userProfile housingService ?st] =>
          pose proof (loadApplication_frame userProfile housingService st)
            as (Hsaving & _ & _ & Hnew & _);
          destruct (loadApplication_requests userProfile housingService st)
            as (more & Hmore)
      end; cbn in *; rewrite Hsaving, Hnew, Hmore, Hqueries, <- app_assoc;
      (repeat split; try done); by exists queries, more.
  - destruct (submitButtonAlertTimeout p); cbn; done.
  - destruct (submitButtonAlertTimeout p); cbn; done.
Qed.

(** X24: deleteApartmentApplication sends one deletion, of the id of
    the aggregate.  If the housing service accepts it and then knows no
    application of the current user, the page is back at a draft with
    the current user as editor and only applicant, the cards are closed
    and the deleting flag is 'success'.  If the service refuses, or
    answers false, the deleting flag is 'error', the notice of the
    failure is shown and the aggregate and the cards stay as they are. *)
Theorem deleteApartmentApplication_outcome (answer : response bool) (p : Page)
    (Hservice : forall log log2 id,
        housing2.deleteApartmentApplication housingService2 log log2 id = answer) :
  let p' := delete' p in
  lifecycleRequests p'
  = (lifecycleRequests p
     ++ [housing_deleteApartmentApplication (Details.ApplicationID (aggregate p))])%list /\
  match answer with
  | Resolved true =>
      deleting p' = BSuccess /\
      applicationCardsOpen p' = false /\
      (housing.getCurrentApplicationID housingService (requests (core p)) None
       = Rejected NotFoundError ->
       aggregate p'
       = Details.Make None None None (Some userProfile) (Profile.Gender userProfile)
           [Applicant.Make None (Some userProfile) (Profile.AD_Username userProfile) ""]
           [] /\
       canEditApplication (core p') = true /\
       unsavedChanges (core p') = true)
  | Resolved false =>
      deleting p' = BError /\
      snackbar (core p')
      = Spec.notice "Something went wrong while trying to delete the application." "error" /\
      aggregate p' = aggregate p /\
      applicationCardsOpen p' = applicationCardsOpen p
  | Rejected e =>
      deleting p' = BError /\
      snackbar (core p') = Spec.notice (lifecycle_error_message "delete" e) "error" /\
      aggregate p' = aggregate p /\
      applicationCardsOpen p' = applicationCardsOpen p
  end.
Proof.
  unfold deleteApartmentApplication.
  cbn [core setDeleting setDeleteButtonAlertTimeout lifecycleRequests].
  rewrite Hservice.
  destruct answer as [[|]|e].
  - assert (housing.getCurrentApplicationID housingService (requests (core p)) None
            = Rejected NotFoundError ->
            applicationDetails (loadApplication userProfile housingService (core p)).2
            = Details.Make None None None (Some userProfile) (Profile.Gender userProfile)
                [Applicant.Make None (Some userProfile)
                   (Profile.AD_Username userProfile) ""] [] /\
            canEditApplication (loadApplication userProfile housingService (core p)).2
            = true /\
            unsavedChanges (loadApplication userProfile housingService (core p)).2
            = true) as Hdraft.
    { intros Hgone.
      by destruct (loadApplication_draft userProfile housingService (core p)
                     (or_introl Hgone)) as (_ & ? & ? & ? & _). }
    destruct (deleteButtonAlertTimeout p); cbn in *; done.
  - destruct (deleteButtonAlertTimeout p); cbn; done.
  - destruct (deleteButtonAlertTimeout p); cbn; done.
Qed.

Lemma some_on_roster (u : string) (l : list Applicant.t) :
  Roster.profiled l ->
  some (fun applicant =>
          match Applicant.Profile applicant with
          | Some q => Some (String.eqb (Profile.AD_Username q) u)
          | None => None
          end) l
  = Some (bool_decide (u ∈ Roster.usernames l)).
Proof.
  induction 1 as [|a l [q Hq] _ IH]; [done|].
  cbn [some]. rewrite Hq. unfold Roster.usernames. cbn. rewrite Hq. cbn.
  destruct (String.eqb_spec (Profile.AD_Username q) u) as [->|Hne].
  - by rewrite bool_decide_eq_true_2 by apply list_elem_of_here.
  - rewrite IH. f_equal. apply bool_decide_ext. rewrite elem_of_cons.
    unfold Roster.usernames. split; [by right | by intros [?|?]].
Qed.

(** X25: a change of editor is offered only to a member who may edit
    and only for a profile of the roster: otherwise handleChangeEditor
    leaves the page as it is. *)
Theorem handleChangeEditor_not_offered (profile : option Profile.t) (p : Page)
    (Hprofiled : Roster.profiled (roster p))
    (Hnot : canEditApplication (core p) = false \/
            forall q, profile = Some q ->
                      Profile.AD_Username q ∉ Roster.usernames (roster p)) :
  changeEditor profile p = Some p.
Proof.
  unfold handleChangeEditor. destruct profile as [q|]; [|done].
  destruct (canEditApplication (core p)); [|done].
  destruct Hnot as [?|Hnot]; [done|].
  rewrite some_on_roster by done.
  by rewrite bool_decide_eq_false_2 by by apply Hnot.
Qed.

(** X26: the nomination does not outlive a save.  For a member who may
    edit and a profile of the roster, with unsaved changes that the
    housing service accepts, handleChangeEditor opens the dialog, and
    once the save it started has run to its end no editor is nominated
    any more (the reload at the end of the save clears the nomination);
    accepting the dialog after that shows an error, sets the saving
    flag to 'error' and sends nothing, and the dialog stays open. *)
Theorem handleChangeEditor_nomination_lost (q : Profile.t) (id : Z) (p : Page)
    (Hprofiled : Roster.profiled (roster p))
    (Hrights : canEditApplication (core p) = true)
    (Hlisted : Profile.AD_Username q ∈ Roster.usernames (roster p))
    (Hunsaved : unsavedChanges (core p) = true)
    (Hroom : (length (roster p) < MAX_NUM_APPLICANTS)%nat)
    (Heligible : Forall (Roster.eligible housingService (aggregate p)) (roster p))
    (Hservice : forall log d,
        housing.saveApartmentApplication housingService log d = Resolved id)
    (Hid : id <> 0%Z) :
  exists p',
    changeEditor (Some q) p = Some p' /\
    changeEditorDialogOpen p' = true /\
    newEditorProfile (core p') = None /\
    let p'' := acceptEditor p' in
    snackbar (core p'') = Spec.notice changeEditorErrorMessage "error" /\
    saving (core p'') = BError /\
    requests (core p'') = requests (core p') /\
    aggregate p'' = aggregate p' /\
    changeEditorDialogOpen p'' = true.
Proof.
  unfold handleChangeEditor. rewrite Hrights, some_on_roster by done.
  rewrite bool_decide_eq_true_2, Hunsaved by done.
  eexists. split; [reflexivity|].
  cbn [changeEditorDialogOpen inCore core setChangeEditorDialogOpen].
  split; [done|].
  assert (roster p <> []) as Hnonempty.
  { intros E. rewrite E in Hlisted. by apply elem_of_nil in Hlisted. }
  destruct (save_accepted_reload userProfile housingService (aggregate p) id
              (setNewEditorProfile (Some q) (core p)) Hnonempty Hroom Heligible
              Hservice Hid)
    as (s3 & _ & _ & _ & _ & _ & _ & _ & Hnew & _).
  destruct (loadApplication_frame userProfile housingService s3) as (_ & _ & _ & Hn & _).
  rewrite Hn in Hnew. split; [done|].
  unfold handleChangeEditorAccepted.
  cbn [core inCore setChangeEditorDialogOpen]. rewrite Hnew. done.
Qed.



(** X29: the submit button opens its dialog whatever the save comes
    to: on an application without applicants the save is refused (error
    notice, saving flag 'error', nothing sent) and the dialog opens all
    the same. *)
Theorem handleSubmitButtonClick_without_applicants (p : Page)
    (Hempty : roster p = []) :
  let p' := handleSubmitButtonClick userProfile housingService p in
  submitDialogOpen p' = true /\
  saving (core p') = BError /\
  snackbar (core p')
  = Spec.notice
      "Error: There are no applicants on this application. This should not be possible. Please refresh the page and try again."
      "error" /\
  requests (core p') = requests (core p) /\
  lifecycleRequests p' = lifecycleRequests p.
Proof.
  unfold handleSubmitButtonClick, saveApartmentApplication, inCore.
  cbv beta zeta. cbn [core]. rewrite Hempty. cbn.
  by destruct (saveButtonAlertTimeout (core p)).
Qed.
End PageProperties.

(** ** The further properties, on the example application *)

Section FurtherExamples.
Import JS.

Local Abbreviation applicants_of s := (Details.Applicants (applicationDetails s)).
Local Abbreviation choices_of s := (Details.ApartmentChoices (applicationDetails s)).

Lemma example_eligible (housingService : housing.t) (d : Details.t) (p : Profile.t) :
  includes (Profile.PersonType p) "stu" = true ->
  Profile.Gender p = Details.Gender d ->
  (forall log u, housing.getCurrentApplicationID housingService log (Some u)
                 = Rejected NotFoundError) ->
  Roster.eligible housingService d (Example.applicant p).
Proof.
  intros Hstu Hg Hfree. exists p. repeat split; try done.
  intros log. unfold Spec.free_to_join. by rewrite Hfree.
Qed.

(** X1, on the example application. *)
Lemma loadApplication_starts_draft_witness :
  housing.getCurrentApplicationID Example.housingService
    (requests (Example.state [] [])) None = Rejected NotFoundError /\
  applicants_of (loadApplication Example.alice Example.housingService
                   (Example.state [] [])).2
  = [Example.applicant Example.alice].
Proof.
  split; [reflexivity|].
  destruct (loadApplication_starts_draft Example.alice Example.housingService
              (Example.state [] []) (or_introl eq_refl)) as (_ & Hd & _).
  by rewrite Hd.
Defined.

(** X2, on the example application. *)
Lemma loadApplication_adopts_record_witness :
  housing.getCurrentApplicationID Scenario.recordService
    (requests (Example.state [] [])) None = Resolved 17%Z /\
  applicationDetails
    (loadApplication Example.alice Scenario.recordService (Example.state [] [])).2
  = Scenario.record.
Proof.
  split; [reflexivity|].
  refine (proj1 (loadApplication_adopts_record Example.alice Scenario.recordService
                   17 Scenario.record (Example.state [] []) eq_refl _ eq_refl)).
  lia.
Defined.

(** X3, on the example application. *)
Lemma handleSaveButtonClick_full_roster_witness :
  (MAX_NUM_APPLICANTS
   <= length (applicants_of (Example.state Example.eightApplicants [])))%nat /\
  saving (handleSaveButtonClick Example.alice Example.housingService
            (Example.state Example.eightApplicants [])) = BTrue.
Proof.
  assert (MAX_NUM_APPLICANTS
          <= length (applicants_of (Example.state Example.eightApplicants [])))%nat
    as Hfull by (vm_compute; lia).
  split; [exact Hfull|].
  destruct (handleSaveButtonClick_full_roster Example.alice Example.housingService
              (Example.state Example.eightApplicants []) Hfull)
    as (_ & _ & _ & Hsaving & _).
  exact Hsaving.
Defined.

(** X4, on the example application. *)
Lemma save_refused_locally_witness :
  Roster.fails_locally (applicationDetails Scenario.aliceAndBob)
    (Example.applicant Example.bob) /\
  (saveApartmentApplication Example.alice Example.housingService
     (applicationDetails Scenario.aliceAndBob) Scenario.aliceAndBob).1 = None.
Proof.
  assert (Roster.fails_locally (applicationDetails Scenario.aliceAndBob)
            (Example.applicant Example.bob)) as Hfails by (right; discriminate).
  split; [exact Hfails|].
  refine (proj1 (save_refused_locally Example.alice Example.housingService
                   (applicationDetails Scenario.aliceAndBob)
                   (Example.applicant Example.bob) Scenario.aliceAndBob _ Hfails)).
  apply list_elem_of_further, list_elem_of_here.
Defined.



(** X8, on the example application. *)
Lemma handleApplicantRemove_removes_witness :
  "Carol.Clark" <> "" /\
  exists s',
    handleApplicantRemove "Carol.Clark" Scenario.aliceAndCarol = Some s' /\
    "Carol.Clark" ∉ Roster.usernames (applicants_of s').
Proof.
  split; [discriminate|].
  destruct (handleApplicantRemove_removes "Carol.Clark" Scenario.aliceAndCarol)
    as (s' & Hrun & _ & Hgone & _).
  - discriminate.
  - repeat constructor; by eexists.
  - exists s'. split; [exact Hrun | exact Hgone].
Defined.

(** X9, on the example application. *)
Lemma addApplicant_sound_witness :
  length (applicants_of (addApplicant Example.userService Example.housingService
                           "Carol.Clark" Scenario.aliceAlone))
  = S (length (applicants_of Scenario.aliceAlone)) /\
  exists p,
    user.getProfileInfo Example.userService (requests Scenario.aliceAlone) "Carol.Clark"
    = Resolved (Some p) /\
    Profile.Gender p = Details.Gender (applicationDetails Scenario.aliceAlone).
Proof.
  split; [reflexivity|].
  destruct (addApplicant_sound Example.userService Example.housingService
              "Carol.Clark" Scenario.aliceAlone eq_refl)
    as (p & Hp & _ & _ & _ & Hg & _).
  exists p. split; [exact Hp | exact Hg].
Defined.

(** X10, on the example application. *)
Lemma roster_same_gender_kept_witness :
  Roster.same_gender (applicationDetails Scenario.aliceAlone) /\
  Roster.same_gender
    (applicationDetails (addApplicant Example.userService Example.housingService
                           "Carol.Clark" Scenario.aliceAlone)).
Proof.
  assert (Roster.same_gender (applicationDetails Scenario.aliceAlone)) as Hsame.
  { constructor; [|constructor]. by exists Example.alice. }
  split; [exact Hsame|].
  exact (proj1 (roster_same_gender_kept Example.alice Example.userService
                  Example.housingService Scenario.aliceAlone Hsame) "Carol.Clark").
Defined.


(** X12, on the example application. *)
Lemma handleOffCampusInputChange_edit_witness :
  applicants_of Scenario.aliceAndCarol !! 1%nat = Some (Example.applicant Example.carol) /\
  applicants_of (handleOffCampusInputChange "Orvieto" (Some 1%Z) Scenario.aliceAndCarol)
  = [Example.applicant Example.alice;
     Applicant.Make None (Some Example.carol) "Carol.Clark" "Orvieto"].
Proof.
  split; [reflexivity|].
  exact (proj1 (handleOffCampusInputChange_edit "Orvieto" 1
                  (Example.applicant Example.carol) Scenario.aliceAndCarol eq_refl)).
Defined.

(** X13, on the example application. *)
Lemma handleOffCampusInputChange_outside_witness :
  (Z.of_nat (length (applicants_of Scenario.aliceAlone)) <= 5)%Z /\
  applicationDetails (handleOffCampusInputChange "Orvieto" (Some 5%Z) Scenario.aliceAlone)
  = applicationDetails Scenario.aliceAlone /\
  unsavedChanges (handleOffCampusInputChange "Orvieto" (Some 5%Z) Scenario.aliceAlone)
  = true.
Proof.
  split; [vm_compute; discriminate|].
  destruct (handleOffCampusInputChange_outside "Orvieto" (Some 5%Z) Scenario.aliceAlone)
    as (Hd & Hu & _).
  - intros z [= <-]. right. vm_compute. discriminate.
  - split; [exact Hd | exact Hu].
Defined.

(** X14, on the example application. *)
Lemma handleHallAdd_then_remove_witness :
  choices_of (handleHallRemove (Some 3%Z)
                (handleHallAdd (Example.state [] Example.threeHalls)))
  = Example.threeHalls.
Proof.
  apply (handleHallAdd_then_remove (Example.state [] Example.threeHalls)).
  repeat constructor.
Defined.

(** X15, on the example application. *)
Lemma handleHallInputChange_outside_witness :
  (Z.of_nat (length (choices_of (Example.state [] Example.threeHalls))) <= 7)%Z /\
  handleHallInputChange Example.StringToNumber (VString "1") (Some "Ferrin") (Some 7%Z)
    (Example.state [] Example.threeHalls) = None.
Proof.
  split; [vm_compute; discriminate|].
  pose proof (handleHallInputChange_outside Example.StringToNumber (VString "1")
                (Some "Ferrin") (Some 7%Z) (Example.state [] Example.threeHalls)) as H.
  destruct (handleHallInputChange _ _ _ _ _) as [s'|]; [|reflexivity].
  destruct H as ([[=]|(z & [= <-] & Hz)] & _).
  - intros z [= <-]. right. vm_compute. discriminate.
  - lia.
Defined.

(** X16, on the example application. *)
Lemma handleHallRemove_outside_witness :
  (Z.of_nat (length (choices_of (Example.state [] Example.threeHalls))) <= 7)%Z /\
  choices_of (handleHallRemove (Some 7%Z) (Example.state [] Example.threeHalls))
  = Example.threeHalls /\
  unsavedChanges (handleHallRemove (Some 7%Z) (Example.state [] Example.threeHalls))
  = true.
Proof.
  split; [vm_compute; discriminate|].
  destruct (handleHallRemove_outside (Some 7%Z) (Example.state [] Example.threeHalls))
    as (_ & Hsame & Hdirty).
  - intros z [= <-]. right. vm_compute. discriminate.
  - split; [apply Hsame; repeat constructor | exact Hdirty].
Defined.

(** X17, on the example application. *)
Lemma sortHalls_idempotent_witness :
  Spec.numeric_ranks (rev Example.threeHalls) /\
  sortHalls (sortHalls (rev Example.threeHalls)) = Example.threeHalls.
Proof.
  assert (Spec.numeric_ranks (rev Example.threeHalls)) as Hnumeric
      by (repeat constructor; discriminate).
  split; [exact Hnumeric|].
  by rewrite (sortHalls_idempotent (rev Example.threeHalls) Hnumeric).
Defined.

(** X18, on the example application. *)
Lemma refused_edit_keeps_sorted_list_witness :
  Spec.sorted_by_rank_name (choices_of (Example.state [] Example.threeHalls)) /\
  exists s',
    handleHallInputChange Example.StringToNumber (VString "3") (Some "Tavilla")
      (Some 0%Z) (Example.state [] Example.threeHalls) = Some s' /\
    choices_of s' = Example.threeHalls.
Proof.
  assert (Spec.sorted_by_rank_name (choices_of (Example.state [] Example.threeHalls)))
    as Hsorted.
  { repeat constructor; left; reflexivity. }
  split; [exact Hsorted|].
  apply (refused_edit_keeps_sorted_list Example.StringToNumber (VString "3")
           (Some "Tavilla") 0 (Example.hall 1 "Bromley")
           (Example.state [] Example.threeHalls) eq_refl); [|exact Hsorted].
  split; [discriminate|]. exists 1%nat, (Example.hall 2 "Tavilla").
  split; [lia|]. split; reflexivity.
Defined.
End FurtherExamples.

Section PageExamples.
Import JS.

Local Abbreviation roster p := (Details.Applicants (applicationDetails (core p))).

(** The page after Carol was nominated as editor. *)
Local Abbreviation carolNominated :=
  (Scenario.page (setNewEditorProfile (Some Example.carol) Scenario.aliceAndCarol)).

Lemma aliceAndCarol_eligible (housingService : housing.t) :
  (forall log u, housing.getCurrentApplicationID housingService log (Some u)
                 = Rejected NotFoundError) ->
  Forall (Roster.eligible housingService (applicationDetails Scenario.aliceAndCarol))
    (Details.Applicants (applicationDetails Scenario.aliceAndCarol)).
Proof.
  intros Hfree. repeat constructor; by apply example_eligible.
Qed.

(** X21, on the example application. *)
Lemma submitApplication_without_applicants_witness :
  roster (Scenario.page (Example.state [] [])) = [] /\
  submitStatus (submitApplication Example.alice Example.housingService
                  Scenario.acceptingService (Scenario.page (Example.state [] [])))
  = BTrue /\
  saving (core (submitApplication Example.alice Example.housingService
                  Scenario.acceptingService (Scenario.page (Example.state [] []))))
  = BError.
Proof.
  split; [reflexivity|].
  destruct (submitApplication_without_applicants Example.alice Example.housingService
              Scenario.acceptingService (Scenario.page (Example.state [] [])) eq_refl)
    as (_ & _ & _ & _ & Hsaving & Hstatus).
  split; [exact Hstatus | exact Hsaving].
Defined.

(** X22, on the example application. *)
Lemma submitApplication_refused_locally_witness :
  Roster.fails_locally (applicationDetails Scenario.aliceAndBob)
    (Example.applicant Example.bob) /\
  lifecycleRequests (submitApplication Example.alice Example.housingService
                       Scenario.acceptingService (Scenario.page Scenario.aliceAndBob))
  = [].
Proof.
  assert (Roster.fails_locally (applicationDetails Scenario.aliceAndBob)
            (Example.applicant Example.bob)) as Hfails by (right; discriminate).
  split; [exact Hfails|].
  refine (proj1 (submitApplication_refused_locally Example.alice Example.housingService
                   Scenario.acceptingService (Example.applicant Example.bob)
                   (Scenario.page Scenario.aliceAndBob) _ Hfails)).
  apply list_elem_of_further, list_elem_of_here.
Defined.

(** X23, on the example application. *)
Lemma submitApplication_outcome_witness :
  roster (Scenario.page Scenario.aliceAndCarol) <> [] /\
  submitStatus (submitApplication Example.alice Example.housingService
                  Scenario.acceptingService (Scenario.page Scenario.aliceAndCarol))
  = BSuccess.
Proof.
  split; [discriminate|].
  destruct (submitApplication_outcome Example.alice Example.housingService
              Scenario.acceptingService (Resolved true)
              (Scenario.page Scenario.aliceAndCarol))
    as (_ & _ & Hstatus & _).
  - discriminate.
  - vm_compute. lia.
  - by apply aliceAndCarol_eligible.
  - reflexivity.
  - exact Hstatus.
Defined.

(** X24, on the example application. *)
Lemma deleteApartmentApplication_outcome_witness :
  applicationCardsOpen
    (deleteApartmentApplication Example.alice Example.housingService
       Scenario.acceptingService (Scenario.page Scenario.aliceAndCarol)) = false /\
  roster (deleteApartmentApplication Example.alice Example.housingService
            Scenario.acceptingService (Scenario.page Scenario.aliceAndCarol))
  = [Example.applicant Example.alice].
Proof.
  destruct (deleteApartmentApplication_outcome Example.alice Example.housingService
              Scenario.acceptingService (Resolved true)
              (Scenario.page Scenario.aliceAndCarol) (fun _ _ _ => eq_refl))
    as (_ & _ & Hcards & Hdraft).
  split; [exact Hcards|].
  destruct (Hdraft eq_refl) as (Hagg & _). by rewrite Hagg.
Defined.

(** X25, on the example application. *)
Lemma handleChangeEditor_not_offered_witness :
  Roster.profiled (roster (Scenario.page Scenario.aliceAlone)) /\
  handleChangeEditor Example.alice Example.housingService (Some Example.bob)
    (Scenario.page Scenario.aliceAlone)
  = Some (Scenario.page Scenario.aliceAlone).
Proof.
  assert (Roster.profiled (roster (Scenario.page Scenario.aliceAlone))) as Hprofiled
      by (repeat constructor; by eexists).
  split; [exact Hprofiled|].
  apply (handleChangeEditor_not_offered Example.alice Example.housingService
           (Some Example.bob) (Scenario.page Scenario.aliceAlone) Hprofiled).
  right. intros q [= <-]. apply (bool_decide_unpack _). by vm_compute.
Defined.

(** X26, on the example application. *)
Lemma handleChangeEditor_nomination_lost_witness :
  unsavedChanges (core (Scenario.page (setUnsavedChanges true Scenario.aliceAndCarol)))
  = true /\
  exists p',
    handleChangeEditor Example.alice Example.housingService (Some Example.carol)
      (Scenario.page (setUnsavedChanges true Scenario.aliceAndCarol)) = Some p' /\
    changeEditorDialogOpen p' = true /\
    newEditorProfile (core p') = None.
Proof.
  split; [reflexivity|].
  destruct (handleChangeEditor_nomination_lost Example.alice Example.housingService
              Example.carol 17
              (Scenario.page (setUnsavedChanges true Scenario.aliceAndCarol)))
    as (p' & Hrun & Hopen & Hlost & _).
  - repeat constructor; by eexists.
  - reflexivity.
  - apply (bool_decide_unpack _). by vm_compute.
  - reflexivity.
  - vm_compute. lia.
  - by apply aliceAndCarol_eligible.
  - reflexivity.
  - discriminate.
  - exists p'. split; [exact Hrun|]. split; [exact Hopen | exact Hlost].
Defined.



(** X29, on the example application. *)
Lemma handleSubmitButtonClick_without_applicants_witness :
  roster (Scenario.page (Example.state [] [])) = [] /\
  submitDialogOpen (handleSubmitButtonClick Example.alice Example.housingService
                      (Scenario.page (Example.state [] []))) = true.
Proof.
  split; [reflexivity|].
  exact (proj1 (handleSubmitButtonClick_without_applicants Example.alice
                  Example.housingService (Scenario.page (Example.state [] [])) eq_refl)).
Defined.
End PageExamples.
